(** * DNS-Query-Tool: packet codec, response cache and resolver

    A shallow embedding of [src/packet_builder.py], [src/packet_parser.py],
    [src/cache_manager.py] and [src/dns_client.py], followed by the
    properties of the specification that are settled on it.

    Conventions.
    - [bytes] objects are lists of [Byte.byte]; an indexed byte is read as
      an integer with [byte_val].
    - Python [int] is [Z]; offsets are [Z] because Python accepts negative
      indices and the pointer arithmetic of the parser is unbounded.
    - Python [str] is [string]; characters at or above 128 stand for the
      non-ASCII code points (what matters to the code is only whether
      [encode('ascii')] accepts a character).
    - A computation ends in a value, in a raised exception, or has not
      finished when its fuel is spent ([run]); only the [while True] loop
      of [_parse_domain_name] consumes fuel.
    - [time.time()] is a parameter of every cache operation that reads the
      clock; timestamps are integers. *)

From Stdlib Require Import ZArith List String Ascii Strings.Byte Bool Lia DecimalString.
Import ListNotations.
Local Open Scope Z_scope.

(** ** Python primitives used by the sources *)

Module Py.

Inductive exn : Type :=
| ValueError (msg : string)
| Exception (msg : string)
| StructError
| IndexError
| KeyError (key : string)
| UnicodeEncodeError.

Inductive run (A : Type) : Type :=
| Ret (a : A)
| Raise (e : exn)
| OutOfFuel.

Arguments Ret {A} a.
Arguments Raise {A} e.
Arguments OutOfFuel {A}.

Definition bind {A B : Type} (c : run A) (k : A -> run B) : run B :=
  match c with
  | Ret a => k a
  | Raise e => Raise e
  | OutOfFuel => OutOfFuel
  end.

Definition bytes := list byte.

Definition byte_val (b : byte) : Z := Z.of_N (Byte.to_N b).

Definition len {A : Type} (l : list A) : Z := Z.of_nat (List.length l).

Definition slen (s : string) : Z := Z.of_nat (String.length s).

(** [seq[i]]: negative indices count from the end, anything else outside
    the sequence is an [IndexError]. *)
Definition getitem {A : Type} (l : list A) (i : Z) : option A :=
  if (0 <=? i) && (i <? len l) then nth_error l (Z.to_nat i)
  else if (- len l <=? i) && (i <? 0) then nth_error l (Z.to_nat (i + len l))
  else None.

(** A slice bound as Python normalises it. *)
Definition clamp (n i : Z) : Z :=
  if i <? 0 then Z.max (i + n) 0 else Z.min i n.

(** [seq[a:b]]. *)
Definition slice {A : Type} (l : list A) (a b : Z) : list A :=
  let s := clamp (len l) a in
  let e := clamp (len l) b in
  firstn (Z.to_nat (e - s)) (skipn (Z.to_nat s) l).

(** Big-endian unsigned integer held by a run of bytes. *)
Definition be_uint (bs : bytes) : Z :=
  fold_left (fun acc b => acc * 256 + byte_val b) bs 0.

Definition byte_of_Z (z : Z) : byte :=
  match Byte.of_N (Z.to_N z) with
  | Some b => b
  | None => x00
  end.

(** [struct.pack('!B', v)] and [struct.pack('!H', v)]. *)
Definition pack_B (v : Z) : run bytes :=
  if (0 <=? v) && (v <? 256) then Ret [byte_of_Z v] else Raise StructError.

Definition pack_H (v : Z) : run bytes :=
  if (0 <=? v) && (v <? 65536)
  then Ret [byte_of_Z (v / 256); byte_of_Z (v mod 256)]
  else Raise StructError.

Fixpoint pack_Hs (vs : list Z) : run bytes :=
  match vs with
  | [] => Ret []
  | v :: vs' =>
      bind (pack_H v) (fun b => bind (pack_Hs vs') (fun bs => Ret (b ++ bs)))
  end.

(** [struct.unpack] for the four formats of the parser: the buffer must
    have exactly the size of the format. *)
Definition unpack_H (bs : bytes) : run Z :=
  if len bs =? 2 then Ret (be_uint bs) else Raise StructError.

Definition unpack_HH (bs : bytes) : run (Z * Z) :=
  if len bs =? 4
  then Ret (be_uint (slice bs 0 2), be_uint (slice bs 2 4))
  else Raise StructError.

Definition unpack_HHIH (bs : bytes) : run (Z * Z * Z * Z) :=
  if len bs =? 10
  then Ret (be_uint (slice bs 0 2), be_uint (slice bs 2 4),
            be_uint (slice bs 4 8), be_uint (slice bs 8 10))
  else Raise StructError.

Definition unpack_HHHHHH (bs : bytes) : run (Z * Z * Z * Z * Z * Z) :=
  if len bs =? 12
  then Ret (be_uint (slice bs 0 2), be_uint (slice bs 2 4),
            be_uint (slice bs 4 6), be_uint (slice bs 6 8),
            be_uint (slice bs 8 10), be_uint (slice bs 10 12))
  else Raise StructError.

Definition is_ascii (c : ascii) : bool := (N_of_ascii c <? 128)%N.

(** [s.encode('ascii')] *)
Definition encode_ascii (s : string) : run bytes :=
  if forallb is_ascii (list_ascii_of_string s)
  then Ret (map byte_of_ascii (list_ascii_of_string s))
  else Raise UnicodeEncodeError.

(** [b.decode('ascii', errors='ignore')] *)
Definition decode_ascii_ignore (bs : bytes) : string :=
  string_of_list_ascii
    (map ascii_of_byte (filter (fun b => byte_val b <? 128) bs)).

(** [s.split(sep)] for a one-character separator. *)
Fixpoint split (sep : ascii) (s : string) : list string :=
  match s with
  | EmptyString => [EmptyString]
  | String c s' =>
      if Ascii.eqb c sep then EmptyString :: split sep s'
      else match split sep s' with
           | [] => [String c EmptyString]
           | l :: ls => String c l :: ls
           end
  end.

(** [sep.join(parts)] *)
Definition join (sep : string) (parts : list string) : string :=
  String.concat sep parts.

(** [str(n)] *)
Definition str_of_int (z : Z) : string :=
  NilZero.string_of_int (Z.to_int z).

Definition hex_digit (n : N) : ascii :=
  if (n <? 10)%N then ascii_of_N (48 + n) else ascii_of_N (87 + n).

(** [b.hex()] *)
Fixpoint hex (bs : bytes) : string :=
  match bs with
  | [] => EmptyString
  | b :: bs' =>
      String (hex_digit (Byte.to_N b / 16))
        (String (hex_digit (Byte.to_N b mod 16)) (hex bs'))
  end.

Fixpoint prefix_at (sub l : bytes) : bool :=
  match sub, l with
  | [], _ => true
  | _ :: _, [] => false
  | x :: sub', y :: l' => Byte.eqb x y && prefix_at sub' l'
  end.

Fixpoint find_from (sub l : bytes) (i : Z) : Z :=
  if prefix_at sub l then i
  else match l with
       | [] => -1
       | _ :: l' => find_from sub l' (i + 1)
       end.

(** [b.find(sub)] *)
Definition find (l sub : bytes) : Z := find_from sub l 0.

(** [d.get(key)] on a dictionary kept in insertion order. *)
Fixpoint dict_get {K V : Type} (eqb : K -> K -> bool)
    (d : list (K * V)) (k : K) : option V :=
  match d with
  | [] => None
  | (k', v) :: d' => if eqb k' k then Some v else dict_get eqb d' k
  end.

End Py.

Import Py.

Notation "x <- c ;; k" := (Py.bind c (fun x => k))
  (at level 61, c at next level, right associativity).
Notation "' pat <- c ;; k" :=
  (Py.bind c (fun x => match x with pat => k end))
  (at level 61, pat pattern, c at next level, right associativity).

(** ** [src/packet_builder.py] *)

Module DNSPacketBuilder.

Definition RECORD_TYPES : list (string * Z) :=
  [("A", 1); ("NS", 2); ("CNAME", 5); ("PTR", 12); ("MX", 15); ("TXT", 16);
   ("AAAA", 28)]%string.

Definition CLASS_IN : Z := 1.

Definition _build_header (transaction_id : Z) : run bytes :=
  let id_field := Z.land transaction_id 0xFFFF in
  let flags := 0x0100 in
  let qdcount := 1 in
  let ancount := 0 in
  let nscount := 0 in
  let arcount := 0 in
  pack_Hs [id_field; flags; qdcount; ancount; nscount; arcount].

(** The [for label in labels] loop of [_encode_domain_name]; [encoded] is
    the accumulator of the same name. *)
Fixpoint encode_labels (labels : list string) (encoded : bytes) : run bytes :=
  match labels with
  | [] => Ret encoded
  | label :: rest =>
      if slen label =? 0 then encode_labels rest encoded
      else if slen label >? 63
      then Raise (ValueError ("Label too long: " ++ label)%string)
      else
        n <- pack_B (slen label) ;;
        l <- encode_ascii label ;;
        encode_labels rest (encoded ++ n ++ l)
  end.

Definition _encode_domain_name (domain : string) : run bytes :=
  if (slen domain =? 0) || (slen domain >? 253)
  then Raise (ValueError "Invalid domain name length"%string)
  else
    encoded <- encode_labels (split "."%char domain) [] ;;
    Ret (encoded ++ [x00]).

Definition _build_question (domain record_type : string) : run bytes :=
  qname <- _encode_domain_name domain ;;
  match dict_get String.eqb RECORD_TYPES record_type with
  | None => Raise (KeyError record_type)
  | Some qtype =>
      let qclass := CLASS_IN in
      tail <- pack_Hs [qtype; qclass] ;;
      Ret (qname ++ tail)
  end.

Definition build_query (domain record_type : string) (transaction_id : Z)
  : run bytes :=
  match dict_get String.eqb RECORD_TYPES record_type with
  | None =>
      Raise (ValueError ("Unsupported record type: " ++ record_type)%string)
  | Some _ =>
      header <- _build_header transaction_id ;;
      question <- _build_question domain record_type ;;
      Ret (header ++ question)
  end.

Definition build_reverse_query (ip_address : string) (transaction_id : Z)
  : run bytes :=
  let octets := split "."%char ip_address in
  if negb (len octets =? 4)
  then Raise (ValueError ("Invalid IP address: " ++ ip_address)%string)
  else
    let reverse_domain :=
      (join "." (rev octets) ++ ".in-addr.arpa")%string in
    build_query reverse_domain "PTR" transaction_id.

End DNSPacketBuilder.

(** ** [src/packet_parser.py] *)

Module DNSPacketParser.

Definition RECORD_TYPES : list (Z * string) :=
  [(1, "A"); (2, "NS"); (5, "CNAME"); (12, "PTR"); (15, "MX"); (16, "TXT");
   (28, "AAAA")]%string.

Definition RESPONSE_CODES : list (Z * string) :=
  [(0, "NOERROR"); (1, "FORMERR"); (2, "SERVFAIL"); (3, "NXDOMAIN");
   (4, "NOTIMP"); (5, "REFUSED")]%string.

Record header : Type := mk_header {
  h_id : Z;
  h_flags : Z;
  h_qdcount : Z;
  h_ancount : Z;
  h_nscount : Z;
  h_arcount : Z;
  h_qr : Z;
  h_opcode : Z;
  h_aa : Z;
  h_tc : Z;
  h_rd : Z;
  h_ra : Z;
  h_rcode : Z
}.

Record question : Type := mk_question {
  q_name : string;
  q_type : string;
  q_class : Z
}.

(** The text in a record's ['data']. [socket.inet_ntop(AF_INET6, b)] is
    a library call on the 16 bytes [b]; its result is kept symbolic. *)
Inductive rdata_text : Type :=
| Text (s : string)
| Inet6Text (addr : bytes).

Record record : Type := mk_record {
  r_name : string;
  r_type : string;
  r_class : Z;
  r_ttl : Z;
  r_data : rdata_text
}.

(** The response dictionary. The last three keys are absent ([None])
    until [DNSClient.query] adds them. *)
Record response : Type := mk_response {
  id : Z;
  status : string;
  flags : Z;
  questions : list question;
  answers : list record;
  authority : list record;
  additional : list record;
  query_name : option string;
  query_type : option string;
  dns_server : option string
}.

Definition _parse_header (packet : bytes) (offset : Z) : run (header * Z) :=
  '(hid, hflags, qd, an, ns, ar) <-
     unpack_HHHHHH (slice packet offset (offset + 12)) ;;
  let flags := hflags in
  Ret (mk_header hid hflags qd an ns ar
         (Z.land (Z.shiftr flags 15) 1)
         (Z.land (Z.shiftr flags 11) 15)
         (Z.land (Z.shiftr flags 10) 1)
         (Z.land (Z.shiftr flags 9) 1)
         (Z.land (Z.shiftr flags 8) 1)
         (Z.land (Z.shiftr flags 7) 1)
         (Z.land flags 15),
       offset + 12).

Definition finish_name (labels : list string) (offset original_offset : Z)
    (jumped : bool) : string * Z :=
  let domain_name :=
    match labels with
    | [] => "."%string
    | _ => join "." labels
    end in
  let final_offset := if jumped then original_offset else offset in
  (domain_name, final_offset).

(** The [while True] loop of [_parse_domain_name], one iteration per unit
    of fuel; the arguments are the loop's local variables. *)
Fixpoint name_loop (fuel : nat) (packet : bytes) (offset : Z)
    (labels : list string) (original_offset : Z) (jumped : bool)
  : run (string * Z) :=
  match fuel with
  | O => OutOfFuel
  | S fuel' =>
      if offset >=? len packet
      then Ret (finish_name labels offset original_offset jumped)
      else
        match getitem packet offset with
        | None => Raise IndexError
        | Some b =>
            let length := byte_val b in
            if Z.land length 0xC0 =? 0xC0 then
              let original_offset' :=
                if jumped then original_offset else offset + 2 in
              v <- unpack_H (slice packet offset (offset + 2)) ;;
              let pointer := Z.land v 0x3FFF in
              name_loop fuel' packet pointer labels original_offset' true
            else if length =? 0 then
              Ret (finish_name labels (offset + 1) original_offset jumped)
            else
              let offset1 := offset + 1 in
              if offset1 + length >? len packet
              then Ret (finish_name labels offset1 original_offset jumped)
              else
                let label :=
                  decode_ascii_ignore
                    (slice packet offset1 (offset1 + length)) in
                name_loop fuel' packet (offset1 + length)
                  (labels ++ [label]) original_offset jumped
        end
  end.

Definition _parse_domain_name (fuel : nat) (packet : bytes) (offset : Z)
  : run (string * Z) :=
  name_loop fuel packet offset [] offset false.

Definition _parse_question (fuel : nat) (packet : bytes) (offset : Z)
  : run (question * Z) :=
  '(name, offset) <- _parse_domain_name fuel packet offset ;;
  '(qtype, qclass) <- unpack_HH (slice packet offset (offset + 4)) ;;
  let offset := offset + 4 in
  let type :=
    match dict_get Z.eqb RECORD_TYPES qtype with
    | Some t => t
    | None => ("TYPE" ++ str_of_int qtype)%string
    end in
  Ret (mk_question name type qclass, offset).

(** [socket.inet_ntoa] on four bytes. *)
Definition inet_ntoa (b : bytes) : string :=
  join "." (map (fun x => str_of_int (byte_val x)) b).

(** The [while offset < len(rdata)] loop of the TXT case. Every iteration
    consumes a byte, so [len(rdata)] iterations are always enough. *)
Fixpoint txt_loop (n : nat) (rdata : bytes) (offset : Z)
    (text_parts : list string) : list string :=
  match n with
  | O => text_parts
  | S n' =>
      if offset <? len rdata then
        match getitem rdata offset with
        | None => text_parts
        | Some b =>
            let length := byte_val b in
            let offset := offset + 1 in
            if offset + length <=? len rdata
            then txt_loop n' rdata (offset + length)
                   (text_parts ++
                    [decode_ascii_ignore (slice rdata offset (offset + length))])
            else text_parts
        end
      else text_parts
  end.

Definition dquote : string := String (ascii_of_N 34) EmptyString.

Definition _parse_record_data (fuel : nat) (record_type : string)
    (rdata packet : bytes) : run rdata_text :=
  let hex_fallback := Ret (Text (hex rdata)) in
  let body :=
    if String.eqb record_type "A" then
      if len rdata =? 4 then Ret (Text (inet_ntoa rdata)) else hex_fallback
    else if String.eqb record_type "AAAA" then
      if len rdata =? 16 then Ret (Inet6Text rdata) else hex_fallback
    else if existsb (String.eqb record_type) ["NS"; "CNAME"; "PTR"]%string then
      '(name, _) <- _parse_domain_name fuel packet (find packet rdata) ;;
      Ret (Text name)
    else if String.eqb record_type "MX" then
      if len rdata >=? 3 then
        priority <- unpack_H (slice rdata 0 2) ;;
        let domain_start := find packet (slice rdata 2 (len rdata)) in
        if negb (domain_start =? -1) then
          '(name, _) <- _parse_domain_name fuel packet domain_start ;;
          Ret (Text (str_of_int priority ++ " " ++ name)%string)
        else Ret (Text (str_of_int priority ++ " <unknown>")%string)
      else hex_fallback
    else if String.eqb record_type "TXT" then
      Ret (Text (dquote
                 ++ String.concat "" (txt_loop (List.length rdata) rdata 0 [])
                 ++ dquote)%string)
    else hex_fallback in
  match body with
  | Raise _ => hex_fallback
  | r => r
  end.

Definition _parse_resource_record (fuel : nat) (packet : bytes) (offset : Z)
  : run (record * Z) :=
  '(name, offset) <- _parse_domain_name fuel packet offset ;;
  '(rtype, rclass, ttl, rdlength) <-
     unpack_HHIH (slice packet offset (offset + 10)) ;;
  let offset := offset + 10 in
  let rdata := slice packet offset (offset + rdlength) in
  let offset := offset + rdlength in
  let record_type :=
    match dict_get Z.eqb RECORD_TYPES rtype with
    | Some t => t
    | None => ("TYPE" ++ str_of_int rtype)%string
    end in
  parsed_data <- _parse_record_data fuel record_type rdata packet ;;
  Ret (mk_record name record_type rclass ttl parsed_data, offset).

(** A [for _ in range(n)] loop of [parse_response] that appends to one of
    the lists of the response: the list built so far survives an
    exception, as the in-place [append] makes it. *)
Fixpoint parse_items {A : Type} (parse_one : Z -> run (A * Z)) (n : nat)
    (offset : Z) (acc : list A) : list A * run Z :=
  match n with
  | O => (acc, Ret offset)
  | S n' =>
      match parse_one offset with
      | Ret (x, offset') => parse_items parse_one n' offset' (acc ++ [x])
      | Raise e => (acc, Raise e)
      | OutOfFuel => (acc, OutOfFuel)
      end
  end.

Definition status_of_rcode (rcode : Z) : string :=
  match dict_get Z.eqb RESPONSE_CODES rcode with
  | Some s => s
  | None => ("UNKNOWN(" ++ str_of_int rcode)%string
  end.

Definition set_questions (r : response) (l : list question) : response :=
  mk_response (id r) (status r) (flags r) l (answers r) (authority r)
    (additional r) (query_name r) (query_type r) (dns_server r).

Definition set_answers (r : response) (l : list record) : response :=
  mk_response (id r) (status r) (flags r) (questions r) l (authority r)
    (additional r) (query_name r) (query_type r) (dns_server r).

Definition set_authority (r : response) (l : list record) : response :=
  mk_response (id r) (status r) (flags r) (questions r) (answers r) l
    (additional r) (query_name r) (query_type r) (dns_server r).

Definition set_additional (r : response) (l : list record) : response :=
  mk_response (id r) (status r) (flags r) (questions r) (answers r)
    (authority r) l (query_name r) (query_type r) (dns_server r).

(** The body of the [try] block of [parse_response]: the response as the
    four loops leave it, with the offset reached, the exception that
    interrupted them, or [OutOfFuel]. *)
Definition parse_sections (fuel : nat) (packet : bytes) (hd : header)
    (offset : Z) (response0 : response) : response * run Z :=
  let '(qs, o) :=
    parse_items (_parse_question fuel packet) (Z.to_nat (h_qdcount hd))
      offset (questions response0) in
  let response1 := set_questions response0 qs in
  match o with
  | Ret offset =>
      let '(ans, o) :=
        parse_items (_parse_resource_record fuel packet)
          (Z.to_nat (h_ancount hd)) offset (answers response1) in
      let response2 := set_answers response1 ans in
      match o with
      | Ret offset =>
          let '(auth, o) :=
            parse_items (_parse_resource_record fuel packet)
              (Z.to_nat (h_nscount hd)) offset (authority response2) in
          let response3 := set_authority response2 auth in
          match o with
          | Ret offset =>
              let '(add, o) :=
                parse_items (_parse_resource_record fuel packet)
                  (Z.to_nat (h_arcount hd)) offset (additional response3) in
              (set_additional response3 add, o)
          | _ => (response3, o)
          end
      | _ => (response2, o)
      end
  | _ => (response1, o)
  end.

Definition parse_response (fuel : nat) (packet : bytes)
    (expected_id : option Z) : run response :=
  if len packet <? 12
  then Raise (Exception "DNS packet too short (minimum 12 bytes required)")
  else
    let offset := 0 in
    '(hd, offset) <- _parse_header packet offset ;;
    let mismatch :=
      match expected_id with
      | Some e => negb (h_id hd =? e)
      | None => false
      end in
    if mismatch
    then Raise (Exception
                  ("Transaction ID mismatch: expected "
                   ++ match expected_id with
                      | Some e => str_of_int e
                      | None => "None"
                      end
                   ++ ", got " ++ str_of_int (h_id hd))%string)
    else
      let response0 :=
        mk_response (h_id hd) (status_of_rcode (h_rcode hd)) (h_flags hd)
          [] [] [] [] None None None in
      match parse_sections fuel packet hd offset response0 with
      | (_, OutOfFuel) => OutOfFuel
      | (response, _) => Ret response
      end.

End DNSPacketParser.

(** ** [src/cache_manager.py] *)

Module CacheManager.

(** [self._cache] is a Python dictionary: keys are unique and iteration
    follows insertion order, which decides ties in [_evict_oldest]. *)
Section Dict.

Context {V : Type}.

Fixpoint dict_mem (k : string) (d : list (string * V)) : bool :=
  match d with
  | [] => false
  | (k', _) :: d' => String.eqb k' k || dict_mem k d'
  end.

(** [d[k] = v]: a present key keeps its place, a new key goes last. *)
Fixpoint dict_set (k : string) (v : V) (d : list (string * V))
  : list (string * V) :=
  match d with
  | [] => [(k, v)]
  | (k', v') :: d' =>
      if String.eqb k' k then (k', v) :: d' else (k', v') :: dict_set k v d'
  end.

(** [del d[k]] *)
Fixpoint dict_del (k : string) (d : list (string * V)) : list (string * V) :=
  match d with
  | [] => []
  | (k', v') :: d' =>
      if String.eqb k' k then d' else (k', v') :: dict_del k d'
  end.

End Dict.

Record stats : Type := mk_stats {
  hits : Z;
  misses : Z;
  evictions : Z;
  cleanups : Z
}.

Section WithData.

(** The cached data is any object with a [copy()] method; [Store] is
    the state that method runs in (the object heap, or [unit] when the
    data are plain values). *)
Context {D Store : Type}.
Variable copy : D -> Store -> D * Store.

Record entry : Type := mk_entry {
  data : D;
  expires : Z;
  created : Z
}.

Record t : Type := mk_cache {
  max_size : Z;
  _cache : list (string * entry);
  _stats : stats
}.

Definition init (max_size : Z) : t :=
  mk_cache max_size [] (mk_stats 0 0 0 0).

Definition with_cache (c : t) (d : list (string * entry)) : t :=
  mk_cache (max_size c) d (_stats c).

Definition count_miss (c : t) : t :=
  let s := _stats c in
  mk_cache (max_size c) (_cache c)
    (mk_stats (hits s) (misses s + 1) (evictions s) (cleanups s)).

Definition count_hit (c : t) : t :=
  let s := _stats c in
  mk_cache (max_size c) (_cache c)
    (mk_stats (hits s + 1) (misses s) (evictions s) (cleanups s)).

Definition count_eviction (c : t) : t :=
  let s := _stats c in
  mk_cache (max_size c) (_cache c)
    (mk_stats (hits s) (misses s) (evictions s + 1) (cleanups s)).

Definition count_cleanup (c : t) : t :=
  let s := _stats c in
  mk_cache (max_size c) (_cache c)
    (mk_stats (hits s) (misses s) (evictions s) (cleanups s + 1)).

Definition get (c : t) (key : string) (now : Z) (st : Store)
  : option D * t * Store :=
  match dict_get String.eqb (_cache c) key with
  | None => (None, count_miss c, st)
  | Some e =>
      let current_time := now in
      if current_time >=? expires e
      then (None, count_miss (with_cache c (dict_del key (_cache c))), st)
      else
        let '(d, st') := copy (data e) st in
        (Some d, count_hit c, st')
  end.

(** [min(self._cache.keys(), key=lambda k: self._cache[k]['created'])]:
    the first key, in dictionary order, whose [created] is least. *)
Fixpoint min_created (best : string * entry) (rest : list (string * entry))
  : string * entry :=
  match rest with
  | [] => best
  | x :: rest' =>
      if created (snd x) <? created (snd best)
      then min_created x rest'
      else min_created best rest'
  end.

Definition _evict_oldest (c : t) : t :=
  match _cache c with
  | [] => c
  | first :: rest =>
      let oldest_key := fst (min_created first rest) in
      count_eviction (with_cache c (dict_del oldest_key (_cache c)))
  end.

Definition set (c : t) (key : string) (d : D) (ttl : Z) (now : Z)
    (st : Store) : t * Store :=
  if ttl <=? 0 then (c, st)
  else
    let current_time := now in
    let expires := current_time + ttl in
    let c1 :=
      if (len (_cache c) >=? max_size c) && negb (dict_mem key (_cache c))
      then _evict_oldest c
      else c in
    let '(d', st') := copy d st in
    (with_cache c1 (dict_set key (mk_entry d' expires current_time) (_cache c1)),
     st').

Definition is_cached (c : t) (key : string) (now : Z) : bool * t :=
  match dict_get String.eqb (_cache c) key with
  | None => (false, c)
  | Some e =>
      let current_time := now in
      if current_time >=? expires e
      then (false, with_cache c (dict_del key (_cache c)))
      else (true, c)
  end.

Definition get_ttl (c : t) (key : string) (now : Z) : Z * t :=
  match dict_get String.eqb (_cache c) key with
  | None => (0, c)
  | Some e =>
      let current_time := now in
      if current_time >=? expires e
      then (0, with_cache c (dict_del key (_cache c)))
      else (expires e - current_time, c)
  end.

Definition delete (c : t) (key : string) : bool * t :=
  if dict_mem key (_cache c)
  then (true, with_cache c (dict_del key (_cache c)))
  else (false, c).

Definition clear_cache (c : t) : t :=
  let s := _stats c in
  mk_cache (max_size c) [] (mk_stats 0 0 (evictions s) (cleanups s)).

(** The body of the background thread's loop, run under the lock. *)
Definition _cleanup_expired (c : t) (now : Z) : Z * t :=
  let current_time := now in
  let expired_keys :=
    map fst (filter (fun ke => current_time >=? expires (snd ke)) (_cache c)) in
  let c1 :=
    with_cache c (fold_left (fun d k => dict_del k d) expired_keys (_cache c)) in
  let c2 :=
    match expired_keys with
    | [] => c1
    | _ => count_cleanup c1
    end in
  (len expired_keys, c2).

(** One value of [import_data['entries']]: either key may be missing
    from the JSON object. *)
Record import_entry : Type := mk_import_entry {
  ie_data : option D;
  ie_ttl_remaining : option Z
}.

Definition exn_text (e : exn) : string :=
  match e with
  | ValueError m => m
  | Exception m => m
  | KeyError k => ("'" ++ k ++ "'")%string
  | StructError => "struct.error"%string
  | IndexError => "index out of range"%string
  | UnicodeEncodeError => "'ascii' codec can't encode character"%string
  end.

(** The [for key, entry in ...items()] loop of [import_cache]. *)
Fixpoint import_entries (c : t) (entries : list (string * import_entry))
    (current_time : Z) : t * run unit :=
  match entries with
  | [] => (c, Ret tt)
  | (key, e) :: rest =>
      let ttl_remaining :=
        match ie_ttl_remaining e with
        | Some v => v
        | None => 0
        end in
      if ttl_remaining >? 0 then
        match ie_data e with
        | None => (c, Raise (KeyError "data"))
        | Some d =>
            import_entries
              (with_cache c
                 (dict_set key
                    (mk_entry d (current_time + ttl_remaining) current_time)
                    (_cache c)))
              rest current_time
        end
      else import_entries c rest current_time
  end.

(** [loaded] is what [json.load] made of the file: the items of its
    ['entries'] object (none when the key is absent), or the exception
    raised while opening or parsing the file. *)
Definition import_cache (c : t)
    (loaded : run (list (string * import_entry))) (now : Z) : t * run unit :=
  let wrap e :=
    Raise (Exception ("Failed to import cache: " ++ exn_text e)%string) in
  match loaded with
  | Ret entries =>
      match import_entries c entries now with
      | (c', Raise e) => (c', wrap e)
      | r => r
      end
  | Raise e => (c, wrap e)
  | OutOfFuel => (c, OutOfFuel)
  end.

(** The operations that foreground callers and the sweeper thread
    perform on one cache; the lock makes each of them atomic. *)
Inductive op : Type :=
| OpSet (key : string) (d : D) (ttl : Z) (now : Z)
| OpGet (key : string) (now : Z)
| OpIsCached (key : string) (now : Z)
| OpGetTtl (key : string) (now : Z)
| OpDelete (key : string)
| OpClear
| OpCleanup (now : Z)
| OpImport (loaded : run (list (string * import_entry))) (now : Z).

Definition step (cs : t * Store) (o : op) : t * Store :=
  let '(c, st) := cs in
  match o with
  | OpSet key d ttl now => set c key d ttl now st
  | OpGet key now => let '(_, c', st') := get c key now st in (c', st')
  | OpIsCached key now => (snd (is_cached c key now), st)
  | OpGetTtl key now => (snd (get_ttl c key now), st)
  | OpDelete key => (snd (delete c key), st)
  | OpClear => (clear_cache c, st)
  | OpCleanup now => (snd (_cleanup_expired c now), st)
  | OpImport loaded now => (fst (import_cache c loaded now), st)
  end.

Definition run_ops (cs : t * Store) (ops : list op) : t * Store :=
  fold_left step ops cs.

End WithData.

Arguments entry : clear implicits.
Arguments t : clear implicits.
Arguments import_entry : clear implicits.
Arguments op : clear implicits.

End CacheManager.

(** ** Python objects and references

    A response is a dictionary whose ['questions'], ['answers'],
    ['authority'] and ['additional'] values are list objects. To speak of
    what [dict.copy()] shares, objects live in a heap and a dictionary
    holds references. *)

Module PyHeap.

Definition loc := nat.

Inductive value : Type :=
| VNone
| VInt (z : Z)
| VStr (s : string)
| VRef (l : loc).

Inductive obj : Type :=
| ODict (items : list (string * value))
| OList (elems : list value).

(** The object at address [l] is the [l]-th element. *)
Definition heap := list obj.

Definition read (h : heap) (l : loc) : option obj := nth_error h l.

Fixpoint write (h : heap) (l : loc) (o : obj) : heap :=
  match h, l with
  | [], _ => []
  | _ :: h', O => o :: h'
  | x :: h', S l' => x :: write h' l' o
  end.

Definition alloc (h : heap) (o : obj) : loc * heap :=
  (List.length h, h ++ [o]).

(** [d.copy()] on the dictionary at [d]: a new dictionary object with
    the same keys bound to the same values, references included. Only
    dictionaries are cached; on any other object nothing is allocated. *)
Definition dict_copy (d : loc) (h : heap) : loc * heap :=
  match read h d with
  | Some (ODict items) => alloc h (ODict items)
  | _ => (d, h)
  end.

(** [d[key]] *)
Definition dict_getitem (h : heap) (d : loc) (key : string) : option value :=
  match read h d with
  | Some (ODict items) => dict_get String.eqb items key
  | _ => None
  end.

(** [l.append(v)] on the list at [l]: the object is changed in place. *)
Definition list_append (h : heap) (l : loc) (v : value) : heap :=
  match read h l with
  | Some (OList elems) => write h l (OList (elems ++ [v]))
  | _ => h
  end.

(** What a value looks like when printed: references followed. *)
#[local] Unset Elimination Schemes.
Inductive tree : Type :=
| TNone
| TInt (z : Z)
| TStr (s : string)
| TDict (items : list (string * tree))
| TList (elems : list tree)
| TCut.
#[local] Set Elimination Schemes.

Fixpoint contents (depth : nat) (h : heap) (v : value) : tree :=
  match v with
  | VNone => TNone
  | VInt z => TInt z
  | VStr s => TStr s
  | VRef l =>
      match depth with
      | O => TCut
      | S depth' =>
          match read h l with
          | Some (ODict items) =>
              TDict (map (fun kv => (fst kv, contents depth' h (snd kv))) items)
          | Some (OList elems) => TList (map (contents depth' h) elems)
          | None => TCut
          end
      end
  end.

(** The addresses reachable from a value. *)
Fixpoint reachable (depth : nat) (h : heap) (v : value) : list loc :=
  match v with
  | VRef l =>
      match depth with
      | O => [l]
      | S depth' =>
          l :: match read h l with
               | Some (ODict items) =>
                   flat_map (fun kv => reachable depth' h (snd kv)) items
               | Some (OList elems) => flat_map (reachable depth' h) elems
               | None => []
               end
      end
  | _ => []
  end.

End PyHeap.

(** ** [src/dns_client.py] *)

Module DNSClient.

Import DNSPacketParser.

(** A response is cached by value: [copy()] of a plain value is that
    value, and there is no heap to thread. *)
Definition copy_value (r : response) (st : unit) : response * unit := (r, st).

Definition cache := CacheManager.t response.

Definition _get_minimum_ttl (r : response) : Z :=
  let ttls := map r_ttl (answers r) ++ map r_ttl (authority r)
              ++ map r_ttl (additional r) in
  match ttls with
  | [] => 300
  | t :: ts => fold_left Z.min ts t
  end.

Definition cache_key (domain record_type dns_server : string) : string :=
  (domain ++ ":" ++ record_type ++ ":" ++ dns_server)%string.

Definition add_query_info (r : response) (domain record_type dns_server : string)
  : response :=
  mk_response (id r) (status r) (flags r) (questions r) (answers r)
    (authority r) (additional r) (Some domain) (Some record_type)
    (Some dns_server).

(** The part of [query] that follows a cache miss (or runs at once when
    no cache is configured). [transport] stands for [_send_udp_query]:
    the reply datagram, or the exception it raises. *)
Definition query_network (fuel : nat) (cache_manager : option cache)
    (transport : bytes -> string -> Z -> Z -> run bytes)
    (transaction_id : Z) (now_set : Z)
    (domain record_type dns_server : string) (dns_port timeout : Z)
  : run response * option cache :=
  let cache_key := cache_key domain record_type dns_server in
  match DNSPacketBuilder.build_query domain record_type transaction_id with
  | Raise e => (Raise e, cache_manager)
  | OutOfFuel => (OutOfFuel, cache_manager)
  | Ret query_packet =>
      match transport query_packet dns_server dns_port timeout with
      | Raise e => (Raise e, cache_manager)
      | OutOfFuel => (OutOfFuel, cache_manager)
      | Ret response_packet =>
          match parse_response fuel response_packet (Some transaction_id) with
          | Raise e => (Raise e, cache_manager)
          | OutOfFuel => (OutOfFuel, cache_manager)
          | Ret response =>
              let response :=
                add_query_info response domain record_type dns_server in
              match cache_manager with
              | Some c =>
                  if String.eqb (status response) "NOERROR" then
                    let min_ttl := _get_minimum_ttl response in
                    if min_ttl >? 0
                    then (Ret response,
                          Some (fst (CacheManager.set copy_value c cache_key
                                       response min_ttl now_set tt)))
                    else (Ret response, cache_manager)
                  else (Ret response, cache_manager)
              | None => (Ret response, None)
              end
          end
      end
  end.

(** [query]: [transaction_id] is the value drawn by [random.randint],
    [now_get] and [now_set] are the clock readings of the cache's [get]
    and [set]. *)
Definition query (fuel : nat) (cache_manager : option cache)
    (transport : bytes -> string -> Z -> Z -> run bytes)
    (transaction_id : Z) (now_get now_set : Z)
    (domain record_type dns_server : string) (dns_port timeout : Z)
  : run response * option cache :=
  let cache_key := cache_key domain record_type dns_server in
  match cache_manager with
  | Some c =>
      match CacheManager.get copy_value c cache_key now_get tt with
      | (Some cached_response, c', _) => (Ret cached_response, Some c')
      | (None, c', _) =>
          query_network fuel (Some c') transport transaction_id now_set
            domain record_type dns_server dns_port timeout
      end
  | None =>
      query_network fuel None transport transaction_id now_set
        domain record_type dns_server dns_port timeout
  end.




End DNSClient.

(** ** Notions used to state the properties *)

Module Notions.

Import DNSPacketParser.

(** The two bytes at [p] are a compression pointer to [target]. *)
Definition points_to (packet : bytes) (p target : Z) : bool :=
  (0 <=? p) && (p <? len packet)
  && match getitem packet p with
     | Some b => Z.land (byte_val b) 0xC0 =? 0xC0
     | None => false
     end
  && match unpack_H (slice packet p (p + 2)) with
     | Ret v => Z.land v 0x3FFF =? target
     | _ => false
     end.

(** Reading plain labels from [offset], as [_parse_domain_name] does,
    until a pointer byte shows up: the position of that byte, or [None]
    when the name ends (or [n] labels were read) before any pointer. *)
Fixpoint walk_labels (n : nat) (packet : bytes) (offset : Z) : option Z :=
  match n with
  | O => None
  | S n' =>
      if offset >=? len packet then None
      else
        match getitem packet offset with
        | None => None
        | Some b =>
            let length := byte_val b in
            if Z.land length 0xC0 =? 0xC0 then Some offset
            else if length =? 0 then None
            else if offset + 1 + length >? len packet then None
            else walk_labels n' packet (offset + 1 + length)
        end
  end.

Definition first_pointer (packet : bytes) (offset : Z) : option Z :=
  walk_labels (S (List.length packet)) packet offset.

(** The computation came to an end within its fuel. *)
Definition finished {A : Type} (r : run A) : bool :=
  match r with
  | OutOfFuel => false
  | _ => true
  end.

(** A decode result with the caller's resumption offset replaced. *)
Definition resume_at (offset : Z) (r : run (string * Z)) : run (string * Z) :=
  match r with
  | Ret (name, _) => Ret (name, offset)
  | other => other
  end.

(** Items decoded one after the other from [offset], ending at
    [offset']. *)
Inductive chain {A : Type} (parse_one : Z -> run (A * Z))
  : Z -> list A -> Z -> Prop :=
| chain_nil : forall offset, chain parse_one offset [] offset
| chain_cons : forall offset x offset1 xs offset',
    parse_one offset = Ret (x, offset1) ->
    chain parse_one offset1 xs offset' ->
    chain parse_one offset (x :: xs) offset'.

(** A section fails to parse partway through: the sections before it
    are complete, [qs], [ans], [auth] and [add] are the items decoded one
    after the other until then, and decoding the next item raises [e]. *)
Inductive fails_partway (fuel : nat) (packet : bytes) (hd : header)
  : list question -> list record -> list record -> list record -> exn -> Prop :=
| fails_in_questions : forall qs o1 e,
    chain (_parse_question fuel packet) 12 qs o1 ->
    (List.length qs < Z.to_nat (h_qdcount hd))%nat ->
    _parse_question fuel packet o1 = Raise e ->
    fails_partway fuel packet hd qs [] [] [] e
| fails_in_answers : forall qs o1 ans o2 e,
    chain (_parse_question fuel packet) 12 qs o1 ->
    List.length qs = Z.to_nat (h_qdcount hd) ->
    chain (_parse_resource_record fuel packet) o1 ans o2 ->
    (List.length ans < Z.to_nat (h_ancount hd))%nat ->
    _parse_resource_record fuel packet o2 = Raise e ->
    fails_partway fuel packet hd qs ans [] [] e
| fails_in_authority : forall qs o1 ans o2 auth o3 e,
    chain (_parse_question fuel packet) 12 qs o1 ->
    List.length qs = Z.to_nat (h_qdcount hd) ->
    chain (_parse_resource_record fuel packet) o1 ans o2 ->
    List.length ans = Z.to_nat (h_ancount hd) ->
    chain (_parse_resource_record fuel packet) o2 auth o3 ->
    (List.length auth < Z.to_nat (h_nscount hd))%nat ->
    _parse_resource_record fuel packet o3 = Raise e ->
    fails_partway fuel packet hd qs ans auth [] e
| fails_in_additional : forall qs o1 ans o2 auth o3 add o4 e,
    chain (_parse_question fuel packet) 12 qs o1 ->
    List.length qs = Z.to_nat (h_qdcount hd) ->
    chain (_parse_resource_record fuel packet) o1 ans o2 ->
    List.length ans = Z.to_nat (h_ancount hd) ->
    chain (_parse_resource_record fuel packet) o2 auth o3 ->
    List.length auth = Z.to_nat (h_nscount hd) ->
    chain (_parse_resource_record fuel packet) o3 add o4 ->
    (List.length add < Z.to_nat (h_arcount hd))%nat ->
    _parse_resource_record fuel packet o4 = Raise e ->
    fails_partway fuel packet hd qs ans auth add e.

(** The transaction id check of [parse_response] passes. *)
Definition id_accepted (packet : bytes) (expected_id : option Z) : bool :=
  match expected_id with
  | None => true
  | Some e =>
      match _parse_header packet 0 with
      | Ret (hd, _) => h_id hd =? e
      | _ => false
      end
  end.

(** The response as [parse_response] initialises it from the header. *)
Definition initial_response (hd : header) : response :=
  mk_response (h_id hd) (status_of_rcode (h_rcode hd)) (h_flags hd)
    [] [] [] [] None None None.

(** A domain of the specification: non-empty, at most 253 characters,
    all ASCII, every dot-separated label of 1 to 63 characters. *)
Definition valid_domain (domain : string) : bool :=
  (1 <=? slen domain) && (slen domain <=? 253)
  && forallb is_ascii (list_ascii_of_string domain)
  && forallb (fun l => (1 <=? slen l) && (slen l <=? 63))
       (split "."%char domain).

(** Length of the encoded name before its terminating zero byte: a
    length byte and the label's bytes for every non-empty label. *)
Definition encoded_length (domain : string) : Z :=
  fold_right (fun l acc => if slen l =? 0 then acc else 1 + slen l + acc) 0
    (split "."%char domain).

(** The bytes the encoder emits for one label and for a list of
    labels. *)
Definition label_bytes (l : string) : bytes :=
  byte_of_Z (slen l) :: map byte_of_ascii (list_ascii_of_string l).

Definition labels_bytes (ls : list string) : bytes :=
  flat_map label_bytes ls.

(** A label the encoder accepts. *)
Definition label_ok (l : string) : bool :=
  (slen l <=? 63) && forallb is_ascii (list_ascii_of_string l).

Definition supported (record_type : string) : bool :=
  match dict_get String.eqb DNSPacketBuilder.RECORD_TYPES record_type with
  | Some _ => true
  | None => false
  end.

(** What a Python dictionary guarantees: no key occurs twice. *)
Fixpoint unique_keys {V : Type} (d : list (string * V)) : bool :=
  match d with
  | [] => true
  | (k, _) :: d' => negb (CacheManager.dict_mem k d') && unique_keys d'
  end.

(** The operation is [import_cache]. *)
Definition is_import {D : Type} (o : CacheManager.op D) : bool :=
  match o with
  | CacheManager.OpImport _ _ => true
  | _ => false
  end.

Definition is_clear {D : Type} (o : CacheManager.op D) : bool :=
  match o with
  | CacheManager.OpClear => true
  | _ => false
  end.

Definition is_get {D : Type} (o : CacheManager.op D) : bool :=
  match o with
  | CacheManager.OpGet _ _ => true
  | _ => false
  end.

(** The entry is expired at time [now], as every operation tests it. *)
Definition expired {D : Type} (now : Z) (ke : string * CacheManager.entry D)
  : bool :=
  now >=? CacheManager.expires (snd ke).

(** An entry of an import file is usable: skipped (no positive TTL) or
    complete (it has its ['data']). *)
Definition importable {D : Type} (ke : string * CacheManager.import_entry D)
  : bool :=
  negb (match CacheManager.ie_ttl_remaining (snd ke) with
        | Some v => v
        | None => 0
        end >? 0)
  || match CacheManager.ie_data (snd ke) with
     | Some _ => true
     | None => false
     end.


(** The labels of a domain that the encoder writes: the dot-separated
    parts that are not empty. *)
Definition nonempty_labels (domain : string) : list string :=
  filter (fun l => negb (slen l =? 0)) (split "."%char domain).

(** The data of a TXT record made of the character strings [segs]: each
    one after a byte that holds its length. *)
Definition txt_bytes (segs : list bytes) : bytes :=
  flat_map (fun s => byte_of_Z (len s) :: s) segs.

(** The numeric fields of a record fit their wire sizes. *)
Definition record_in_range (rec : record) : Prop :=
  0 <= r_ttl rec < 2 ^ 32 /\ 0 <= r_class rec < 2 ^ 16.

(** The least TTL [m] of a response's records, 300 when it has none. *)
Definition is_minimum_ttl (r : response) (m : Z) : Prop :=
  let ttls := map r_ttl (answers r ++ authority r ++ additional r) in
  match ttls with
  | [] => m = 300
  | _ => In m ttls /\ forall t, In t ttls -> m <= t
  end.

End Notions.

(** ** Sample packets, domains and caches *)

Module Samples.

Import DNSPacketParser.

Fixpoint replicate (n : nat) (c : ascii) : string :=
  match n with
  | O => EmptyString
  | S n' => String c (replicate n' c)
  end.

(** A 12-byte header with the given flags and counts, id [0x1234]. *)
Definition header_bytes (flags qd an ns ar : Z) : bytes :=
  match pack_Hs [0x1234; flags; qd; an; ns; ar] with
  | Ret b => b
  | _ => []
  end.

(** One question whose name is a pointer to itself (offset 12). *)
Definition self_pointing : bytes :=
  header_bytes 0x8180 1 0 0 0 ++ [xc0; x0c; x00; x01; x00; x01].

(** [example.com] at 12, then [www] followed by a pointer to 12 at 25,
    then a pointer to 25 at 31, then a pointer to 31 at 33. *)
Definition chained_pointers : bytes :=
  header_bytes 0x8180 0 0 0 0
  ++ [x07; "e"; "x"; "a"; "m"; "p"; "l"; "e"; x03; "c"; "o"; "m"; x00]%byte
  ++ [x03; "w"; "w"; "w"; xc0; x0c]%byte
  ++ [xc0; x19]
  ++ [xc0; x1f].

(** A reply with rcode 6 and no sections. *)
Definition rcode6_reply : bytes := header_bytes 0x8186 0 0 0 0.

(** A reply with flags [0x8183] and no sections. *)
Definition nxdomain_reply : bytes := header_bytes 0x8183 0 0 0 0.

(** 63 + 1 + 63 + 1 + 63 + 1 + 61 = 253 characters. *)
Definition domain_253 : string :=
  (replicate 63 "a" ++ "." ++ replicate 63 "b" ++ "."
   ++ replicate 63 "c" ++ "." ++ replicate 61 "d")%string.

(** One label of 300 characters. *)
Definition domain_300 : string := replicate 300 "a".

(** A label of 64 characters in a short domain. *)
Definition domain_long_label : string :=
  ("www." ++ replicate 64 "a" ++ ".com")%string.

(** One question for [example.com], then an A record for the same name
    (as a pointer) that stops after four of its ten fixed bytes. *)
Definition truncated_answer : bytes :=
  header_bytes 0x8180 1 2 0 0
  ++ [x07; "e"; "x"; "a"; "m"; "p"; "l"; "e"; x03; "c"; "o"; "m"; x00;
      x00; x01; x00; x01]%byte
  ++ [xc0; x0c; x00; x01; x00; x01; x00; x00; x00; x3c; x00; x04;
      x5d; xb8; xd8; x22]
  ++ [xc0; x0c; x00; x01; x00; x01].

(** A NOERROR reply to [example.com] with one A record of the given TTL
    (one byte). *)
Definition reply_with_ttl (ttl : byte) : bytes :=
  header_bytes 0x8180 1 1 0 0
  ++ [x07; "e"; "x"; "a"; "m"; "p"; "l"; "e"; x03; "c"; "o"; "m"; x00;
      x00; x01; x00; x01]%byte
  ++ [xc0; x0c; x00; x01; x00; x01; x00; x00; x00; ttl; x00; x04;
      x5d; xb8; xd8; x22].

(** Plain integers as cached data. *)
Definition copy_Z (d : Z) (st : unit) : Z * unit := (d, st).

(** The ['entries'] of an export file with two live entries. *)
Definition two_entries : run (list (string * CacheManager.import_entry Z)) :=
  Ret [("a.example:A:8.8.8.8"%string,
        CacheManager.mk_import_entry (Some 1) (Some 60));
       ("b.example:A:8.8.8.8"%string,
        CacheManager.mk_import_entry (Some 2) (Some 60))].

(** A cache of three entries that is full; the first one inserted was
    replaced later, so the oldest entry is the second. *)
Definition full_cache : CacheManager.t Z :=
  CacheManager.mk_cache 3
    [("k0"%string, CacheManager.mk_entry 10 400 100);
     ("k1"%string, CacheManager.mk_entry 11 350 50);
     ("k2"%string, CacheManager.mk_entry 12 360 60)]
    (CacheManager.mk_stats 4 2 0 0).

(** A response dictionary at address 0 whose ['answers'] list is the
    object at address 1, holding one record dictionary (address 2). *)
Definition response_heap : PyHeap.heap :=
  [PyHeap.ODict [("status"%string, PyHeap.VStr "NOERROR");
                 ("answers"%string, PyHeap.VRef 1%nat)];
   PyHeap.OList [PyHeap.VRef 2%nat];
   PyHeap.ODict [("name"%string, PyHeap.VStr "example.com");
                 ("ttl"%string, PyHeap.VInt 60)]].

(** A transport that answers every datagram with [reply]. *)
Definition always (reply : bytes) : bytes -> string -> Z -> Z -> run bytes :=
  fun _ _ _ _ => Ret reply.


(** What [query] returns for [example.com] from [reply_with_ttl]. *)
Definition example_response (ttl : Z) : response :=
  mk_response 0x1234 "NOERROR" 0x8180
    [mk_question "example.com" "A" 1]
    [mk_record "example.com" "A" 1 ttl (Text "93.184.216.34")]
    [] [] (Some "example.com"%string) (Some "A"%string)
    (Some "8.8.8.8"%string).


(** A transport that times out. *)
Definition timing_out : bytes -> string -> Z -> Z -> run bytes :=
  fun _ _ _ _ => Raise (Exception "DNS query timeout after 5 seconds").

End Samples.

(** * Properties *)

Import DNSPacketParser Notions Samples.

(** ** Name decoding: pointers and resumption offset *)

Section NameLoop.

Variable packet : bytes.

Lemma name_loop_resume : forall fuel offset labels oo oo' j,
  name_loop fuel packet offset labels oo true
  = resume_at oo (name_loop fuel packet offset labels oo' j).
Proof.
  induction fuel as [|fuel IH]; intros offset labels oo oo' j; [reflexivity|].
  cbn [name_loop].
  destruct (offset >=? len packet); [reflexivity|].
  destruct (getitem packet offset) as [b|]; [|reflexivity].
  cbv zeta.
  destruct (Z.land (byte_val b) 192 =? 192).
  - destruct (unpack_H (slice packet offset (offset + 2))) as [v| |];
      cbn [Py.bind]; try reflexivity.
    rewrite (IH _ _ oo (if j then oo' else offset + 2) true).
    reflexivity.
  - destruct (byte_val b =? 0); [reflexivity|].
    destruct (offset + 1 + byte_val b >? len packet); [reflexivity|].
    apply IH.
Qed.

Lemma name_loop_jumped : forall fuel offset labels oo name final_offset,
  name_loop fuel packet offset labels oo true = Ret (name, final_offset) ->
  final_offset = oo.
Proof.
  intros fuel offset labels oo name final_offset H.
  rewrite (name_loop_resume fuel offset labels oo oo true) in H.
  destruct (name_loop fuel packet offset labels oo true) as [[n o]| |];
    cbn in H; congruence.
Qed.

Lemma walk_then_decode : forall n fuel offset labels oo p name final_offset,
  walk_labels n packet offset = Some p ->
  name_loop fuel packet offset labels oo false = Ret (name, final_offset) ->
  final_offset = p + 2.
Proof.
  induction n as [|n IH]; intros fuel offset labels oo p name fo Hw Hd;
    [discriminate|].
  destruct fuel as [|fuel]; [discriminate|].
  cbn [walk_labels] in Hw. cbn [name_loop] in Hd.
  destruct (offset >=? len packet); [discriminate|].
  destruct (getitem packet offset) as [b|]; [|discriminate].
  cbv zeta in Hw, Hd.
  destruct (Z.land (byte_val b) 192 =? 192).
  - injection Hw as <-.
    destruct (unpack_H (slice packet offset (offset + 2))) as [v| |];
      cbn [Py.bind] in Hd; try discriminate.
    eapply name_loop_jumped; eassumption.
  - destruct (byte_val b =? 0); [discriminate|].
    destruct (offset + 1 + byte_val b >? len packet); [discriminate|].
    eapply IH; eassumption.
Qed.

Lemma pointer_step : forall p target fuel,
  points_to packet p target = true ->
  _parse_domain_name (S fuel) packet p
  = name_loop fuel packet target [] (p + 2) true.
Proof.
  intros p target fuel H. unfold points_to in H.
  apply andb_prop in H as [H Hv]. apply andb_prop in H as [H Hb].
  apply andb_prop in H as [H0 H1].
  unfold _parse_domain_name. cbn [name_loop].
  replace (p >=? len packet) with false by lia.
  destruct (getitem packet p) as [b|]; [|discriminate].
  cbv zeta. change 192 with 0xC0. rewrite Hb.
  destruct (unpack_H (slice packet p (p + 2))) as [v| |]; try discriminate.
  cbn [Py.bind]. apply Z.eqb_eq in Hv. change 16383 with 0x3FFF.
  rewrite Hv. reflexivity.
Qed.

Lemma name_loop_returns_anyway : forall fuel offset labels oo j r,
  name_loop fuel packet offset labels oo j = Ret r ->
  forall extra labels' oo' j',
    exists r', name_loop (fuel + extra) packet offset labels' oo' j' = Ret r'.
Proof.
  induction fuel as [|fuel IH]; intros offset labels oo j r H extra labels' oo' j';
    [discriminate|].
  cbn [Nat.add name_loop] in *.
  destruct (offset >=? len packet); [eauto|].
  destruct (getitem packet offset) as [b|]; [|discriminate].
  cbv zeta in *.
  destruct (Z.land (byte_val b) 192 =? 192).
  - destruct (unpack_H (slice packet offset (offset + 2))) as [v| |];
      cbn [Py.bind] in *; try discriminate.
    eapply IH. exact H.
  - destruct (byte_val b =? 0); [eauto|].
    destruct (offset + 1 + byte_val b >? len packet); [eauto|].
    eapply IH. exact H.
Qed.

Lemma pointer_after_labels_returns :
  forall n fuel extra offset labels oo p target tname toff,
  walk_labels n packet offset = Some p ->
  points_to packet p target = true ->
  _parse_domain_name fuel packet target = Ret (tname, toff) ->
  exists name,
    name_loop (n + (fuel + extra)) packet offset labels oo false
    = Ret (name, p + 2).
Proof.
  induction n as [|n IH];
    intros fuel extra offset labels oo p target tname toff Hw Hp Ht;
    [discriminate|].
  cbn [walk_labels] in Hw. cbn [Nat.add name_loop].
  destruct (offset >=? len packet); [discriminate|].
  destruct (getitem packet offset) as [b|] eqn:Hb; [|discriminate].
  cbv zeta in *.
  destruct (Z.land (byte_val b) 192 =? 192).
  - injection Hw as <-. unfold points_to in Hp.
    apply andb_prop in Hp as [_ Hv].
    destruct (unpack_H (slice packet offset (offset + 2))) as [v| |];
      try discriminate.
    cbn [Py.bind]. apply Z.eqb_eq in Hv. change 16383 with 0x3FFF.
    rewrite Hv. unfold _parse_domain_name in Ht.
    replace (n + (fuel + extra))%nat with (fuel + (n + extra))%nat by lia.
    destruct (name_loop_returns_anyway _ _ _ _ _ _ Ht (n + extra)%nat labels
                (offset + 2) true) as [[name fo] Hr].
    exists name. rewrite Hr.
    rewrite (name_loop_jumped _ _ _ _ _ _ Hr). reflexivity.
  - destruct (byte_val b =? 0); [discriminate|].
    destruct (offset + 1 + byte_val b >? len packet); [discriminate|].
    eapply IH; eassumption.
Qed.

End NameLoop.

(** C9. When reading a name meets a compression pointer (after any number
    of plain labels), the offset handed back to the caller is the position
    of the first pointer met plus 2, whatever pointers are followed
    afterwards; and such a decode does produce a result: when the name at
    the pointer's target is decoded within [fuel] iterations, the name
    that reaches the pointer after fewer than [n] labels is decoded within
    [n + fuel] iterations and resumes at the pointer plus 2. A name that is
    only a pointer decodes as the name at its target does (same string,
    same exception, same non-termination), resuming at the pointer plus
    2. *)
Theorem pointer_resumption_offset :
  (forall packet offset n p fuel name final_offset,
      walk_labels n packet offset = Some p ->
      _parse_domain_name fuel packet offset = Ret (name, final_offset) ->
      final_offset = p + 2)
  /\
  (forall packet offset n p target fuel tname toff,
      walk_labels n packet offset = Some p ->
      points_to packet p target = true ->
      _parse_domain_name fuel packet target = Ret (tname, toff) ->
      forall fuel',
        (n + fuel <= fuel')%nat ->
        exists name,
          _parse_domain_name fuel' packet offset = Ret (name, p + 2))
  /\
  (forall packet p target fuel,
      points_to packet p target = true ->
      _parse_domain_name (S fuel) packet p
      = resume_at (p + 2) (_parse_domain_name fuel packet target)).
Proof.
  split; [|split].
  - intros packet offset n p fuel name fo Hw Hd.
    eapply walk_then_decode; eassumption.
  - intros packet offset n p target fuel tname toff Hw Hp Ht fuel' Hf.
    replace fuel' with (n + (fuel + (fuel' - (n + fuel))))%nat by lia.
    unfold _parse_domain_name.
    eapply pointer_after_labels_returns; eassumption.
  - intros packet p target fuel H.
    rewrite (pointer_step packet p target fuel H).
    apply name_loop_resume.
Qed.

Lemma pointer_resumption_offset_witness :
  (first_pointer chained_pointers 25 = Some 29
   /\ _parse_domain_name 10 chained_pointers 25
      = Ret ("www.example.com"%string, 31)
   /\ 31 = 29 + 2)
  /\ (walk_labels 2 chained_pointers 25 = Some 29
      /\ points_to chained_pointers 29 12 = true
      /\ _parse_domain_name 3 chained_pointers 12
         = Ret ("example.com"%string, 25)
      /\ exists name,
           _parse_domain_name 5 chained_pointers 25 = Ret (name, 29 + 2))
  /\ (points_to chained_pointers 33 31 = true
      /\ _parse_domain_name 10 chained_pointers 33
         = resume_at (33 + 2) (_parse_domain_name 9 chained_pointers 31)
      /\ _parse_domain_name 10 chained_pointers 33
         = Ret ("www.example.com"%string, 35)).
Proof.
  split; [|split].
  - split; [reflexivity|]. split; [reflexivity|].
    apply (proj1 pointer_resumption_offset chained_pointers 25
             (S (List.length chained_pointers)) 29 10%nat
             "www.example.com"%string 31); reflexivity.
  - split; [reflexivity|]. split; [reflexivity|]. split; [reflexivity|].
    apply (proj1 (proj2 pointer_resumption_offset) chained_pointers 25 2%nat
             29 12 3%nat "example.com"%string 25);
      [reflexivity | reflexivity | reflexivity | lia].
  - split; [reflexivity|]. split; [|reflexivity].
    apply (proj2 (proj2 pointer_resumption_offset) chained_pointers 33 31
             9%nat).
    reflexivity.
Defined.

(** ** Name decoding: termination *)

Lemma byte_val_nonneg : forall b, 0 <= byte_val b.
Proof. intros b. unfold byte_val. apply N2Z.is_nonneg. Qed.

Lemma byte_val_bound : forall b, byte_val b < 256.
Proof.
  intros b. unfold byte_val.
  pose proof (Byte.to_N_bounded b) as H. lia.
Qed.

Lemma len_nonneg : forall (A : Type) (l : list A), 0 <= len l.
Proof. intros. unfold len. lia. Qed.

Lemma getitem_inside : forall (A : Type) (l : list A) i,
  0 <= i < len l -> exists x, getitem l i = Some x.
Proof.
  intros A l i H. unfold getitem.
  replace ((0 <=? i) && (i <? len l)) with true by lia.
  destruct (nth_error l (Z.to_nat i)) as [x|] eqn:E; [eauto|].
  apply nth_error_None in E. unfold len in H. lia.
Qed.

Lemma plain_name_terminates : forall packet fuel offset labels oo j,
  0 <= offset ->
  Z.max 0 (len packet - offset) < Z.of_nat fuel ->
  walk_labels fuel packet offset = None ->
  exists r, name_loop fuel packet offset labels oo j = Ret r.
Proof.
  intros packet.
  induction fuel as [|fuel IH]; intros offset labels oo j H0 Hf Hw.
  - lia.
  - cbn [name_loop]. cbn [walk_labels] in Hw.
    destruct (offset >=? len packet) eqn:Ege; [eauto|].
    destruct (getitem_inside _ packet offset ltac:(lia)) as [b Hb].
    rewrite Hb in *. cbv zeta in *.
    destruct (Z.land (byte_val b) 192 =? 192); [discriminate|].
    destruct (byte_val b =? 0) eqn:Ez; [eauto|].
    destruct (offset + 1 + byte_val b >? len packet) eqn:Egt; [eauto|].
    pose proof (byte_val_nonneg b).
    apply IH; [lia | lia | assumption].
Qed.

Lemma jumped_self_pointer_diverges : forall packet p,
  points_to packet p p = true ->
  forall fuel labels oo, name_loop fuel packet p labels oo true = OutOfFuel.
Proof.
  intros packet p H. unfold points_to in H.
  apply andb_prop in H as [H Hv]. apply andb_prop in H as [H Hb].
  apply andb_prop in H as [H0 H1].
  induction fuel as [|fuel IH]; intros labels oo; [reflexivity|].
  cbn [name_loop].
  replace (p >=? len packet) with false by lia.
  destruct (getitem packet p) as [b|]; [|discriminate].
  cbv zeta. change 192 with 0xC0. rewrite Hb.
  destruct (unpack_H (slice packet p (p + 2))) as [v| |]; try discriminate.
  cbn [Py.bind]. apply Z.eqb_eq in Hv. change 16383 with 0x3FFF.
  rewrite Hv. apply IH.
Qed.

Lemma self_pointer_diverges : forall packet p fuel,
  points_to packet p p = true ->
  _parse_domain_name fuel packet p = OutOfFuel.
Proof.
  intros packet p [|fuel] H; [reflexivity|].
  rewrite (pointer_step packet p p fuel H).
  apply jumped_self_pointer_diverges; assumption.
Qed.

Lemma parse_items_diverges : forall (A : Type) (parse_one : Z -> run (A * Z))
    n offset acc,
  parse_one offset = OutOfFuel ->
  snd (parse_items parse_one (S n) offset acc) = OutOfFuel.
Proof. intros A parse_one n offset acc H. cbn. rewrite H. reflexivity. Qed.

Lemma parse_response_sections : forall fuel packet expected_id hd offset,
  12 <= len packet ->
  _parse_header packet 0 = Ret (hd, offset) ->
  id_accepted packet expected_id = true ->
  parse_response fuel packet expected_id
  = match parse_sections fuel packet hd offset (initial_response hd) with
    | (_, OutOfFuel) => OutOfFuel
    | (response, _) => Ret response
    end.
Proof.
  intros fuel packet expected_id hd offset Hlen Hh Hid.
  unfold parse_response.
  replace (len packet <? 12) with false by lia.
  cbv zeta. rewrite Hh. cbn [Py.bind].
  unfold id_accepted in Hid. rewrite Hh in Hid.
  destruct expected_id as [e|]; [rewrite Hid|]; reflexivity.
Qed.

Lemma self_pointer_response_diverges : forall fuel packet expected_id hd,
  12 <= len packet ->
  _parse_header packet 0 = Ret (hd, 12) ->
  id_accepted packet expected_id = true ->
  0 < h_qdcount hd ->
  points_to packet 12 12 = true ->
  parse_response fuel packet expected_id = OutOfFuel.
Proof.
  intros fuel packet expected_id hd Hlen Hh Hid Hq Hp.
  rewrite (parse_response_sections fuel packet expected_id hd 12 Hlen Hh Hid).
  unfold parse_sections.
  destruct (Z.to_nat (h_qdcount hd)) as [|n] eqn:En; [lia|].
  assert (Hq1 : _parse_question fuel packet 12 = OutOfFuel).
  { unfold _parse_question.
    rewrite (self_pointer_diverges packet 12 fuel Hp). reflexivity. }
  pose proof (parse_items_diverges _ (_parse_question fuel packet) n 12
                (questions (initial_response hd)) Hq1) as Hd.
  destruct (parse_items (_parse_question fuel packet) (S n) 12
              (questions (initial_response hd))) as [qs o].
  cbn in Hd. subst o. reflexivity.
Qed.

(** C1 (as the code has it). The name decoder counts no pointer hops and
    has no loop error. A name read without meeting a pointer is returned
    within [len(packet) + 1] iterations of the loop; a pointer that
    designates itself is followed for ever, and so is every response whose
    first question starts with such a pointer: whatever the number of
    iterations allowed, neither a result nor an exception comes out. *)
Theorem name_decoding_has_no_hop_bound :
  (forall packet offset,
      0 <= offset ->
      first_pointer packet offset = None ->
      exists r,
        _parse_domain_name (S (List.length packet)) packet offset = Ret r)
  /\
  (forall packet p fuel,
      points_to packet p p = true ->
      _parse_domain_name fuel packet p = OutOfFuel)
  /\
  (forall packet expected_id hd fuel,
      12 <= len packet ->
      _parse_header packet 0 = Ret (hd, 12) ->
      id_accepted packet expected_id = true ->
      0 < h_qdcount hd ->
      points_to packet 12 12 = true ->
      parse_response fuel packet expected_id = OutOfFuel).
Proof.
  split; [|split].
  - intros packet offset H0 Hw.
    apply plain_name_terminates; [assumption | | exact Hw].
    unfold len. lia.
  - intros; apply self_pointer_diverges; assumption.
  - intros; eapply self_pointer_response_diverges; eassumption.
Qed.

Lemma name_decoding_has_no_hop_bound_witness :
  (exists r, _parse_domain_name (S (List.length chained_pointers))
               chained_pointers 12 = Ret r)
  /\ _parse_domain_name 1000 self_pointing 12 = OutOfFuel
  /\ parse_response 1000 self_pointing (Some 0x1234) = OutOfFuel.
Proof.
  destruct name_decoding_has_no_hop_bound as [Hplain [Hself Hresp]].
  split; [|split].
  - apply Hplain; [lia | reflexivity].
  - apply Hself. reflexivity.
  - apply (Hresp self_pointing (Some 0x1234)
             (mk_header 0x1234 0x8180 1 0 0 0 1 0 0 0 1 1 0)).
    + vm_compute. discriminate.
    + reflexivity.
    + reflexivity.
    + reflexivity.
    + reflexivity.
Defined.

(** C1, refuted as stated: on a packet whose question name is a pointer
    to itself, no number of loop iterations lets [parse_response] raise
    an exception (a loop error or any other), nor return. *)
Lemma self_pointing_never_raises :
  ~ (exists fuel e, parse_response fuel self_pointing None = Raise e)
  /\ ~ (exists fuel r, parse_response fuel self_pointing None = Ret r).
Proof.
  assert (H : forall fuel, parse_response fuel self_pointing None = OutOfFuel).
  { intros fuel.
    apply (self_pointer_response_diverges fuel self_pointing None
             (mk_header 0x1234 0x8180 1 0 0 0 1 0 0 0 1 1 0)).
    - vm_compute. discriminate.
    - reflexivity.
    - reflexivity.
    - reflexivity.
    - reflexivity. }
  split; intros [fuel [x Hx]]; rewrite H in Hx; discriminate.
Qed.

(** ** Status of a response *)

Lemma status_of_rcode_closed : forall rcode,
  status_of_rcode rcode
  = if (0 <=? rcode) && (rcode <=? 5)
    then nth (Z.to_nat rcode)
           ["NOERROR"; "FORMERR"; "SERVFAIL"; "NXDOMAIN"; "NOTIMP"; "REFUSED"]%string
           ""%string
    else ("UNKNOWN(" ++ str_of_int rcode)%string.
Proof.
  intros rcode.
  destruct ((0 <=? rcode) && (rcode <=? 5)) eqn:E.
  - assert (H : rcode = 0 \/ rcode = 1 \/ rcode = 2 \/ rcode = 3
                \/ rcode = 4 \/ rcode = 5) by lia.
    destruct H as [-> | [-> | [-> | [-> | [-> | ->]]]]]; reflexivity.
  - unfold status_of_rcode, RESPONSE_CODES. cbn [dict_get].
    replace (0 =? rcode) with false by lia.
    replace (1 =? rcode) with false by lia.
    replace (2 =? rcode) with false by lia.
    replace (3 =? rcode) with false by lia.
    replace (4 =? rcode) with false by lia.
    replace (5 =? rcode) with false by lia.
    reflexivity.
Qed.

(** C10 (code against claim). The six known codes map to their names and
    flags [0x8183] give qr = 1, rcode = 3 and NXDOMAIN; any other code [c]
    gives the text "UNKNOWN(" followed by [c] with no closing parenthesis,
    so rcode 6 yields "UNKNOWN(6", not "UNKNOWN(6)". *)
Theorem unknown_status_lacks_closing_parenthesis :
  (forall rcode,
      status_of_rcode rcode
      = if (0 <=? rcode) && (rcode <=? 5)
        then nth (Z.to_nat rcode)
               ["NOERROR"; "FORMERR"; "SERVFAIL"; "NXDOMAIN"; "NOTIMP";
                "REFUSED"]%string ""%string
        else ("UNKNOWN(" ++ str_of_int rcode)%string)
  /\ (exists hd r,
         _parse_header nxdomain_reply 0 = Ret (hd, 12)
         /\ h_qr hd = 1 /\ h_rcode hd = 3
         /\ parse_response 0 nxdomain_reply None = Ret r
         /\ status r = "NXDOMAIN"%string)
  /\ (exists r,
         parse_response 0 rcode6_reply None = Ret r
         /\ status r = "UNKNOWN(6"%string
         /\ status r <> "UNKNOWN(6)"%string).
Proof.
  split; [exact status_of_rcode_closed|]. split.
  - eexists; eexists. split; [reflexivity|].
    repeat split; reflexivity.
  - eexists. split; [reflexivity|]. split; [reflexivity|]. discriminate.
Qed.

(** ** Sequences, bytes and strings *)

Lemma len_app : forall (A : Type) (a b : list A), len (a ++ b) = len a + len b.
Proof. intros. unfold len. rewrite length_app. lia. Qed.

Lemma len_cons : forall (A : Type) (x : A) (l : list A),
  len (x :: l) = 1 + len l.
Proof. intros. unfold len. cbn [List.length]. lia. Qed.

Lemma getitem_middle : forall (A : Type) (pre post : list A) x,
  getitem (pre ++ x :: post) (len pre) = Some x.
Proof.
  intros A pre post x. unfold getitem.
  assert (H : (0 <=? len pre) && (len pre <? len (pre ++ x :: post)) = true).
  { rewrite len_app, len_cons.
    pose proof (len_nonneg _ pre). pose proof (len_nonneg _ post). lia. }
  rewrite H. unfold len. rewrite Nat2Z.id.
  rewrite nth_error_app2 by lia. rewrite Nat.sub_diag. reflexivity.
Qed.

Lemma slice_middle : forall (A : Type) (pre mid post : list A),
  slice (pre ++ mid ++ post) (len pre) (len pre + len mid) = mid.
Proof.
  intros A pre mid post. unfold slice, clamp.
  pose proof (len_nonneg _ pre). pose proof (len_nonneg _ mid).
  pose proof (len_nonneg _ post).
  rewrite !len_app.
  replace (len pre <? 0) with false by lia.
  replace (len pre + len mid <? 0) with false by lia.
  rewrite !Z.min_l by lia.
  replace (len pre + len mid - len pre) with (len mid) by lia.
  unfold len. rewrite !Nat2Z.id.
  rewrite skipn_app, Nat.sub_diag, skipn_all. cbn [skipn app].
  rewrite firstn_app, Nat.sub_diag, firstn_all. cbn [firstn].
  apply app_nil_r.
Qed.

Lemma byte_val_of_Z : forall n, 0 <= n < 256 -> byte_val (byte_of_Z n) = n.
Proof.
  intros n H. unfold byte_val, byte_of_Z.
  destruct (Byte.of_N (Z.to_N n)) as [b|] eqn:E.
  - apply Byte.to_of_N in E. rewrite E. lia.
  - apply Byte.of_N_None_iff in E. lia.
Qed.

Lemma byte_val_of_ascii : forall c,
  byte_val (byte_of_ascii c) = Z.of_N (N_of_ascii c).
Proof.
  intros c. unfold byte_val.
  pose proof (byte_of_ascii_via_N c) as H. symmetry in H.
  apply Byte.to_of_N in H. rewrite H. reflexivity.
Qed.

Lemma decode_encoded_ascii : forall cs,
  forallb is_ascii cs = true ->
  decode_ascii_ignore (map byte_of_ascii cs) = string_of_list_ascii cs.
Proof.
  intros cs H. unfold decode_ascii_ignore. f_equal.
  induction cs as [|c cs IH]; [reflexivity|].
  cbn [forallb] in H. apply andb_prop in H as [Hc Hcs].
  cbn [map filter]. rewrite byte_val_of_ascii.
  unfold is_ascii in Hc. apply N.ltb_lt in Hc.
  replace (Z.of_N (N_of_ascii c) <? 128) with true by lia.
  cbn [map]. rewrite ascii_of_byte_of_ascii, IH by assumption. reflexivity.
Qed.

Lemma small_length_is_no_pointer : forall n,
  0 <= n <= 63 -> (Z.land n 0xC0 =? 0xC0) = false.
Proof.
  intros n H.
  assert (Hk : exists k, (k < 64)%nat /\ n = Z.of_nat k).
  { exists (Z.to_nat n). lia. }
  destruct Hk as [k [Hk ->]].
  do 64 (destruct k as [|k]; [reflexivity|]). lia.
Qed.

Lemma slen_chars : forall s, len (list_ascii_of_string s) = slen s.
Proof.
  intros s. unfold len, slen. f_equal.
  induction s as [|c s IH]; [reflexivity|]. cbn. now rewrite IH.
Qed.

Lemma len_label_bytes : forall l, len (label_bytes l) = 1 + slen l.
Proof.
  intros l. unfold label_bytes, len. cbn [List.length].
  rewrite length_map. pose proof (slen_chars l) as H. unfold len in H. lia.
Qed.

(** ** Splitting and joining on dots *)

Lemma split_not_nil : forall sep s, split sep s <> [].
Proof.
  intros sep s. destruct s as [|c s]; cbn; [discriminate|].
  destruct (Ascii.eqb c sep); [discriminate|].
  destruct (split sep s); discriminate.
Qed.

Lemma join_split : forall sep s,
  join (String sep EmptyString) (split sep s) = s.
Proof.
  intros sep s. unfold join.
  induction s as [|c s IH]; [reflexivity|].
  cbn [split].
  destruct (Ascii.eqb c sep) eqn:E.
  - apply Ascii.eqb_eq in E. subst c.
    pose proof (split_not_nil sep s) as Hn.
    destruct (split sep s) as [|l ls]; [contradiction|].
    rewrite <- IH. reflexivity.
  - pose proof (split_not_nil sep s) as Hn.
    destruct (split sep s) as [|l ls]; [contradiction|].
    rewrite <- IH.
    destruct ls as [|l' ls]; reflexivity.
Qed.

Lemma split_ascii : forall sep s,
  forallb is_ascii (list_ascii_of_string s) = true ->
  forallb (fun l => forallb is_ascii (list_ascii_of_string l)) (split sep s)
  = true.
Proof.
  intros sep s. induction s as [|c s IH]; intros H; [reflexivity|].
  cbn [list_ascii_of_string forallb] in H.
  apply andb_prop in H as [Hc Hs]. specialize (IH Hs).
  cbn [split]. destruct (Ascii.eqb c sep).
  - cbn [forallb list_ascii_of_string]. exact IH.
  - pose proof (split_not_nil sep s) as Hn.
    destruct (split sep s) as [|l ls]; [contradiction|].
    cbn [forallb list_ascii_of_string] in *. rewrite Hc. exact IH.
Qed.

(** Every character of the text is in one label, every dot between two
    labels: with one length byte per label the sizes differ by one. *)
Lemma split_total_length : forall sep s,
  fold_right (fun l acc => 1 + slen l + acc) 0 (split sep s) = slen s + 1.
Proof.
  intros sep s. induction s as [|c s IH]; [reflexivity|].
  cbn [split]. destruct (Ascii.eqb c sep).
  - cbn [fold_right]. rewrite IH. unfold slen. cbn [String.length]. lia.
  - pose proof (split_not_nil sep s) as Hn.
    destruct (split sep s) as [|l ls]; [contradiction|].
    cbn [fold_right] in *. unfold slen in *. cbn [String.length]. lia.
Qed.

Lemma len_labels_bytes : forall ls,
  len (labels_bytes ls) = fold_right (fun l acc => 1 + slen l + acc) 0 ls.
Proof.
  induction ls as [|l ls IH]; [reflexivity|].
  unfold labels_bytes in *. cbn [flat_map fold_right].
  rewrite len_app, len_label_bytes, IH. lia.
Qed.

Lemma encoded_length_le : forall domain,
  encoded_length domain <= slen domain + 1.
Proof.
  intros domain. unfold encoded_length.
  rewrite <- (split_total_length "."%char domain).
  induction (split "."%char domain) as [|l ls IH]; [cbn; lia|].
  cbn [fold_right]. assert (0 <= slen l) by (unfold slen; lia).
  destruct (slen l =? 0); lia.
Qed.

(** ** Building a query *)

Import DNSPacketBuilder.

Lemma encode_labels_accepts : forall ls encoded,
  forallb (fun l => (1 <=? slen l) && label_ok l) ls = true ->
  encode_labels ls encoded = Ret (encoded ++ labels_bytes ls).
Proof.
  induction ls as [|l ls IH]; intros encoded H.
  - cbn. now rewrite app_nil_r.
  - cbn [forallb] in H. apply andb_prop in H as [Hl Hls].
    apply andb_prop in Hl as [H1 Hok]. unfold label_ok in Hok.
    apply andb_prop in Hok as [H63 Hascii].
    cbn [encode_labels].
    replace (slen l =? 0) with false by lia.
    replace (slen l >? 63) with false by lia.
    unfold pack_B. replace ((0 <=? slen l) && (slen l <? 256)) with true by lia.
    unfold encode_ascii. rewrite Hascii. cbn [Py.bind].
    rewrite (IH _ Hls). unfold labels_bytes. cbn [flat_map].
    unfold label_bytes at 2. cbn [app]. now rewrite <- app_assoc.
Qed.

Lemma encode_labels_rejects : forall ls1 l ls2 encoded,
  forallb label_ok ls1 = true ->
  63 < slen l ->
  encode_labels (ls1 ++ l :: ls2) encoded
  = Raise (ValueError ("Label too long: " ++ l)%string).
Proof.
  induction ls1 as [|l1 ls1 IH]; intros l ls2 encoded Hok Hl.
  - cbn [app encode_labels].
    replace (slen l =? 0) with false by lia.
    replace (slen l >? 63) with true by lia. reflexivity.
  - cbn [forallb] in Hok. apply andb_prop in Hok as [H1 Hrest].
    unfold label_ok in H1. apply andb_prop in H1 as [H63 Hascii].
    cbn [app encode_labels].
    destruct (slen l1 =? 0) eqn:E0; [now apply IH|].
    replace (slen l1 >? 63) with false by lia.
    assert (0 <= slen l1) by (unfold slen; lia).
    unfold pack_B. replace ((0 <=? slen l1) && (slen l1 <? 256)) with true by lia.
    unfold encode_ascii. rewrite Hascii. cbn [Py.bind].
    now apply IH.
Qed.

Lemma pack_H_len : forall v b, pack_H v = Ret b -> len b = 2.
Proof.
  intros v b H. unfold pack_H in H.
  destruct ((0 <=? v) && (v <? 65536)); [|discriminate].
  injection H as <-. reflexivity.
Qed.

Lemma build_header_len : forall transaction_id,
  exists header, _build_header transaction_id = Ret header /\ len header = 12.
Proof.
  intros tid. unfold _build_header. cbv zeta.
  assert (Hr : 0 <= Z.land tid 0xFFFF < 65536).
  { change 0xFFFF with (Z.ones 16). rewrite Z.land_ones by lia.
    apply Z.mod_pos_bound. reflexivity. }
  cbn [pack_Hs]. unfold pack_H at 1.
  replace ((0 <=? Z.land tid 65535) && (Z.land tid 65535 <? 65536))
    with true by (change 65535 with 0xFFFF; lia).
  cbn [Py.bind].
  eexists. split; [reflexivity|]. reflexivity.
Qed.

Lemma question_tail : forall record_type qtype,
  dict_get String.eqb RECORD_TYPES record_type = Some qtype ->
  exists tail, pack_Hs [qtype; CLASS_IN] = Ret tail.
Proof.
  intros rt q H. unfold RECORD_TYPES in H. cbn [dict_get] in H.
  repeat match type of H with
         | (if ?c then _ else _) = _ =>
             destruct c; [injection H as <-; eexists; reflexivity|]
         end.
  discriminate.
Qed.

Lemma build_query_layout : forall domain record_type transaction_id qname,
  supported record_type = true ->
  _encode_domain_name domain = Ret qname ->
  exists header tail,
    len header = 12
    /\ build_query domain record_type transaction_id
       = Ret (header ++ qname ++ tail).
Proof.
  intros domain rt tid qname Hs Hq. unfold supported in Hs.
  destruct (dict_get String.eqb RECORD_TYPES rt) as [qtype|] eqn:E;
    [|discriminate].
  destruct (build_header_len tid) as [header [Hh Hlen]].
  destruct (question_tail rt qtype E) as [tail Ht].
  exists header, tail. split; [exact Hlen|].
  unfold build_query. rewrite E, Hh. cbn [Py.bind].
  unfold _build_question. rewrite Hq. cbn [Py.bind]. rewrite E.
  cbv zeta. rewrite Ht. reflexivity.
Qed.

Lemma build_query_encode_error : forall domain record_type transaction_id e,
  supported record_type = true ->
  _encode_domain_name domain = Raise e ->
  build_query domain record_type transaction_id = Raise e.
Proof.
  intros domain rt tid e Hs Hq. unfold supported in Hs.
  destruct (dict_get String.eqb RECORD_TYPES rt) as [qtype|] eqn:E;
    [|discriminate].
  destruct (build_header_len tid) as [header [Hh Hlen]].
  unfold build_query. rewrite E, Hh. cbn [Py.bind].
  unfold _build_question. rewrite Hq. reflexivity.
Qed.

Lemma valid_domain_labels : forall domain,
  valid_domain domain = true ->
  forallb (fun l => (1 <=? slen l) && label_ok l) (split "."%char domain)
  = true.
Proof.
  intros domain H. unfold valid_domain in H.
  apply andb_prop in H as [H Hlab]. apply andb_prop in H as [_ Hascii].
  pose proof (split_ascii "."%char domain Hascii) as Ha.
  rewrite forallb_forall in *. intros l Hin.
  specialize (Hlab l Hin). specialize (Ha l Hin).
  apply andb_prop in Hlab as [H1 H63].
  unfold label_ok. rewrite H1, H63, Ha. reflexivity.
Qed.

(** ** Decoding what the encoder wrote *)

Lemma decode_plain_labels : forall ls packet pre post fuel acc oo,
  forallb (fun l => (1 <=? slen l) && label_ok l) ls = true ->
  packet = pre ++ labels_bytes ls ++ x00 :: post ->
  (List.length ls < fuel)%nat ->
  name_loop fuel packet (len pre) acc oo false
  = Ret (finish_name (acc ++ ls) (len pre + len (labels_bytes ls) + 1) oo false).
Proof.
  induction ls as [|l ls IH]; intros packet pre post fuel acc oo Hok Hp Hf.
  - destruct fuel as [|fuel]; [cbn in Hf; lia|].
    cbn [labels_bytes flat_map app] in Hp. subst packet.
    cbn [name_loop].
    assert (Hlt : (len pre >=? len (pre ++ x00 :: post)) = false).
    { rewrite len_app, len_cons. pose proof (len_nonneg _ post). lia. }
    rewrite Hlt, getitem_middle. cbv zeta.
    change (byte_val x00) with 0. cbn [Z.land Z.eqb].
    rewrite app_nil_r. change (len (labels_bytes [])) with 0.
    now rewrite Z.add_0_r.
  - destruct fuel as [|fuel]; [cbn in Hf; lia|].
    cbn [forallb] in Hok. apply andb_prop in Hok as [Hl Hls].
    apply andb_prop in Hl as [H1 Hok]. unfold label_ok in Hok.
    apply andb_prop in Hok as [H63 Hascii].
    set (chars := map byte_of_ascii (list_ascii_of_string l)).
    assert (Hchars : len chars = slen l).
    { unfold chars, len. rewrite length_map. apply slen_chars. }
    assert (Hp1 : packet
                  = pre ++ byte_of_Z (slen l)
                           :: (chars ++ labels_bytes ls ++ x00 :: post)).
    { rewrite Hp. unfold labels_bytes. cbn [flat_map].
      unfold label_bytes at 1. fold chars. cbn [app].
      now rewrite <- app_assoc. }
    assert (Hp2 : packet
                  = (pre ++ [byte_of_Z (slen l)])
                    ++ chars ++ (labels_bytes ls ++ x00 :: post)).
    { rewrite Hp1. now rewrite <- app_assoc. }
    assert (Hp3 : packet
                  = (pre ++ byte_of_Z (slen l) :: chars)
                    ++ labels_bytes ls ++ x00 :: post).
    { rewrite Hp1. now rewrite <- app_assoc. }
    assert (Hlen : len packet
                   = len pre + 1 + slen l + len (labels_bytes ls) + 1
                     + len post).
    { rewrite Hp3, !len_app, !len_cons. rewrite Hchars. lia. }
    pose proof (len_nonneg _ pre). pose proof (len_nonneg _ post).
    pose proof (len_nonneg _ (labels_bytes ls)).
    cbn [name_loop].
    replace (len pre >=? len packet) with false by lia.
    rewrite Hp1 at 1. rewrite getitem_middle. cbv zeta.
    rewrite byte_val_of_Z by lia.
    rewrite small_length_is_no_pointer by lia.
    replace (slen l =? 0) with false by lia.
    replace (len pre + 1 + slen l >? len packet) with false by lia.
    assert (Hslice : slice packet (len pre + 1) (len pre + 1 + slen l) = chars).
    { rewrite Hp2 at 1.
      replace (len pre + 1) with (len (pre ++ [byte_of_Z (slen l)]))
        by (rewrite len_app; reflexivity).
      rewrite <- Hchars. apply slice_middle. }
    rewrite Hslice. unfold chars at 1.
    rewrite decode_encoded_ascii by assumption.
    rewrite string_of_list_ascii_of_string.
    replace (len pre + 1 + slen l)
      with (len (pre ++ byte_of_Z (slen l) :: chars)).
    2:{ rewrite len_app, len_cons. lia. }
    rewrite (IH packet _ post fuel (acc ++ [l]) oo Hls Hp3)
      by (cbn in Hf; lia).
    rewrite <- app_assoc. cbn [app]. f_equal. f_equal.
    unfold labels_bytes. cbn [flat_map].
    rewrite !len_app, len_label_bytes, len_cons, Hchars. lia.
Qed.

(** C4. For every valid domain, a supported record type and any
    transaction id, [build_query] produces a packet, and decoding the name
    at the question section (offset 12) gives the domain back, resuming
    right after the encoded name; one loop iteration per label and one for
    the terminator are enough. *)
Theorem query_name_round_trip : forall domain record_type transaction_id,
  valid_domain domain = true ->
  supported record_type = true ->
  exists packet,
    build_query domain record_type transaction_id = Ret packet
    /\ forall fuel,
         (List.length (split "."%char domain) < fuel)%nat ->
         _parse_domain_name fuel packet 12
         = Ret (domain, 12 + (slen domain + 2)).
Proof.
  intros domain rt tid Hv Hs.
  pose proof (valid_domain_labels domain Hv) as Hlab.
  assert (Hq : _encode_domain_name domain
               = Ret (labels_bytes (split "."%char domain) ++ [x00])).
  { unfold _encode_domain_name. unfold valid_domain in Hv.
    apply andb_prop in Hv as [Hv _]. apply andb_prop in Hv as [Hv _].
    replace ((slen domain =? 0) || (slen domain >? 253)) with false by lia.
    rewrite (encode_labels_accepts _ [] Hlab). reflexivity. }
  destruct (build_query_layout domain rt tid _ Hs Hq)
    as [header [tail [Hlen Hb]]].
  eexists. split; [exact Hb|].
  intros fuel Hf. unfold _parse_domain_name.
  rewrite <- Hlen at 1.
  rewrite (decode_plain_labels (split "."%char domain)
             (header ++ (labels_bytes (split "."%char domain) ++ [x00]) ++ tail)
             header tail fuel [] 12 Hlab).
  - cbn [app]. unfold finish_name.
    pose proof (split_not_nil "."%char domain) as Hn.
    pose proof (join_split "."%char domain) as Hj.
    destruct (split "."%char domain) as [|l ls] eqn:E; [contradiction|].
    rewrite Hj. rewrite <- E, len_labels_bytes, split_total_length, Hlen.
    f_equal. f_equal. lia.
  - now rewrite <- app_assoc.
  - exact Hf.
Qed.

Lemma query_name_round_trip_witness :
  exists packet,
    build_query "example.com" "A" 0x1234 = Ret packet
    /\ _parse_domain_name 3 packet 12 = Ret ("example.com"%string, 25).
Proof.
  destruct (query_name_round_trip "example.com" "A" 0x1234)
    as [packet [Hb Hd]]; [reflexivity | reflexivity |].
  exists packet. split; [exact Hb|].
  apply (Hd 3%nat). cbn. lia.
Defined.

(** ** Rejected domains *)

Lemma long_text_rejected : forall domain,
  253 < slen domain ->
  _encode_domain_name domain
  = Raise (ValueError "Invalid domain name length").
Proof.
  intros domain H. unfold _encode_domain_name.
  replace ((slen domain =? 0) || (slen domain >? 253)) with true by lia.
  reflexivity.
Qed.

Lemma long_label_rejected : forall domain ls1 l ls2,
  1 <= slen domain <= 253 ->
  split "."%char domain = ls1 ++ l :: ls2 ->
  forallb label_ok ls1 = true ->
  63 < slen l ->
  _encode_domain_name domain
  = Raise (ValueError ("Label too long: " ++ l)%string).
Proof.
  intros domain ls1 l ls2 Hlen Hsplit Hok Hl. unfold _encode_domain_name.
  replace ((slen domain =? 0) || (slen domain >? 253)) with false by lia.
  rewrite Hsplit, (encode_labels_rejects ls1 l ls2 [] Hok Hl). reflexivity.
Qed.

(** C5 (as the code has it). With a supported record type, [build_query]
    fails with the invalid-domain-name error when the domain text is
    longer than 253 characters, hence whenever the encoded name before its
    terminator is longer than 254 bytes; and when the domain has 1 to 253
    characters, it fails with the label-too-long error at the first label
    longer than 63 characters, provided the labels before it are ASCII. *)
Theorem domain_length_errors : forall domain record_type transaction_id,
  supported record_type = true ->
  (253 < slen domain ->
   build_query domain record_type transaction_id
   = Raise (ValueError "Invalid domain name length"))
  /\ (254 < encoded_length domain ->
      build_query domain record_type transaction_id
      = Raise (ValueError "Invalid domain name length"))
  /\ (forall ls1 l ls2,
         1 <= slen domain <= 253 ->
         split "."%char domain = ls1 ++ l :: ls2 ->
         forallb label_ok ls1 = true ->
         63 < slen l ->
         build_query domain record_type transaction_id
         = Raise (ValueError ("Label too long: " ++ l)%string)).
Proof.
  intros domain rt tid Hs. split; [|split].
  - intros H. apply build_query_encode_error; [assumption|].
    now apply long_text_rejected.
  - intros H. apply build_query_encode_error; [assumption|].
    apply long_text_rejected.
    pose proof (encoded_length_le domain). lia.
  - intros ls1 l ls2 Hlen Hsplit Hok Hl.
    apply build_query_encode_error; [assumption|].
    eapply long_label_rejected; eassumption.
Qed.

Lemma domain_length_errors_witness :
  build_query domain_300 "A" 1
  = Raise (ValueError "Invalid domain name length")
  /\ build_query domain_long_label "A" 1
     = Raise (ValueError ("Label too long: " ++ replicate 64 "a")%string).
Proof.
  split.
  - apply (proj1 (domain_length_errors domain_300 "A" 1 eq_refl)).
    reflexivity.
  - apply (proj2 (proj2 (domain_length_errors domain_long_label "A" 1 eq_refl))
             ["www"%string] (replicate 64 "a") ["com"%string]).
    + split; vm_compute; discriminate.
    + reflexivity.
    + reflexivity.
    + reflexivity.
Defined.

(** C5, refuted as stated: a domain of 253 characters encodes to 254
    bytes before the terminator and is accepted; and a domain with a
    label of 300 characters fails with the invalid-domain-name error, not
    with the label-too-long one. *)
Lemma encoded_254_bytes_accepted :
  (encoded_length domain_253 = 254
   /\ exists packet, build_query domain_253 "A" 1 = Ret packet)
  /\ (split "."%char domain_300 = [domain_300]
      /\ slen domain_300 = 300
      /\ build_query domain_300 "A" 1
         = Raise (ValueError "Invalid domain name length")).
Proof.
  split.
  - split; [reflexivity|]. eexists. vm_compute. reflexivity.
  - split; [reflexivity|]. split; reflexivity.
Qed.

(** ** Partial responses *)

Lemma parse_items_complete : forall (A : Type) (parse_one : Z -> run (A * Z))
    items offset offset' acc,
  chain parse_one offset items offset' ->
  parse_items parse_one (List.length items) offset acc
  = (acc ++ items, Ret offset').
Proof.
  intros A parse_one items offset offset' acc H. revert acc.
  induction H as [offset | offset x offset1 xs offset' Hx Hc IH]; intros acc.
  - cbn. now rewrite app_nil_r.
  - cbn [List.length parse_items]. rewrite Hx, IH, <- app_assoc. reflexivity.
Qed.

Lemma parse_items_interrupted : forall (A : Type)
    (parse_one : Z -> run (A * Z)) items offset offset' acc n e,
  chain parse_one offset items offset' ->
  (List.length items < n)%nat ->
  parse_one offset' = Raise e ->
  parse_items parse_one n offset acc = (acc ++ items, Raise e).
Proof.
  intros A parse_one items offset offset' acc n e H. revert acc n.
  induction H as [offset | offset x offset1 xs offset' Hx Hc IH];
    intros acc n Hn He.
  - destruct n as [|n]; [cbn in Hn; lia|].
    cbn [parse_items]. rewrite He, app_nil_r. reflexivity.
  - destruct n as [|n]; [cbn in Hn; lia|].
    cbn [parse_items]. rewrite Hx.
    rewrite IH by (cbn in Hn; lia || assumption).
    now rewrite <- app_assoc.
Qed.

Lemma len_slice_prefix : forall (A : Type) (l : list A) n,
  0 <= n <= len l -> len (slice l 0 n) = n.
Proof.
  intros A l n H. unfold slice, clamp.
  replace (0 <? 0) with false by reflexivity.
  replace (n <? 0) with false by lia.
  rewrite Z.min_l by lia. rewrite Z.min_l by lia.
  cbn [Z.to_nat skipn]. rewrite Z.sub_0_r.
  unfold len in *. rewrite length_firstn. lia.
Qed.

Lemma parse_header_total : forall packet,
  12 <= len packet -> exists hd, _parse_header packet 0 = Ret (hd, 12).
Proof.
  intros packet H. unfold _parse_header, unpack_HHHHHH.
  change (0 + 12) with 12.
  rewrite (len_slice_prefix _ packet 12) by lia.
  cbn [Z.eqb Pos.eqb Py.bind]. eexists. reflexivity.
Qed.

Lemma parse_response_never_raises : forall fuel packet expected_id e,
  12 <= len packet ->
  id_accepted packet expected_id = true ->
  parse_response fuel packet expected_id <> Raise e.
Proof.
  intros fuel packet expected_id e Hlen Hid.
  destruct (parse_header_total packet Hlen) as [hd Hh].
  rewrite (parse_response_sections fuel packet expected_id hd 12 Hlen Hh Hid).
  destruct (parse_sections fuel packet hd 12 (initial_response hd))
    as [r [o| e' |]]; discriminate.
Qed.

Ltac response_fields :=
  cbn [app set_questions set_answers set_authority set_additional
       id status flags questions answers authority additional
       query_name query_type dns_server].

Lemma fails_partway_sections : forall fuel packet hd qs ans auth add e,
  fails_partway fuel packet hd qs ans auth add e ->
  parse_sections fuel packet hd 12 (initial_response hd)
  = (mk_response (h_id hd) (status_of_rcode (h_rcode hd)) (h_flags hd)
       qs ans auth add None None None,
     Raise e).
Proof.
  intros fuel packet hd qs ans auth add e H.
  unfold parse_sections, initial_response.
  cbn [questions answers authority additional].
  destruct H as
    [ qs o1 e Hq Hnq He
    | qs o1 ans o2 e Hq Hnq Ha Hna He
    | qs o1 ans o2 auth o3 e Hq Hnq Ha Hna Hu Hnu He
    | qs o1 ans o2 auth o3 add o4 e Hq Hnq Ha Hna Hu Hnu Hd Hnd He ].
  - rewrite (parse_items_interrupted _ _ qs 12 o1 [] _ e Hq Hnq He).
    reflexivity.
  - rewrite <- Hnq, (parse_items_complete _ _ qs 12 o1 [] Hq).
    response_fields.
    rewrite (parse_items_interrupted _ _ ans o1 o2 [] _ e Ha Hna He).
    reflexivity.
  - rewrite <- Hnq, (parse_items_complete _ _ qs 12 o1 [] Hq).
    response_fields.
    rewrite <- Hna, (parse_items_complete _ _ ans o1 o2 [] Ha).
    response_fields.
    rewrite (parse_items_interrupted _ _ auth o2 o3 [] _ e Hu Hnu He).
    reflexivity.
  - rewrite <- Hnq, (parse_items_complete _ _ qs 12 o1 [] Hq).
    response_fields.
    rewrite <- Hna, (parse_items_complete _ _ ans o1 o2 [] Ha).
    response_fields.
    rewrite <- Hnu, (parse_items_complete _ _ auth o2 o3 [] Hu).
    response_fields.
    rewrite (parse_items_interrupted _ _ add o3 o4 [] _ e Hd Hnd He).
    reflexivity.
Qed.

(** C6. For a packet of at least 12 bytes whose transaction id is
    accepted, [parse_response] never raises; and when a section fails to
    parse partway through, it returns the response made of the header's
    id, status and flags, of every question and record decoded before the
    failure, and of empty lists for the sections not reached. *)
Theorem malformed_section_gives_partial_response :
  forall fuel packet expected_id,
    12 <= len packet ->
    id_accepted packet expected_id = true ->
    exists hd,
      _parse_header packet 0 = Ret (hd, 12)
      /\ (forall e, parse_response fuel packet expected_id <> Raise e)
      /\ (forall qs ans auth add e,
             fails_partway fuel packet hd qs ans auth add e ->
             parse_response fuel packet expected_id
             = Ret (mk_response (h_id hd) (status_of_rcode (h_rcode hd))
                      (h_flags hd) qs ans auth add None None None)).
Proof.
  intros fuel packet expected_id Hlen Hid.
  destruct (parse_header_total packet Hlen) as [hd Hh].
  exists hd. split; [exact Hh|]. split.
  - intros e. now apply parse_response_never_raises.
  - intros qs ans auth add e Hf.
    rewrite (parse_response_sections fuel packet expected_id hd 12 Hlen Hh Hid).
    rewrite (fails_partway_sections fuel packet hd qs ans auth add e Hf).
    reflexivity.
Qed.

Lemma malformed_section_gives_partial_response_witness :
  parse_response 5 truncated_answer (Some 0x1234)
  = Ret (mk_response 0x1234 "NOERROR" 0x8180
           [mk_question "example.com" "A" 1]
           [mk_record "example.com" "A" 1 60 (Text "93.184.216.34")]
           [] [] None None None).
Proof.
  destruct (malformed_section_gives_partial_response 5 truncated_answer
              (Some 0x1234)) as [hd [Hh [_ Hpartial]]].
  - vm_compute. discriminate.
  - reflexivity.
  - assert (Ehd : hd = mk_header 0x1234 0x8180 1 2 0 0 1 0 0 0 1 1 0).
    { vm_compute in Hh. congruence. }
    subst hd.
    apply (Hpartial
             [mk_question "example.com" "A" 1]
             [mk_record "example.com" "A" 1 60 (Text "93.184.216.34")]
             [] [] StructError).
    apply (fails_in_answers 5 truncated_answer _ _ 29 _ 45).
    + eapply chain_cons; [reflexivity | apply chain_nil].
    + reflexivity.
    + eapply chain_cons; [reflexivity | apply chain_nil].
    + cbn. lia.
    + reflexivity.
Defined.

(** ** The cache dictionary *)

Import CacheManager.

Section DictFacts.

Context {V : Type}.
Implicit Types (d : list (string * V)) (k : string) (v : V).

Lemma dict_mem_get : forall d k,
  dict_mem k d = match dict_get String.eqb d k with
                 | Some _ => true
                 | None => false
                 end.
Proof.
  induction d as [|[k' v'] d IH]; intros k; [reflexivity|].
  cbn [dict_mem dict_get]. destruct (String.eqb k' k); [reflexivity|apply IH].
Qed.

Lemma dict_set_new : forall d k v,
  dict_mem k d = false -> dict_set k v d = d ++ [(k, v)].
Proof.
  induction d as [|[k' v'] d IH]; intros k v H; [reflexivity|].
  cbn [dict_mem] in H. apply orb_false_elim in H as [Hk Hd].
  cbn [dict_set app]. rewrite Hk, IH by assumption. reflexivity.
Qed.

Lemma dict_set_len : forall d k v,
  len (dict_set k v d) = if dict_mem k d then len d else len d + 1.
Proof.
  induction d as [|[k' v'] d IH]; intros k v; [reflexivity|].
  cbn [dict_set dict_mem]. destruct (String.eqb k' k); cbn [orb].
  - now rewrite !len_cons.
  - rewrite !len_cons, IH. destruct (dict_mem k d); lia.
Qed.

Lemma dict_get_set : forall d k v,
  dict_get String.eqb (dict_set k v d) k = Some v.
Proof.
  induction d as [|[k' v'] d IH]; intros k v.
  - cbn. now rewrite String.eqb_refl.
  - cbn [dict_set]. destruct (String.eqb k' k) eqn:E; cbn [dict_get];
      rewrite E; [reflexivity | apply IH].
Qed.

Lemma dict_del_len : forall d k,
  len (dict_del k d) = if dict_mem k d then len d - 1 else len d.
Proof.
  induction d as [|[k' v'] d IH]; intros k; [reflexivity|].
  cbn [dict_del dict_mem]. destruct (String.eqb k' k); cbn [orb].
  - rewrite len_cons. lia.
  - rewrite !len_cons, IH. destruct (dict_mem k d); lia.
Qed.

Lemma dict_del_len_le : forall d k, len (dict_del k d) <= len d.
Proof. intros d k. rewrite dict_del_len. destruct (dict_mem k d); lia. Qed.

Lemma dict_del_incl : forall d k x, In x (dict_del k d) -> In x d.
Proof.
  induction d as [|[k' v'] d IH]; intros k x H; [exact H|].
  cbn [dict_del] in H. destruct (String.eqb k' k).
  - now right.
  - destruct H as [H|H]; [now left | right; eapply IH; eassumption].
Qed.

Lemma dict_mem_del_other : forall d k k',
  dict_mem k d = false -> dict_mem k (dict_del k' d) = false.
Proof.
  induction d as [|[k0 v0] d IH]; intros k k' H; [reflexivity|].
  cbn [dict_mem] in H. apply orb_false_elim in H as [Hk Hd].
  cbn [dict_del]. destruct (String.eqb k0 k'); [exact Hd|].
  cbn [dict_mem]. rewrite Hk. now apply IH.
Qed.

Lemma dict_mem_in : forall d k v, In (k, v) d -> dict_mem k d = true.
Proof.
  induction d as [|[k' v'] d IH]; intros k v H; [contradiction|].
  cbn [dict_mem]. destruct H as [H|H].
  - injection H as -> ->. now rewrite String.eqb_refl.
  - rewrite (IH _ _ H). apply orb_true_r.
Qed.

(** Deleting the key of an entry of a dictionary removes that entry and
    nothing else. *)
Lemma dict_del_entry : forall d k v,
  unique_keys d = true ->
  In (k, v) d ->
  exists pre post, d = pre ++ (k, v) :: post /\ dict_del k d = pre ++ post.
Proof.
  induction d as [|[k' v'] d IH]; intros k v Hu Hin; [contradiction|].
  cbn [unique_keys] in Hu. apply andb_prop in Hu as [Hk Hd].
  cbn [dict_del]. destruct (String.eqb k' k) eqn:E.
  - apply String.eqb_eq in E. subst k'.
    destruct Hin as [H|H].
    + injection H as ->. exists [], d. split; reflexivity.
    + apply dict_mem_in in H. rewrite H in Hk. discriminate.
  - destruct Hin as [H|H].
    + injection H as -> ->. rewrite String.eqb_refl in E. discriminate.
    + destruct (IH k v Hd H) as [pre [post [E1 E2]]].
      exists ((k', v') :: pre), post. cbn [app]. now rewrite <- E1, E2.
Qed.

Lemma dict_mem_set : forall d k v k',
  dict_mem k' (dict_set k v d) = dict_mem k' d || String.eqb k k'.
Proof.
  induction d as [|[k0 v0] d IH]; intros k v k'.
  - cbn. now rewrite orb_false_r.
  - cbn [dict_set]. destruct (String.eqb k0 k) eqn:E; cbn [dict_mem].
    + apply String.eqb_eq in E. subst k0.
      destruct (String.eqb k k'); cbn [orb]; [reflexivity|].
      now rewrite orb_false_r.
    + rewrite IH. now rewrite orb_assoc.
Qed.

Lemma dict_set_unique : forall d k v,
  unique_keys d = true -> unique_keys (dict_set k v d) = true.
Proof.
  induction d as [|[k0 v0] d IH]; intros k v H; [reflexivity|].
  cbn [unique_keys] in H. apply andb_prop in H as [H0 Hd].
  cbn [dict_set]. destruct (String.eqb k0 k) eqn:E; cbn [unique_keys].
  - now rewrite H0, Hd.
  - rewrite dict_mem_set, (IH _ _ Hd).
    apply negb_true_iff in H0. rewrite H0.
    rewrite String.eqb_sym, E. reflexivity.
Qed.

Lemma dict_del_unique : forall d k,
  unique_keys d = true -> unique_keys (dict_del k d) = true.
Proof.
  induction d as [|[k0 v0] d IH]; intros k H; [reflexivity|].
  cbn [unique_keys] in H. apply andb_prop in H as [H0 Hd].
  cbn [dict_del]. destruct (String.eqb k0 k); [exact Hd|].
  cbn [unique_keys]. rewrite (IH _ Hd), andb_true_r.
  apply negb_true_iff in H0. apply negb_true_iff.
  now apply dict_mem_del_other.
Qed.

Lemma fold_del_unique : forall keys d,
  unique_keys d = true ->
  unique_keys (fold_left (fun d k => dict_del k d) keys d) = true.
Proof.
  induction keys as [|k keys IH]; intros d H; [exact H|].
  cbn [fold_left]. apply IH. now apply dict_del_unique.
Qed.

End DictFacts.

(** ** Eviction *)

Section CacheFacts.

Context {D Store : Type}.
Variable copy : D -> Store -> D * Store.

Lemma min_created_least : forall (rest : list (string * entry D)) best,
  In (min_created best rest) (best :: rest)
  /\ forall x, In x (best :: rest) ->
               created (snd (min_created best rest)) <= created (snd x).
Proof.
  induction rest as [|y rest IH]; intros best.
  - cbn. split; [now left|]. intros x [<-|[]]. lia.
  - cbn [min_created].
    destruct (created (snd y) <? created (snd best)) eqn:E.
    + destruct (IH y) as [Hin Hle]. split.
      * destruct Hin as [H|H]; [right; left; exact H | right; right; exact H].
      * intros x [<-|Hx]; [|now apply Hle].
        specialize (Hle y (or_introl eq_refl)). lia.
    + destruct (IH best) as [Hin Hle]. split.
      * destruct Hin as [H|H]; [left; exact H | right; right; exact H].
      * intros x [<-|[<-|Hx]].
        -- apply Hle. now left.
        -- specialize (Hle best (or_introl eq_refl)). lia.
        -- apply Hle. now right.
Qed.

Lemma evict_oldest_removes_least : forall (c : t D),
  unique_keys (_cache c) = true ->
  _cache c <> [] ->
  exists pre k e post,
    _cache c = pre ++ (k, e) :: post
    /\ (forall k' e', In (k', e') (_cache c) -> created e <= created e')
    /\ _cache (_evict_oldest c) = pre ++ post
    /\ evictions (_stats (_evict_oldest c)) = evictions (_stats c) + 1
    /\ max_size (_evict_oldest c) = max_size c.
Proof.
  intros c Hu Hne. unfold _evict_oldest.
  destruct (_cache c) as [|first rest] eqn:Ec; [contradiction|].
  destruct (min_created_least rest first) as [Hin Hle].
  destruct (min_created first rest) as [k e] eqn:Em.
  destruct (dict_del_entry (first :: rest) k e Hu Hin) as [pre [post [E1 E2]]].
  exists pre, k, e, post. split; [exact E1|]. split.
  - intros k' e' H. apply (Hle (k', e') H).
  - cbn [fst _cache _stats max_size count_eviction with_cache evictions].
    rewrite E2. repeat split.
Qed.

Lemma get_adds_nothing : forall (c : t D) key now st k e,
  In (k, e) (_cache (snd (fst (get copy c key now st)))) ->
  In (k, e) (_cache c).
Proof.
  intros c key now st k e H. unfold get in H.
  destruct (dict_get String.eqb (_cache c) key) as [e0|]; [|exact H].
  cbv zeta in H. destruct (now >=? expires e0).
  - cbn in H. eapply dict_del_incl; eassumption.
  - destruct (copy (data e0) st). exact H.
Qed.

(** C8. When the cache holds exactly [max_size] entries (at least one),
    storing a new key with a positive TTL removes exactly one entry, one
    whose [created] is the least of all, adds 1 to the eviction counter
    and stores the new entry last, leaving [max_size] entries. [created]
    is the time of insertion: a [get] changes no entry that it leaves in
    the cache. *)
Theorem set_on_full_cache_evicts_oldest :
  forall (c : t D) key d ttl now st,
    unique_keys (_cache c) = true ->
    0 < max_size c ->
    len (_cache c) = max_size c ->
    dict_mem key (_cache c) = false ->
    0 < ttl ->
    (exists pre k_old e_old post,
        _cache c = pre ++ (k_old, e_old) :: post
        /\ (forall k e, In (k, e) (_cache c) -> created e_old <= created e)
        /\ _cache (fst (set copy c key d ttl now st))
           = pre ++ post
             ++ [(key, mk_entry (fst (copy d st)) (now + ttl) now)]
        /\ evictions (_stats (fst (set copy c key d ttl now st)))
           = evictions (_stats c) + 1
        /\ len (_cache (fst (set copy c key d ttl now st))) = max_size c)
    /\ (forall key' now' st' k e,
           In (k, e) (_cache (snd (fst (get copy c key' now' st')))) ->
           In (k, e) (_cache c)).
Proof.
  intros c key d ttl now st Hu Hmax Hfull Hnew Httl. split.
  - assert (Hne : _cache c <> []).
    { intros E. rewrite E in Hfull. cbn in Hfull. lia. }
    destruct (evict_oldest_removes_least c Hu Hne)
      as [pre [k [e [post [E1 [Hle [E2 [E3 E4]]]]]]]].
    exists pre, k, e, post. split; [exact E1|]. split; [exact Hle|].
    unfold set. replace (ttl <=? 0) with false by lia.
    cbv zeta. rewrite Hnew.
    replace (len (_cache c) >=? max_size c) with true by lia.
    cbn [andb negb].
    destruct (copy d st) as [d' st'] eqn:Ecopy. cbn [fst snd].
    unfold with_cache. cbn [_cache _stats max_size].
    assert (Hnew' : dict_mem key (pre ++ post) = false).
    { rewrite <- E2. unfold _evict_oldest.
      destruct (_cache c) as [|first rest] eqn:Ec; [contradiction|].
      cbn [_cache count_eviction with_cache].
      apply dict_mem_del_other. exact Hnew. }
    rewrite E2, (dict_set_new _ _ _ Hnew'), E3.
    rewrite <- app_assoc. repeat split.
    rewrite <- Hfull, E1, !len_app, !len_cons.
    change (len (@nil (string * entry D))) with 0. lia.
  - intros key' now' st' k e. apply get_adds_nothing.
Qed.

End CacheFacts.

Lemma set_on_full_cache_evicts_oldest_witness :
  _cache (fst (set copy_Z full_cache "k3" 13 300 200 tt))
  = [("k0"%string, mk_entry 10 400 100);
     ("k2"%string, mk_entry 12 360 60);
     ("k3"%string, mk_entry 13 500 200)]
  /\ evictions (_stats (fst (set copy_Z full_cache "k3" 13 300 200 tt))) = 1.
Proof.
  destruct (set_on_full_cache_evicts_oldest copy_Z full_cache "k3" 13 300 200 tt)
    as [[pre [k [e [post [E1 [Hle [E2 [E3 E4]]]]]]]] _];
    try reflexivity.
  split; [reflexivity | exact E3].
Defined.

(** ** The size of the cache *)

Section SizeBound.

Context {D Store : Type}.
Variable copy : D -> Store -> D * Store.

Lemma evict_oldest_len : forall (c : t D),
  _cache c <> [] ->
  len (_cache (_evict_oldest c)) = len (_cache c) - 1
  /\ max_size (_evict_oldest c) = max_size c.
Proof.
  intros c Hne. unfold _evict_oldest.
  destruct (_cache c) as [|first rest] eqn:Ec; [contradiction|].
  cbn [_cache max_size count_eviction with_cache]. split; [|reflexivity].
  rewrite dict_del_len.
  destruct (min_created_least rest first) as [Hin _].
  destruct (min_created first rest) as [k e]. cbn [fst].
  now rewrite (dict_mem_in _ _ _ Hin).
Qed.

Lemma set_keeps_bound : forall (c : t D) key d ttl now st,
  0 < max_size c ->
  len (_cache c) <= max_size c ->
  len (_cache (fst (set copy c key d ttl now st))) <= max_size c
  /\ max_size (fst (set copy c key d ttl now st)) = max_size c.
Proof.
  intros c key d ttl now st Hmax Hb. unfold set.
  destruct (ttl <=? 0); [split; [exact Hb | reflexivity]|].
  cbv zeta. destruct (copy d st) as [d' st']. cbn [fst].
  unfold with_cache. cbn [_cache max_size].
  destruct ((len (_cache c) >=? max_size c) && negb (dict_mem key (_cache c)))
    eqn:E.
  - apply andb_prop in E as [Hfull Hnew].
    assert (Hne : _cache c <> []).
    { intros E0. rewrite E0 in Hfull. cbn in Hfull. lia. }
    destruct (evict_oldest_len c Hne) as [Hl Hm].
    rewrite dict_set_len, Hl, Hm.
    destruct (dict_mem key (_cache (_evict_oldest c))); split; lia.
  - rewrite dict_set_len. split; [|reflexivity].
    destruct (dict_mem key (_cache c)); [exact Hb|].
    cbn [negb] in E. rewrite andb_true_r in E. lia.
Qed.

Lemma cleanup_len : forall keys (d : list (string * entry D)),
  len (fold_left (fun d k => dict_del k d) keys d) <= len d.
Proof.
  induction keys as [|k keys IH]; intros d; [cbn; lia|].
  cbn [fold_left]. specialize (IH (dict_del k d)).
  pose proof (dict_del_len_le d k). lia.
Qed.

Lemma guarded_step_keeps_bound : forall (c : t D) st o,
  0 < max_size c ->
  len (_cache c) <= max_size c ->
  is_import o = false ->
  len (_cache (fst (step copy (c, st) o))) <= max_size c
  /\ max_size (fst (step copy (c, st) o)) = max_size c.
Proof.
  intros c st o Hmax Hb Ho.
  destruct o as [key d ttl now | key now | key now | key now | key | | now
                | loaded now]; cbn [step]; try discriminate.
  - destruct (set copy c key d ttl now st) as [c' st'] eqn:E.
    pose proof (set_keeps_bound c key d ttl now st Hmax Hb) as H.
    rewrite E in H. exact H.
  - unfold get. destruct (dict_get String.eqb (_cache c) key) as [e|].
    + cbv zeta. destruct (now >=? expires e).
      * cbn. pose proof (dict_del_len_le (_cache c) key). split; [lia|reflexivity].
      * destruct (copy (data e) st). cbn. split; [exact Hb|reflexivity].
    + cbn. split; [exact Hb|reflexivity].
  - unfold is_cached. destruct (dict_get String.eqb (_cache c) key) as [e|].
    + cbv zeta. destruct (now >=? expires e); cbn.
      * pose proof (dict_del_len_le (_cache c) key). split; [lia|reflexivity].
      * split; [exact Hb|reflexivity].
    + cbn. split; [exact Hb|reflexivity].
  - unfold get_ttl. destruct (dict_get String.eqb (_cache c) key) as [e|].
    + cbv zeta. destruct (now >=? expires e); cbn.
      * pose proof (dict_del_len_le (_cache c) key). split; [lia|reflexivity].
      * split; [exact Hb|reflexivity].
    + cbn. split; [exact Hb|reflexivity].
  - unfold delete. destruct (dict_mem key (_cache c)); cbn.
    + pose proof (dict_del_len_le (_cache c) key). split; [lia|reflexivity].
    + split; [exact Hb|reflexivity].
  - cbn. split; [lia|reflexivity].
  - unfold _cleanup_expired. cbv zeta.
    set (keys := map fst (filter _ (_cache c))).
    pose proof (cleanup_len keys (_cache c)) as Hc.
    destruct keys; cbn [fst snd _cache max_size count_cleanup with_cache] in *;
      split; (lia || reflexivity).
Qed.

Lemma guarded_ops_keep_bound : forall ops (c : t D) st,
  0 < max_size c ->
  len (_cache c) <= max_size c ->
  forallb (fun o => negb (is_import o)) ops = true ->
  len (_cache (fst (run_ops copy (c, st) ops))) <= max_size c
  /\ max_size (fst (run_ops copy (c, st) ops)) = max_size c.
Proof.
  induction ops as [|o ops IH]; intros c st Hmax Hb Hops.
  - cbn. split; [exact Hb | reflexivity].
  - cbn [forallb] in Hops. apply andb_prop in Hops as [Ho Hops].
    apply negb_true_iff in Ho.
    destruct (guarded_step_keeps_bound c st o Hmax Hb Ho) as [H1 H2].
    unfold run_ops in *. cbn [fold_left].
    destruct (step copy (c, st) o) as [c' st'] eqn:E. cbn [fst] in H1, H2.
    rewrite <- H2 in *. now apply IH.
Qed.

Lemma import_entries_unique : forall entries (c : t D) now,
  unique_keys (_cache c) = true ->
  unique_keys (_cache (fst (import_entries c entries now))) = true.
Proof.
  induction entries as [|[key e] entries IH]; intros c now H; [exact H|].
  cbn [import_entries].
  destruct (match ie_ttl_remaining e with Some v => v | None => 0 end >? 0).
  - destruct (ie_data e) as [d|]; [|exact H].
    apply IH. cbn [_cache with_cache]. now apply dict_set_unique.
  - now apply IH.
Qed.

(** Every operation leaves the keys of the dictionary distinct. *)
Lemma step_keeps_unique_keys : forall (c : t D) st o,
  unique_keys (_cache c) = true ->
  unique_keys (_cache (fst (step copy (c, st) o))) = true.
Proof.
  intros c st o H.
  destruct o as [key d ttl now | key now | key now | key now | key | | now
                | loaded now]; cbn [step].
  - unfold set. destruct (ttl <=? 0); [exact H|]. cbv zeta.
    destruct (copy d st) as [d' st']. cbn [fst _cache with_cache].
    apply dict_set_unique.
    destruct ((len (_cache c) >=? max_size c)
              && negb (dict_mem key (_cache c))); [|exact H].
    unfold _evict_oldest. destruct (_cache c) as [|first rest] eqn:Ec;
      [rewrite Ec; reflexivity|].
    cbn [_cache count_eviction with_cache]. now apply dict_del_unique.
  - unfold get. destruct (dict_get String.eqb (_cache c) key) as [e|];
      [|exact H].
    cbv zeta. destruct (now >=? expires e).
    + cbn. now apply dict_del_unique.
    + destruct (copy (data e) st). exact H.
  - unfold is_cached. destruct (dict_get String.eqb (_cache c) key) as [e|];
      [|exact H].
    cbv zeta. destruct (now >=? expires e); cbn;
      [now apply dict_del_unique | exact H].
  - unfold get_ttl. destruct (dict_get String.eqb (_cache c) key) as [e|];
      [|exact H].
    cbv zeta. destruct (now >=? expires e); cbn;
      [now apply dict_del_unique | exact H].
  - unfold delete. destruct (dict_mem key (_cache c)); cbn;
      [now apply dict_del_unique | exact H].
  - reflexivity.
  - unfold _cleanup_expired. cbv zeta.
    set (keys := map fst (filter _ (_cache c))).
    pose proof (fold_del_unique keys (_cache c) H) as Hf.
    destruct keys; cbn [fst snd _cache count_cleanup with_cache]; exact Hf.
  - unfold import_cache. destruct loaded as [entries|e|]; [|exact H|exact H].
    pose proof (import_entries_unique entries c now H) as Hi.
    destruct (import_entries c entries now) as [c' [u|e|]]; exact Hi.
Qed.

End SizeBound.

(** C2 (code against claim). [set], [get], [is_cached], [get_ttl],
    [delete], [clear_cache] and the sweep keep a cache with a positive
    [max_size] within it; [import_cache] stores every live entry of the
    file without looking at [max_size], so importing two entries into an
    empty cache of size 1 leaves two entries. (With [max_size] 0 there
    is nothing to evict and [set] stores one entry all the same.) *)
Theorem import_cache_ignores_max_size :
  (forall (D Store : Type) (copy : D -> Store -> D * Store) ops (c : t D) st,
      0 < max_size c ->
      len (_cache c) <= max_size c ->
      forallb (fun o => negb (is_import o)) ops = true ->
      len (_cache (fst (run_ops copy (c, st) ops))) <= max_size c
      /\ max_size (fst (run_ops copy (c, st) ops)) = max_size c)
  /\ max_size (fst (run_ops copy_Z (init 1, tt) [OpImport two_entries 1000]))
     = 1
  /\ len (_cache (fst (run_ops copy_Z (init 1, tt)
                         [OpImport two_entries 1000]))) = 2
  /\ snd (import_cache (init 1) two_entries 1000) = Ret tt
  /\ len (_cache (fst (set copy_Z (init 0) "k" 1 60 1000 tt))) = 1.
Proof.
  split.
  - intros D Store copy. apply guarded_ops_keep_bound.
  - repeat split.
Qed.

Lemma import_cache_ignores_max_size_witness :
  len (_cache (fst (run_ops copy_Z (full_cache, tt)
                      [OpSet "k3" 13 300 200; OpGet "k0" 250;
                       OpSet "k4" 14 300 260; OpCleanup 450])))
  <= 3.
Proof.
  apply (proj1 import_cache_ignores_max_size Z unit copy_Z
           [OpSet "k3" 13 300 200; OpGet "k0" 250;
            OpSet "k4" 14 300 260; OpCleanup 450] full_cache tt);
    [reflexivity | vm_compute; discriminate | reflexivity].
Defined.

(** ** Copies and sharing *)

Import PyHeap.

Lemma get_hit_shares_values : forall (c : t loc) key now h r c' h' e items,
  dict_get String.eqb (_cache c) key = Some e ->
  read h (data e) = Some (ODict items) ->
  get dict_copy c key now h = (Some r, c', h') ->
  r = List.length h
  /\ read h' r = Some (ODict items)
  /\ read h' (data e) = Some (ODict items).
Proof.
  intros c key now h r c' h' e items He Hr Hg.
  unfold get in Hg. rewrite He in Hg. cbv zeta in Hg.
  destruct (now >=? expires e); [discriminate|].
  unfold dict_copy in Hg. rewrite Hr in Hg. unfold alloc in Hg.
  injection Hg as <- <- <-.
  unfold read in *. split; [reflexivity|]. split.
  - rewrite nth_error_app2 by lia. now rewrite Nat.sub_diag.
  - rewrite nth_error_app1; [exact Hr|].
    apply nth_error_Some. now rewrite Hr.
Qed.

(** C3 (code against claim). A hit returns a new dictionary object whose
    values are those of the stored one, references included; the lists of
    the stored entry are therefore reachable from the returned value, and
    appending to the ['answers'] list obtained from the returned value
    changes what the cache holds. *)
Theorem get_returns_shallow_copy :
  (forall (c : t loc) key now h r c' h' e items,
      dict_get String.eqb (_cache c) key = Some e ->
      read h (data e) = Some (ODict items) ->
      get dict_copy c key now h = (Some r, c', h') ->
      r = List.length h
      /\ read h' r = Some (ODict items)
      /\ read h' (data e) = Some (ODict items))
  /\ (exists c1 h1 stored r c2 h2 answers,
         set dict_copy (init 10) "k" 0%nat 300 1000 response_heap = (c1, h1)
         /\ option_map data (dict_get String.eqb (_cache c1) "k"%string)
            = Some stored
         /\ get dict_copy c1 "k" 1001 h1 = (Some r, c2, h2)
         /\ r <> stored
         /\ dict_getitem h2 r "answers" = Some (VRef answers)
         /\ In answers (reachable 3 h2 (VRef stored))
         /\ contents 3 h2 (VRef stored)
            = TDict [("status"%string, TStr "NOERROR");
                     ("answers"%string,
                      TList [TDict [("name"%string, TStr "example.com");
                                    ("ttl"%string, TInt 60)]])]
         /\ contents 3 (list_append h2 answers (VStr "extra")) (VRef stored)
            = TDict [("status"%string, TStr "NOERROR");
                     ("answers"%string,
                      TList [TDict [("name"%string, TStr "example.com");
                                    ("ttl"%string, TInt 60)];
                             TStr "extra"])]).
Proof.
  split; [exact get_hit_shares_values|].
  do 7 eexists.
  split; [reflexivity|]. split; [reflexivity|]. split; [reflexivity|].
  split; [discriminate|]. split; [reflexivity|].
  split; [cbn; tauto|]. split; reflexivity.
Qed.

Lemma get_returns_shallow_copy_witness :
  read (snd (get dict_copy
               (fst (set dict_copy (init 10) "k" 0%nat 300 1000 response_heap))
               "k" 1001
               (snd (set dict_copy (init 10) "k" 0%nat 300 1000 response_heap))))
       4%nat
  = Some (ODict [("status"%string, VStr "NOERROR");
                 ("answers"%string, VRef 1%nat)]).
Proof.
  refine (proj1 (proj2 (proj1 get_returns_shallow_copy
            (fst (set dict_copy (init 10) "k" 0%nat 300 1000 response_heap))
            "k"%string 1001
            (snd (set dict_copy (init 10) "k" 0%nat 300 1000 response_heap))
            4%nat _ _ (mk_entry 3%nat 1300 1000) _ eq_refl eq_refl eq_refl))).
Defined.

(** ** The resolver and the cache *)

Import DNSClient.

Lemma fold_min_least : forall ts t,
  In (fold_left Z.min ts t) (t :: ts)
  /\ forall x, In x (t :: ts) -> fold_left Z.min ts t <= x.
Proof.
  induction ts as [|a ts IH]; intros t.
  - cbn. split; [now left|]. intros x [<-|[]]. lia.
  - cbn [fold_left]. destruct (IH (Z.min t a)) as [Hin Hle]. split.
    + destruct Hin as [H|H]; [|right; right; exact H].
      rewrite <- H. destruct (Z.min_spec t a) as [[_ ->]|[_ ->]];
        [left | right; left]; reflexivity.
    + intros x [<-|[<-|Hx]].
      * specialize (Hle (Z.min t a) (or_introl eq_refl)). lia.
      * specialize (Hle (Z.min t a) (or_introl eq_refl)). lia.
      * apply Hle. now right.
Qed.

Lemma minimum_ttl_is_least : forall r, is_minimum_ttl r (_get_minimum_ttl r).
Proof.
  intros r. unfold is_minimum_ttl, _get_minimum_ttl. cbv zeta.
  rewrite !map_app.
  destruct (map r_ttl (answers r) ++ map r_ttl (authority r)
            ++ map r_ttl (additional r)) as [|t ts]; [reflexivity|].
  apply fold_min_least.
Qed.

(** C7 (as the code has it). After a cache miss, when the query returns
    a response with status NOERROR whose least record TTL [m] (300 when
    there is no record) is positive, the cache holds under the query's key
    that response, created at the time of the [set] and expiring [m]
    later; when [m] is 0 the cache is left as the miss left it; and when
    the query raises (encoding, transport or decoding), the cache is as
    the miss left it, with no entry that was not there before. *)
Theorem noerror_response_cached_under_minimum_ttl :
  forall fuel (c c1 : cache) transport transaction_id now_get now_set
         domain record_type server port timeout,
    get copy_value c (cache_key domain record_type server) now_get tt
    = (None, c1, tt) ->
    (forall r oc,
        query fuel (Some c) transport transaction_id now_get now_set
          domain record_type server port timeout = (Ret r, oc) ->
        status r = "NOERROR"%string ->
        exists m,
          is_minimum_ttl r m
          /\ (0 < m ->
              exists c2,
                oc = Some c2
                /\ dict_get String.eqb (_cache c2)
                     (cache_key domain record_type server)
                   = Some (mk_entry r (now_set + m) now_set))
          /\ (m <= 0 -> oc = Some c1))
    /\ (forall e oc,
           query fuel (Some c) transport transaction_id now_get now_set
             domain record_type server port timeout = (Raise e, oc) ->
           oc = Some c1)
    /\ (forall k e, In (k, e) (_cache c1) -> In (k, e) (_cache c)).
Proof.
  intros fuel c c1 transport tid now_get now_set domain rt server port timeout
         Hget.
  split; [|split].
  - intros r oc Hq Hst. unfold query in Hq. rewrite Hget in Hq.
    unfold query_network in Hq.
    destruct (DNSPacketBuilder.build_query domain rt tid) as [pkt| |];
      try discriminate.
    destruct (transport pkt server port timeout) as [reply| |];
      try discriminate.
    destruct (parse_response fuel reply (Some tid)) as [resp| |];
      try discriminate.
    cbv zeta in Hq.
    set (r' := add_query_info resp domain rt server) in *.
    exists (_get_minimum_ttl r'). 
    destruct (String.eqb (status r') "NOERROR") eqn:Es.
    + destruct (_get_minimum_ttl r' >? 0) eqn:Em;
        injection Hq as Hr Hoc; subst oc; rewrite <- Hr.
      * split; [apply minimum_ttl_is_least|]. split; [|lia].
        intros _. eexists. split; [reflexivity|].
        unfold set. replace (_get_minimum_ttl r' <=? 0) with false by lia.
        cbv zeta. unfold copy_value. cbn [fst _cache with_cache].
        apply dict_get_set.
      * split; [apply minimum_ttl_is_least|]. split; [lia|reflexivity].
    + injection Hq as Hr Hoc. rewrite <- Hr in Hst.
      apply String.eqb_neq in Es. contradiction.
  - intros e oc Hq. unfold query in Hq. rewrite Hget in Hq.
    unfold query_network in Hq.
    destruct (DNSPacketBuilder.build_query domain rt tid) as [pkt| |];
      cbv beta iota in Hq; [|now inversion Hq|discriminate].
    destruct (transport pkt server port timeout) as [reply| |];
      cbv beta iota in Hq; [|now inversion Hq|discriminate].
    destruct (parse_response fuel reply (Some tid)) as [resp| |];
      cbv beta iota in Hq; [|now inversion Hq|discriminate].
    cbv zeta in Hq.
    destruct (String.eqb (status (add_query_info resp domain rt server))
                "NOERROR");
      [destruct (_get_minimum_ttl (add_query_info resp domain rt server) >? 0)|];
      discriminate.
  - intros k e H.
    pose proof (get_adds_nothing copy_value c
                  (cache_key domain rt server) now_get tt k e) as Hg.
    rewrite Hget in Hg. exact (Hg H).
Qed.

Lemma noerror_response_cached_under_minimum_ttl_witness :
  (exists r c2,
      query 10 (Some (init 100)) (always (reply_with_ttl x3c)) 0x1234 1000 1001
        "example.com" "A" "8.8.8.8" 53 5 = (Ret r, Some c2)
      /\ dict_get String.eqb (_cache c2) "example.com:A:8.8.8.8"%string
         = Some (mk_entry r 1061 1001))
  /\ snd (query 10 (Some (init 100)) timing_out 0x1234 1000 1001
            "example.com" "A" "8.8.8.8" 53 5)
     = Some (count_miss (init 100)).
Proof.
  split.
  - destruct (noerror_response_cached_under_minimum_ttl 10 (init 100)
                (count_miss (init 100)) (always (reply_with_ttl x3c))
                0x1234 1000 1001 "example.com" "A" "8.8.8.8" 53 5 eq_refl)
      as [Hstored _].
    destruct (Hstored _ _ eq_refl eq_refl) as [m [Hm [Hpos _]]].
    cbn in Hm. destruct Hm as [[<-|[]] _].
    destruct (Hpos eq_refl) as [c2 [Hoc Hentry]].
    eexists. exists c2. split.
    + rewrite <- Hoc. reflexivity.
    + exact Hentry.
  - destruct (noerror_response_cached_under_minimum_ttl 10 (init 100)
                (count_miss (init 100)) timing_out
                0x1234 1000 1001 "example.com" "A" "8.8.8.8" 53 5 eq_refl)
      as [_ [Hfailed _]].
    apply (Hfailed (Exception "DNS query timeout after 5 seconds")).
    reflexivity.
Defined.

(** C7, refuted as stated: a NOERROR reply whose only record has TTL 0
    is returned to the caller and nothing is stored, although a cache is
    configured. *)
Lemma zero_ttl_response_is_not_cached :
  exists r c',
    query 10 (Some (init 100)) (always (reply_with_ttl x00)) 0x1234 1000 1001
      "example.com" "A" "8.8.8.8" 53 5 = (Ret r, Some c')
    /\ status r = "NOERROR"%string
    /\ _get_minimum_ttl r = 0
    /\ _cache c' = [].
Proof.
  eexists. eexists. split; [reflexivity|]. repeat split.
Qed.

(** ** Fuel

    A result that came out within some number of loop iterations is the
    result for every larger number: what the embedding computes does not
    depend on the fuel beyond its being sufficient. *)

Lemma name_loop_more_fuel : forall extra fuel packet offset labels oo j,
  finished (name_loop fuel packet offset labels oo j) = true ->
  name_loop (fuel + extra) packet offset labels oo j
  = name_loop fuel packet offset labels oo j.
Proof.
  intros extra.
  induction fuel as [|fuel IH]; intros packet offset labels oo j H;
    [discriminate|].
  cbn [Nat.add name_loop] in *.
  destruct (offset >=? len packet); [reflexivity|].
  destruct (getitem packet offset) as [b|]; [|reflexivity].
  cbv zeta in *.
  destruct (Z.land (byte_val b) 192 =? 192).
  - destruct (unpack_H (slice packet offset (offset + 2))) as [v| |];
      cbn [Py.bind] in *; try reflexivity.
    now apply IH.
  - destruct (byte_val b =? 0); [reflexivity|].
    destruct (offset + 1 + byte_val b >? len packet); [reflexivity|].
    now apply IH.
Qed.

Lemma bind_finished : forall (A B : Type) (c : run A) (k : A -> run B),
  finished (Py.bind c k) = true -> finished c = true.
Proof. intros A B [a|e|] k H; [reflexivity | reflexivity | exact H]. Qed.

Lemma parse_question_more_fuel : forall extra fuel packet offset,
  finished (_parse_question fuel packet offset) = true ->
  _parse_question (fuel + extra) packet offset
  = _parse_question fuel packet offset.
Proof.
  intros extra fuel packet offset H. unfold _parse_question in *.
  apply bind_finished in H. unfold _parse_domain_name in *.
  now rewrite name_loop_more_fuel.
Qed.

Lemma parse_record_data_more_fuel : forall extra fuel record_type rdata packet,
  finished (_parse_record_data fuel record_type rdata packet) = true ->
  _parse_record_data (fuel + extra) record_type rdata packet
  = _parse_record_data fuel record_type rdata packet.
Proof.
  intros extra fuel rt rdata packet H. unfold _parse_record_data in *.
  cbv zeta in *.
  destruct (String.eqb rt "A"); [reflexivity|].
  destruct (String.eqb rt "AAAA"); [reflexivity|].
  destruct (existsb (String.eqb rt) ["NS"; "CNAME"; "PTR"]%string).
  - unfold _parse_domain_name in *.
    destruct (name_loop fuel packet (find packet rdata) [] (find packet rdata)
                false) as [[n o]| |] eqn:E; cbn [Py.bind] in H;
      try discriminate;
      rewrite name_loop_more_fuel by (rewrite E; reflexivity);
      rewrite E; reflexivity.
  - destruct (String.eqb rt "MX"); [|reflexivity].
    destruct (len rdata >=? 3); [|reflexivity].
    destruct (unpack_H (slice rdata 0 2)) as [priority| |];
      cbn [Py.bind] in *; try reflexivity.
    destruct (negb (find packet (slice rdata 2 (len rdata)) =? -1));
      [|reflexivity].
    unfold _parse_domain_name in *.
    match goal with
    | |- context [name_loop fuel packet ?o [] ?o false] =>
        destruct (name_loop fuel packet o [] o false) as [[n o']| |] eqn:E
    end; cbn [Py.bind] in H; try discriminate;
      rewrite name_loop_more_fuel by (rewrite E; reflexivity);
      rewrite E; reflexivity.
Qed.

Lemma parse_resource_record_more_fuel : forall extra fuel packet offset,
  finished (_parse_resource_record fuel packet offset) = true ->
  _parse_resource_record (fuel + extra) packet offset
  = _parse_resource_record fuel packet offset.
Proof.
  intros extra fuel packet offset H. unfold _parse_resource_record in *.
  pose proof (bind_finished _ _ _ _ H) as Hn.
  unfold _parse_domain_name in *. rewrite name_loop_more_fuel by exact Hn.
  destruct (name_loop fuel packet offset [] offset false) as [[name o]| |];
    cbn [Py.bind] in *; try reflexivity.
  destruct (unpack_HHIH (slice packet o (o + 10))) as [[[[rt rc] ttl] rdl]| |];
    cbn [Py.bind] in *; try reflexivity.
  cbv zeta in *.
  pose proof (bind_finished _ _ _ _ H) as Hd.
  now rewrite parse_record_data_more_fuel.
Qed.

Lemma parse_items_more_fuel : forall (A : Type)
    (parse_one parse_one' : Z -> run (A * Z)) n offset acc,
  (forall o, finished (parse_one o) = true -> parse_one' o = parse_one o) ->
  finished (snd (parse_items parse_one n offset acc)) = true ->
  parse_items parse_one' n offset acc = parse_items parse_one n offset acc.
Proof.
  intros A parse_one parse_one' n. induction n as [|n IH];
    intros offset acc Hp H; [reflexivity|].
  cbn [parse_items] in *.
  destruct (parse_one offset) as [[x o]|e|] eqn:E.
  - rewrite (Hp offset) by (rewrite E; reflexivity). rewrite E.
    now apply IH.
  - rewrite (Hp offset) by (rewrite E; reflexivity). rewrite E. reflexivity.
  - discriminate.
Qed.

Lemma parse_sections_more_fuel : forall extra fuel packet hd offset response0,
  finished (snd (parse_sections fuel packet hd offset response0)) = true ->
  parse_sections (fuel + extra) packet hd offset response0
  = parse_sections fuel packet hd offset response0.
Proof.
  intros extra fuel packet hd offset r0 H. unfold parse_sections in *.
  assert (Hq : forall o, finished (_parse_question fuel packet o) = true ->
               _parse_question (fuel + extra) packet o
               = _parse_question fuel packet o)
    by (intros; now apply parse_question_more_fuel).
  assert (Hr : forall o, finished (_parse_resource_record fuel packet o) = true ->
               _parse_resource_record (fuel + extra) packet o
               = _parse_resource_record fuel packet o)
    by (intros; now apply parse_resource_record_more_fuel).
  destruct (parse_items (_parse_question fuel packet)
              (Z.to_nat (h_qdcount hd)) offset (questions r0))
    as [qs o1] eqn:E1.
  rewrite (parse_items_more_fuel _ _ _ _ _ _ Hq)
    by (rewrite E1; destruct o1; [reflexivity | reflexivity | discriminate H]).
  rewrite E1. destruct o1 as [offset1| |]; [|reflexivity|discriminate H].
  destruct (parse_items (_parse_resource_record fuel packet)
              (Z.to_nat (h_ancount hd)) offset1
              (answers (set_questions r0 qs)))
    as [ans o2] eqn:E2.
  rewrite (parse_items_more_fuel _ _ _ _ _ _ Hr)
    by (rewrite E2; destruct o2; [reflexivity | reflexivity | discriminate H]).
  rewrite E2. destruct o2 as [offset2| |]; [|reflexivity|discriminate H].
  destruct (parse_items (_parse_resource_record fuel packet)
              (Z.to_nat (h_nscount hd)) offset2
              (authority (set_answers (set_questions r0 qs) ans)))
    as [auth o3] eqn:E3.
  rewrite (parse_items_more_fuel _ _ _ _ _ _ Hr)
    by (rewrite E3; destruct o3; [reflexivity | reflexivity | discriminate H]).
  rewrite E3. destruct o3 as [offset3| |]; [|reflexivity|discriminate H].
  destruct (parse_items (_parse_resource_record fuel packet)
              (Z.to_nat (h_arcount hd)) offset3
              (additional
                 (set_authority (set_answers (set_questions r0 qs) ans) auth)))
    as [add o4] eqn:E4.
  rewrite (parse_items_more_fuel _ _ _ _ _ _ Hr)
    by (rewrite E4; destruct o4; [reflexivity | reflexivity | discriminate H]).
  rewrite E4. reflexivity.
Qed.

Lemma parse_response_more_fuel : forall extra fuel packet expected_id,
  finished (parse_response fuel packet expected_id) = true ->
  parse_response (fuel + extra) packet expected_id
  = parse_response fuel packet expected_id.
Proof.
  intros extra fuel packet expected_id H. unfold parse_response in *.
  destruct (len packet <? 12); [reflexivity|]. cbv zeta in *.
  destruct (_parse_header packet 0) as [[hd offset]| |];
    cbn [Py.bind] in *; try reflexivity.
  match goal with
  | |- context [if ?c then _ else _] => destruct c; [reflexivity|]
  end.
  destruct (parse_sections fuel packet hd offset _) as [r o] eqn:E.
  rewrite parse_sections_more_fuel by (rewrite E; destruct o;
                                       (reflexivity || discriminate)).
  rewrite E. reflexivity.
Qed.

(** * Further properties of the cache *)

Section MoreDictFacts.

Context {V : Type}.
Implicit Types (d : list (string * V)) (k : string) (v : V).

Lemma dict_get_set_other : forall d k v k',
  k' <> k ->
  dict_get String.eqb (dict_set k v d) k' = dict_get String.eqb d k'.
Proof.
  induction d as [|[k0 v0] d IH]; intros k v k' Hne.
  - cbn. apply String.eqb_neq in Hne. rewrite String.eqb_sym in Hne.
    now rewrite Hne.
  - cbn [dict_set]. destruct (String.eqb k0 k) eqn:E; cbn [dict_get].
    + apply String.eqb_eq in E. subst k0.
      apply String.eqb_neq in Hne. rewrite String.eqb_sym in Hne.
      now rewrite Hne.
    + destruct (String.eqb k0 k'); [reflexivity | now apply IH].
Qed.

Lemma dict_set_keys : forall d k v,
  dict_mem k d = true -> map fst (dict_set k v d) = map fst d.
Proof.
  induction d as [|[k0 v0] d IH]; intros k v H; [discriminate|].
  cbn [dict_mem] in H. cbn [dict_set].
  destruct (String.eqb k0 k); [reflexivity|].
  cbn [orb] in H. cbn [map fst]. now rewrite IH.
Qed.

Lemma dict_get_del_other : forall d k k',
  k' <> k ->
  dict_get String.eqb (dict_del k d) k' = dict_get String.eqb d k'.
Proof.
  induction d as [|[k0 v0] d IH]; intros k k' Hne; [reflexivity|].
  cbn [dict_del]. destruct (String.eqb k0 k) eqn:E; cbn [dict_get].
  - apply String.eqb_eq in E. subst k0.
    apply String.eqb_neq in Hne. rewrite String.eqb_sym in Hne.
    now rewrite Hne.
  - destruct (String.eqb k0 k'); [reflexivity | now apply IH].
Qed.

Lemma dict_get_del_same : forall d k,
  unique_keys d = true -> dict_get String.eqb (dict_del k d) k = None.
Proof.
  induction d as [|[k0 v0] d IH]; intros k H; [reflexivity|].
  cbn [unique_keys] in H. apply andb_prop in H as [H0 Hd].
  cbn [dict_del]. destruct (String.eqb k0 k) eqn:E.
  - apply String.eqb_eq in E. subst k0.
    apply negb_true_iff in H0. rewrite dict_mem_get in H0.
    destruct (dict_get String.eqb d k); [discriminate | reflexivity].
  - cbn [dict_get]. rewrite E. now apply IH.
Qed.

Lemma fold_del_cons : forall keys d k v,
  (forall k', In k' keys -> k' <> k) ->
  fold_left (fun d k => dict_del k d) keys ((k, v) :: d)
  = (k, v) :: fold_left (fun d k => dict_del k d) keys d.
Proof.
  induction keys as [|k0 keys IH]; intros d k v H; [reflexivity|].
  cbn [fold_left dict_del].
  assert (E : String.eqb k k0 = false).
  { apply String.eqb_neq. intros ->. now apply (H k0 (or_introl eq_refl)). }
  rewrite E. apply IH. intros k' Hin. apply H. now right.
Qed.

Lemma filter_keys_mem : forall (P : string * V -> bool) d k,
  In k (map fst (filter P d)) -> dict_mem k d = true.
Proof.
  intros P d k H. apply in_map_iff in H as [[k0 v0] [E Hin]].
  cbn in E. subst k0. apply filter_In in Hin as [Hin _].
  eapply dict_mem_in; eassumption.
Qed.

(** Deleting the keys that satisfy a test leaves the other entries, in
    their order. *)
Lemma fold_del_filter : forall (P : string * V -> bool) d,
  unique_keys d = true ->
  fold_left (fun d k => dict_del k d) (map fst (filter P d)) d
  = filter (fun ke => negb (P ke)) d.
Proof.
  intros P. induction d as [|[k v] d IH]; intros H; [reflexivity|].
  cbn [unique_keys] in H. apply andb_prop in H as [Hk Hd].
  cbn [filter]. destruct (P (k, v)) eqn:E; cbn [negb map fst fold_left].
  - cbn [dict_del]. rewrite String.eqb_refl. now apply IH.
  - rewrite fold_del_cons.
    + now rewrite IH.
    + intros k' Hin ->. apply filter_keys_mem in Hin.
      rewrite Hin in Hk. discriminate.
Qed.

End MoreDictFacts.

Section CacheLookups.

Context {D Store : Type}.
Variable copy : D -> Store -> D * Store.

Lemma set_keeps_unique_keys : forall (c : t D) key d ttl now st,
  unique_keys (_cache c) = true ->
  unique_keys (_cache (fst (set copy c key d ttl now st))) = true.
Proof.
  intros c key d ttl now st H.
  exact (step_keeps_unique_keys copy c st (OpSet key d ttl now) H).
Qed.

(** X1. Insert then look up: after [set] with a positive TTL, a [get] of
    the same key before the TTL has run out is a hit that returns a copy
    of the copy that was stored; this holds whatever the cache held and
    whatever [max_size] is. *)
Theorem set_then_get_hits : forall (c : t D) key d ttl now now' st,
  0 < ttl ->
  now' < now + ttl ->
  get copy (fst (set copy c key d ttl now st)) key now'
    (snd (set copy c key d ttl now st))
  = (Some (fst (copy (fst (copy d st)) (snd (copy d st)))),
     count_hit (fst (set copy c key d ttl now st)),
     snd (copy (fst (copy d st)) (snd (copy d st)))).
Proof.
  intros c key d ttl now now' st Httl Hnow. unfold set.
  replace (ttl <=? 0) with false by lia. cbv zeta.
  destruct (copy d st) as [d' st'] eqn:Ec. cbn [fst snd].
  unfold get. cbn [_cache with_cache]. rewrite dict_get_set.
  cbv zeta. cbn [expires data].
  replace (now' >=? now + ttl) with false by lia.
  destruct (copy d' st') as [d'' st'']. reflexivity.
Qed.

(** X2. Lazy expiry: a [get] of a key whose entry has expired returns
    nothing, counts one miss and no hit, removes that key and leaves
    every other key and the store as they were. *)
Theorem get_expired_entry_is_removed : forall (c : t D) key e now st,
  unique_keys (_cache c) = true ->
  dict_get String.eqb (_cache c) key = Some e ->
  expires e <= now ->
  fst (fst (get copy c key now st)) = None
  /\ snd (get copy c key now st) = st
  /\ misses (_stats (snd (fst (get copy c key now st))))
     = misses (_stats c) + 1
  /\ hits (_stats (snd (fst (get copy c key now st)))) = hits (_stats c)
  /\ dict_get String.eqb (_cache (snd (fst (get copy c key now st)))) key
     = None
  /\ forall k, k <> key ->
       dict_get String.eqb (_cache (snd (fst (get copy c key now st)))) k
       = dict_get String.eqb (_cache c) k.
Proof.
  intros c key e now st Hu He Hexp. unfold get. rewrite He. cbv zeta.
  replace (now >=? expires e) with true by lia.
  cbn [fst snd _cache _stats count_miss with_cache misses hits].
  repeat split.
  - now apply dict_get_del_same.
  - intros k Hk. now apply dict_get_del_other.
Qed.

(** X3. A [set] that needs no eviction (the key is already cached, or
    the cache is below [max_size]) evicts nothing and changes no other
    key; and replacing a cached key keeps the keys in their order, even
    when the cache is full. *)
Theorem set_without_eviction_changes_one_key :
  forall (c : t D) key d ttl now st,
    dict_mem key (_cache c) = true \/ len (_cache c) < max_size c ->
    evictions (_stats (fst (set copy c key d ttl now st)))
    = evictions (_stats c)
    /\ (forall k, k <> key ->
          dict_get String.eqb (_cache (fst (set copy c key d ttl now st))) k
          = dict_get String.eqb (_cache c) k)
    /\ (dict_mem key (_cache c) = true ->
        map fst (_cache (fst (set copy c key d ttl now st)))
        = map fst (_cache c)).
Proof.
  intros c key d ttl now st H. unfold set.
  destruct (ttl <=? 0); [repeat split|].
  cbv zeta.
  assert (E : (len (_cache c) >=? max_size c)
              && negb (dict_mem key (_cache c)) = false).
  { destruct H as [H|H]; [rewrite H; apply andb_false_r|].
    replace (len (_cache c) >=? max_size c) with false by lia.
    reflexivity. }
  rewrite E. destruct (copy d st) as [d' st'].
  cbn [fst _cache _stats with_cache]. split; [reflexivity|]. split.
  - intros k Hk. now apply dict_get_set_other.
  - intros Hm. now apply dict_set_keys.
Qed.

(** X4. [is_cached] answers as [get] would (true exactly when [get]
    returns a value), leaves the same entries behind, lazily removing an
    expired one, and does not touch the counters. *)
Theorem is_cached_agrees_with_get : forall (c : t D) key now st,
  fst (is_cached c key now)
  = match fst (fst (get copy c key now st)) with
    | Some _ => true
    | None => false
    end
  /\ _cache (snd (is_cached c key now))
     = _cache (snd (fst (get copy c key now st)))
  /\ _stats (snd (is_cached c key now)) = _stats c.
Proof.
  intros c key now st. unfold is_cached, get.
  destruct (dict_get String.eqb (_cache c) key) as [e|]; [|repeat split].
  cbv zeta. destruct (now >=? expires e); [repeat split|].
  destruct (copy (data e) st). repeat split.
Qed.

(** X6. [delete] tells whether the key was cached, after it the key is
    absent and a second [delete] answers false; the other keys and the
    counters are untouched. *)
Theorem delete_removes_only_the_key : forall (c : t D) key,
  unique_keys (_cache c) = true ->
  fst (delete c key) = dict_mem key (_cache c)
  /\ dict_get String.eqb (_cache (snd (delete c key))) key = None
  /\ fst (delete (snd (delete c key)) key) = false
  /\ (forall k, k <> key ->
        dict_get String.eqb (_cache (snd (delete c key))) k
        = dict_get String.eqb (_cache c) k)
  /\ _stats (snd (delete c key)) = _stats c.
Proof.
  intros c key Hu.
  assert (Hnone : dict_get String.eqb (_cache (snd (delete c key))) key = None).
  { unfold delete. destruct (dict_mem key (_cache c)) eqn:E; cbn.
    - now apply dict_get_del_same.
    - rewrite dict_mem_get in E.
      destruct (dict_get String.eqb (_cache c) key); [discriminate|reflexivity]. }
  split; [|split; [exact Hnone|split; [|split]]].
  - unfold delete. destruct (dict_mem key (_cache c)); reflexivity.
  - unfold delete at 1. rewrite dict_mem_get, Hnone. reflexivity.
  - intros k Hk. unfold delete. destruct (dict_mem key (_cache c)); cbn;
      [now apply dict_get_del_other | reflexivity].
  - unfold delete. destruct (dict_mem key (_cache c)); reflexivity.
Qed.

(** X7. The sweep removes exactly the expired entries and keeps the
    live ones in their order; it returns the number removed and adds one
    to the cleanup counter when that number is not zero (not one per
    entry); a second sweep at the same time removes nothing and counts
    nothing. *)
Theorem cleanup_removes_exactly_the_expired : forall (c : t D) now,
  unique_keys (_cache c) = true ->
  _cache (snd (_cleanup_expired c now))
  = filter (fun ke => negb (expired now ke)) (_cache c)
  /\ fst (_cleanup_expired c now) = len (filter (expired now) (_cache c))
  /\ cleanups (_stats (snd (_cleanup_expired c now)))
     = cleanups (_stats c)
       + (if 0 <? fst (_cleanup_expired c now) then 1 else 0)
  /\ _cleanup_expired (snd (_cleanup_expired c now)) now
     = (0, snd (_cleanup_expired c now)).
Proof.
  intros c now Hu.
  assert (Hc : _cache (snd (_cleanup_expired c now))
               = filter (fun ke => negb (expired now ke)) (_cache c)).
  { unfold _cleanup_expired. cbv zeta.
    pose proof (fold_del_filter (expired now) (_cache c) Hu) as Hf.
    unfold expired in *.
    destruct (map fst (filter (fun ke => now >=? expires (snd ke)) (_cache c)));
      cbn [snd _cache with_cache count_cleanup]; exact Hf. }
  split; [exact Hc|]. split; [|split].
  - unfold _cleanup_expired. cbv zeta. cbn [fst]. unfold len.
    now rewrite length_map.
  - unfold _cleanup_expired. cbv zeta. unfold expired.
    destruct (map fst (filter (fun ke => now >=? expires (snd ke)) (_cache c)))
      as [|k ks] eqn:E; cbn [fst snd _stats with_cache count_cleanup cleanups].
    + cbn. lia.
    + rewrite len_cons. pose proof (len_nonneg _ ks).
      replace (0 <? 1 + len ks) with true by lia. reflexivity.
  - unfold _cleanup_expired at 1. cbv zeta. rewrite Hc.
    assert (Hnil : forall d : list (string * entry D),
               filter (fun ke => now >=? expires (snd ke))
                 (filter (fun ke => negb (expired now ke)) d) = []).
    { induction d as [|ke d IH]; [reflexivity|].
      cbn [filter]. unfold expired at 1.
      destruct (now >=? expires (snd ke)) eqn:E; cbn [negb filter];
        [exact IH|]. rewrite E. exact IH. }
    rewrite Hnil. cbn [map fold_left len].
    destruct (snd (_cleanup_expired c now)) as [m dd ss] eqn:Es.
    cbn [_cache] in Hc. unfold with_cache. cbn [max_size _stats _cache].
    rewrite <- Hc. reflexivity.
Qed.

End CacheLookups.

Lemma set_then_get_hits_witness :
  fst (fst (get copy_Z (fst (set copy_Z full_cache "k3" 13 300 200 tt)) "k3"
              250 (snd (set copy_Z full_cache "k3" 13 300 200 tt))))
  = Some 13.
Proof.
  rewrite (set_then_get_hits copy_Z full_cache "k3" 13 300 200 250 tt);
    reflexivity.
Defined.

Lemma get_expired_entry_is_removed_witness :
  fst (fst (get copy_Z full_cache "k1" 355 tt)) = None
  /\ dict_get String.eqb (_cache (snd (fst (get copy_Z full_cache "k1" 355 tt))))
       "k1"%string = None.
Proof.
  destruct (get_expired_entry_is_removed copy_Z full_cache "k1"
              (mk_entry 11 350 50) 355 tt)
    as [H1 [_ [_ [_ [H2 _]]]]];
    [reflexivity | reflexivity | vm_compute; discriminate |].
  split; [exact H1 | exact H2].
Defined.

Lemma set_without_eviction_changes_one_key_witness :
  evictions (_stats (fst (set copy_Z full_cache "k0" 20 300 200 tt))) = 0
  /\ map fst (_cache (fst (set copy_Z full_cache "k0" 20 300 200 tt)))
     = ["k0"; "k1"; "k2"]%string.
Proof.
  destruct (set_without_eviction_changes_one_key copy_Z full_cache "k0" 20 300
              200 tt (or_introl eq_refl)) as [H1 [_ H3]].
  split; [exact H1 | exact (H3 eq_refl)].
Defined.

Lemma delete_removes_only_the_key_witness :
  fst (delete full_cache "k1") = true
  /\ dict_get String.eqb (_cache (snd (delete full_cache "k1"))) "k1"%string
     = None.
Proof.
  destruct (delete_removes_only_the_key full_cache "k1" eq_refl)
    as [H1 [H2 _]].
  split; [exact H1 | exact H2].
Defined.

Lemma cleanup_removes_exactly_the_expired_witness :
  map fst (_cache (snd (_cleanup_expired full_cache 365)))
  = ["k0"%string]
  /\ fst (_cleanup_expired full_cache 365) = 2
  /\ cleanups (_stats (snd (_cleanup_expired full_cache 365))) = 1.
Proof.
  destruct (cleanup_removes_exactly_the_expired full_cache 365 eq_refl)
    as [H1 [H2 [H3 _]]].
  split; [rewrite H1; reflexivity|]. split; [exact H2|].
  rewrite H3. reflexivity.
Defined.

(** ** Counters *)

Section Counters.

Context {D Store : Type}.
Variable copy : D -> Store -> D * Store.

Lemma import_entries_frame : forall entries (c : t D) now,
  _stats (fst (import_entries c entries now)) = _stats c
  /\ max_size (fst (import_entries c entries now)) = max_size c
  /\ forall k, dict_mem k (_cache c) = true ->
               dict_mem k (_cache (fst (import_entries c entries now))) = true.
Proof.
  induction entries as [|[key e] entries IH]; intros c now;
    [repeat split; auto|].
  cbn [import_entries].
  destruct (match ie_ttl_remaining e with Some v => v | None => 0 end >? 0);
    [|apply IH].
  destruct (ie_data e) as [d|]; [|repeat split; auto].
  destruct (IH (with_cache c
                  (dict_set key
                     (mk_entry d
                        (now + match ie_ttl_remaining e with
                               | Some v => v
                               | None => 0
                               end) now) (_cache c))) now) as [H1 [H2 H3]].
  split; [exact H1|]. split; [exact H2|].
  intros k Hk. apply H3. cbn [_cache with_cache].
  rewrite dict_mem_set, Hk. reflexivity.
Qed.

Lemma import_cache_frame : forall loaded (c : t D) now,
  _stats (fst (import_cache c loaded now)) = _stats c
  /\ max_size (fst (import_cache c loaded now)) = max_size c
  /\ forall k, dict_mem k (_cache c) = true ->
               dict_mem k (_cache (fst (import_cache c loaded now))) = true.
Proof.
  intros loaded c now. unfold import_cache.
  destruct loaded as [entries|e|]; [|repeat split; auto|repeat split; auto].
  pose proof (import_entries_frame entries c now) as H.
  destruct (import_entries c entries now) as [c' [u|e|]]; exact H.
Qed.

Lemma step_counters : forall (c : t D) st o,
  (is_clear o = false ->
   hits (_stats (fst (step copy (c, st) o)))
   + misses (_stats (fst (step copy (c, st) o)))
   = hits (_stats c) + misses (_stats c) + (if is_get o then 1 else 0))
  /\ evictions (_stats c) <= evictions (_stats (fst (step copy (c, st) o)))
  /\ cleanups (_stats c) <= cleanups (_stats (fst (step copy (c, st) o))).
Proof.
  intros c st o.
  destruct o as [key d ttl now | key now | key now | key now | key | | now
                | loaded now]; cbn [step is_clear is_get].
  - unfold set. destruct (ttl <=? 0); [cbn; repeat split; lia|].
    cbv zeta. destruct (copy d st) as [d' st']. cbn [fst _stats with_cache].
    destruct ((len (_cache c) >=? max_size c)
              && negb (dict_mem key (_cache c))); [|repeat split; lia].
    unfold _evict_oldest. destruct (_cache c); [repeat split; lia|].
    cbn. repeat split; lia.
  - unfold get. destruct (dict_get String.eqb (_cache c) key) as [e|].
    + cbv zeta. destruct (now >=? expires e); [cbn; repeat split; lia|].
      destruct (copy (data e) st). cbn. repeat split; lia.
    + cbn. repeat split; lia.
  - unfold is_cached. destruct (dict_get String.eqb (_cache c) key) as [e|];
      [cbv zeta; destruct (now >=? expires e)|]; cbn; repeat split; lia.
  - unfold get_ttl. destruct (dict_get String.eqb (_cache c) key) as [e|];
      [cbv zeta; destruct (now >=? expires e)|]; cbn; repeat split; lia.
  - unfold delete. destruct (dict_mem key (_cache c)); cbn; repeat split; lia.
  - cbn. split; [discriminate|]. split; lia.
  - unfold _cleanup_expired. cbv zeta.
    destruct (map fst (filter _ (_cache c))); cbn; repeat split; lia.
  - cbn [fst]. destruct (import_cache_frame loaded c now) as [H _].
    rewrite H. repeat split; lia.
Qed.

(** X8. Over any sequence of operations without [clear_cache], hits
    plus misses grow by exactly the number of [get] calls: every [get]
    counts once, and no other operation touches the two counters. Over
    any sequence at all, the eviction and cleanup counters never go
    down. *)
Theorem every_get_counts_once : forall ops (c : t D) st,
  (forallb (fun o => negb (is_clear o)) ops = true ->
   hits (_stats (fst (run_ops copy (c, st) ops)))
   + misses (_stats (fst (run_ops copy (c, st) ops)))
   = hits (_stats c) + misses (_stats c) + len (filter is_get ops))
  /\ evictions (_stats c) <= evictions (_stats (fst (run_ops copy (c, st) ops)))
  /\ cleanups (_stats c) <= cleanups (_stats (fst (run_ops copy (c, st) ops))).
Proof.
  induction ops as [|o ops IH]; intros c st.
  - cbn. repeat split; lia.
  - unfold run_ops in *. cbn [fold_left forallb filter].
    destruct (step_counters c st o) as [Hg [He Hc]].
    destruct (step copy (c, st) o) as [c' st'] eqn:E. cbn [fst] in *.
    destruct (IH c' st') as [IHg [IHe IHc]].
    split; [|split; lia].
    intros H. apply andb_prop in H as [Ho Hops].
    apply negb_true_iff in Ho. rewrite (IHg Hops), (Hg Ho).
    destruct (is_get o); [rewrite len_cons|]; lia.
Qed.

End Counters.

Lemma every_get_counts_once_witness :
  hits (_stats (fst (run_ops copy_Z (full_cache, tt)
                       [OpGet "k0" 250; OpIsCached "k1" 250; OpGet "k1" 355;
                        OpSet "k3" 13 300 360; OpGet "zz" 361])))
  + misses (_stats (fst (run_ops copy_Z (full_cache, tt)
                           [OpGet "k0" 250; OpIsCached "k1" 250; OpGet "k1" 355;
                            OpSet "k3" 13 300 360; OpGet "zz" 361])))
  = 4 + 2 + 3.
Proof.
  apply (proj1 (every_get_counts_once copy_Z
                  [OpGet "k0" 250; OpIsCached "k1" 250; OpGet "k1" 355;
                   OpSet "k3" 13 300 360; OpGet "zz" 361] full_cache tt)).
  reflexivity.
Defined.

(** ** Import and export *)

Section ImportExport.

Context {D : Type}.


Lemma import_entries_get_other : forall entries (c : t D) now k,
  dict_mem k entries = false ->
  dict_get String.eqb (_cache (fst (import_entries c entries now))) k
  = dict_get String.eqb (_cache c) k.
Proof.
  induction entries as [|[key e] entries IH]; intros c now k H; [reflexivity|].
  cbn [dict_mem] in H. apply orb_false_elim in H as [Hk Hrest].
  cbn [import_entries].
  destruct (match ie_ttl_remaining e with Some v => v | None => 0 end >? 0);
    [|now apply IH].
  destruct (ie_data e) as [d|]; [|reflexivity].
  rewrite IH by assumption. cbn [_cache with_cache].
  apply dict_get_set_other. intros ->.
  rewrite String.eqb_refl in Hk. discriminate.
Qed.

Lemma import_entries_get : forall entries (c : t D) now key d ttl,
  unique_keys entries = true ->
  forallb importable entries = true ->
  In (key, mk_import_entry (Some d) (Some ttl)) entries ->
  0 < ttl ->
  dict_get String.eqb (_cache (fst (import_entries c entries now))) key
  = Some (mk_entry d (now + ttl) now).
Proof.
  induction entries as [|[k0 e0] entries IH]; intros c now key d ttl Hu Hok Hin Ht;
    [contradiction|].
  cbn [unique_keys] in Hu. apply andb_prop in Hu as [Hk Hu].
  cbn [forallb] in Hok. apply andb_prop in Hok as [Hok0 Hok].
  apply negb_true_iff in Hk.
  destruct Hin as [E|Hin].
  - injection E as -> ->. cbn [import_entries ie_ttl_remaining ie_data].
    replace (ttl >? 0) with true by lia.
    rewrite import_entries_get_other by assumption.
    cbn [_cache with_cache]. apply dict_get_set.
  - cbn [import_entries]. unfold importable in Hok0. cbn [snd] in Hok0.
    destruct (match ie_ttl_remaining e0 with Some v => v | None => 0 end >? 0);
      [|now apply IH].
    destruct (ie_data e0) as [d0|]; [now apply IH | discriminate].
Qed.


(** X10. After an import without error from a file whose keys are
    distinct, every entry of the file with its data and a positive
    remaining TTL is cached under its key, created at the time of the
    import and expiring that TTL later, whatever was cached under the key
    before; a key that the file does not mention keeps what it had. *)
Theorem imported_entries_are_cached : forall entries (c : t D) now,
  unique_keys entries = true ->
  forallb importable entries = true ->
  (forall key d ttl,
      In (key, mk_import_entry (Some d) (Some ttl)) entries ->
      0 < ttl ->
      dict_get String.eqb (_cache (fst (import_cache c (Ret entries) now))) key
      = Some (mk_entry d (now + ttl) now))
  /\ (forall key,
         dict_mem key entries = false ->
         dict_get String.eqb (_cache (fst (import_cache c (Ret entries) now)))
           key
         = dict_get String.eqb (_cache c) key).
Proof.
  intros entries c now Hu Hok.
  assert (E : fst (import_cache c (Ret entries) now)
              = fst (import_entries c entries now)).
  { unfold import_cache.
    destruct (import_entries c entries now) as [c' [u|e|]]; reflexivity. }
  rewrite E. split.
  - intros key d ttl Hin Ht. now apply import_entries_get.
  - intros key Hk. now apply import_entries_get_other.
Qed.

End ImportExport.

Lemma imported_entries_are_cached_witness :
  dict_get String.eqb
    (_cache (fst (import_cache full_cache two_entries 1000)))
    "b.example:A:8.8.8.8"%string
  = Some (mk_entry 2 1060 1000).
Proof.
  apply (proj1 (imported_entries_are_cached
                  [("a.example:A:8.8.8.8"%string,
                    mk_import_entry (Some 1) (Some 60));
                   ("b.example:A:8.8.8.8"%string,
                    mk_import_entry (Some 2) (Some 60))]
                  full_cache 1000 eq_refl eq_refl)
           "b.example:A:8.8.8.8"%string 2 60).
  - right. left. reflexivity.
  - reflexivity.
Defined.

(** * Further properties of the resolver *)

Lemma parse_sections_header_fields : forall fuel packet hd offset r0,
  id (fst (parse_sections fuel packet hd offset r0)) = id r0
  /\ status (fst (parse_sections fuel packet hd offset r0)) = status r0
  /\ flags (fst (parse_sections fuel packet hd offset r0)) = flags r0
  /\ query_name (fst (parse_sections fuel packet hd offset r0)) = query_name r0
  /\ query_type (fst (parse_sections fuel packet hd offset r0)) = query_type r0
  /\ dns_server (fst (parse_sections fuel packet hd offset r0)) = dns_server r0.
Proof.
  intros fuel packet hd offset r0. unfold parse_sections.
  destruct (parse_items (_parse_question fuel packet) _ offset _) as [qs o1].
  destruct o1 as [offset1| |]; [|repeat split|repeat split].
  destruct (parse_items (_parse_resource_record fuel packet) _ offset1 _)
    as [ans o2].
  destruct o2 as [offset2| |]; [|repeat split|repeat split].
  destruct (parse_items (_parse_resource_record fuel packet) _ offset2 _)
    as [auth o3].
  destruct o3 as [offset3| |]; [|repeat split|repeat split].
  destruct (parse_items (_parse_resource_record fuel packet) _ offset3 _)
    as [add o4].
  repeat split.
Qed.

Lemma parse_response_returns : forall fuel packet expected_id r,
  parse_response fuel packet expected_id = Ret r ->
  12 <= len packet
  /\ id_accepted packet expected_id = true
  /\ exists hd,
       _parse_header packet 0 = Ret (hd, 12)
       /\ id r = h_id hd
       /\ status r = status_of_rcode (h_rcode hd)
       /\ flags r = h_flags hd
       /\ r = fst (parse_sections fuel packet hd 12 (initial_response hd)).
Proof.
  intros fuel packet expected_id r H. unfold parse_response in H.
  destruct (len packet <? 12) eqn:El; [discriminate|].
  assert (Hlen : 12 <= len packet) by lia.
  destruct (parse_header_total packet Hlen) as [hd Hh].
  cbv zeta in H. rewrite Hh in H. cbn [Py.bind] in H.
  assert (Hid : id_accepted packet expected_id = true).
  { unfold id_accepted. rewrite Hh.
    destruct expected_id as [e|]; [|reflexivity].
    destruct (h_id hd =? e); [reflexivity|].
    cbn [negb] in H. discriminate. }
  split; [exact Hlen|]. split; [exact Hid|]. exists hd.
  split; [exact Hh|].
  assert (Hm : match expected_id with
               | Some e => negb (h_id hd =? e)
               | None => false
               end = false).
  { unfold id_accepted in Hid. rewrite Hh in Hid.
    destruct expected_id; [now rewrite Hid | reflexivity]. }
  rewrite Hm in H.
  fold (initial_response hd) in H.
  destruct (parse_sections_header_fields fuel packet hd 12 (initial_response hd))
    as [H1 [H2 [H3 _]]].
  destruct (parse_sections fuel packet hd 12 (initial_response hd))
    as [r' [o|e|]] eqn:E; try discriminate; injection H as <-;
    cbn [fst] in *; repeat split; assumption.
Qed.

Section QueryFacts.

Variables (fuel : nat) (transport : bytes -> string -> Z -> Z -> run bytes).
Variables (transaction_id now_set : Z).
Variables (domain record_type server : string) (port timeout : Z).

(** What a [query] that went to the network and returned has done. *)
Lemma query_network_returns : forall cm r oc,
  query_network fuel cm transport transaction_id now_set domain record_type
    server port timeout = (Ret r, oc) ->
  exists packet reply resp,
    DNSPacketBuilder.build_query domain record_type transaction_id = Ret packet
    /\ transport packet server port timeout = Ret reply
    /\ parse_response fuel reply (Some transaction_id) = Ret resp
    /\ r = add_query_info resp domain record_type server
    /\ oc = match cm with
            | Some c =>
                if String.eqb (status r) "NOERROR"
                   && (_get_minimum_ttl r >? 0)
                then Some (fst (set copy_value c
                                  (cache_key domain record_type server) r
                                  (_get_minimum_ttl r) now_set tt))
                else Some c
            | None => None
            end.
Proof.
  intros cm r oc H. unfold query_network in H.
  destruct (DNSPacketBuilder.build_query domain record_type transaction_id)
    as [packet| |] eqn:Eb; try discriminate.
  destruct (transport packet server port timeout) as [reply| |] eqn:Et;
    try discriminate.
  destruct (parse_response fuel reply (Some transaction_id)) as [resp| |]
    eqn:Ep; try discriminate.
  cbv zeta in H. exists packet, reply, resp.
  split; [reflexivity|]. split; [exact Et|]. split; [exact Ep|].
  destruct cm as [c|].
  - destruct (String.eqb (status (add_query_info resp domain record_type server))
                "NOERROR") eqn:Es.
    + destruct (_get_minimum_ttl (add_query_info resp domain record_type server)
                >? 0) eqn:Em; inversion H; subst;
        rewrite Es, Em; split; reflexivity.
    + inversion H; subst. rewrite Es. split; reflexivity.
  - inversion H; subst. split; reflexivity.
Qed.

Lemma query_on_miss : forall (c c1 : cache) now_get,
  get copy_value c (cache_key domain record_type server) now_get tt
  = (None, c1, tt) ->
  query fuel (Some c) transport transaction_id now_get now_set domain
    record_type server port timeout
  = query_network fuel (Some c1) transport transaction_id now_set domain
      record_type server port timeout.
Proof. intros c c1 now_get H. unfold query. now rewrite H. Qed.


(** X13. Only NOERROR responses are cached: when a query that missed
    the cache returns a response with any other status (NXDOMAIN,
    SERVFAIL, ...), the response goes to the caller and the cache is as
    the miss left it. *)
Theorem other_status_is_not_cached : forall (c c1 : cache) now_get r oc,
  get copy_value c (cache_key domain record_type server) now_get tt
  = (None, c1, tt) ->
  query fuel (Some c) transport transaction_id now_get now_set domain
    record_type server port timeout = (Ret r, oc) ->
  status r <> "NOERROR"%string ->
  oc = Some c1.
Proof.
  intros c c1 now_get r oc Hget Hq Hst.
  rewrite (query_on_miss c c1 now_get Hget) in Hq.
  destruct (query_network_returns _ _ _ Hq)
    as [packet [reply [resp [_ [_ [_ [_ Hoc]]]]]]].
  apply String.eqb_neq in Hst. rewrite Hst in Hoc. exact Hoc.
Qed.

(** X14. A response obtained from the network (no cache, or a cache
    miss) carries the transaction id that was sent, the queried name, the
    requested type and the server; its status is the one of the reply's
    header; and the record type is one of the supported ones. *)
Theorem network_response_carries_query_info : forall cm now_get r oc,
  (cm = None
   \/ exists c c1, cm = Some c
        /\ get copy_value c (cache_key domain record_type server) now_get tt
           = (None, c1, tt)) ->
  query fuel cm transport transaction_id now_get now_set domain record_type
    server port timeout = (Ret r, oc) ->
  id r = transaction_id
  /\ query_name r = Some domain
  /\ query_type r = Some record_type
  /\ dns_server r = Some server
  /\ supported record_type = true
  /\ exists packet reply hd,
       DNSPacketBuilder.build_query domain record_type transaction_id
       = Ret packet
       /\ transport packet server port timeout = Ret reply
       /\ _parse_header reply 0 = Ret (hd, 12)
       /\ status r = status_of_rcode (h_rcode hd).
Proof.
  intros cm now_get r oc Hcm Hq.
  assert (Hn : exists cm', query_network fuel cm' transport transaction_id
                 now_set domain record_type server port timeout = (Ret r, oc)).
  { destruct Hcm as [->|[c [c1 [-> Hget]]]].
    - exists None. exact Hq.
    - exists (Some c1).
      etransitivity; [symmetry; exact (query_on_miss c c1 now_get Hget)|].
      exact Hq. }
  destruct Hn as [cm' Hn].
  destruct (query_network_returns _ _ _ Hn)
    as [packet [reply [resp [Hb [Ht [Hp [Hr _]]]]]]].
  destruct (parse_response_returns _ _ _ _ Hp)
    as [Hlen [Hid [hd [Hh [H1 [H2 [H3 _]]]]]]].
  subst r. cbn [add_query_info id status query_name query_type dns_server].
  unfold id_accepted in Hid. rewrite Hh in Hid. apply Z.eqb_eq in Hid.
  split; [congruence|]. repeat split.
  - unfold supported. unfold DNSPacketBuilder.build_query in Hb.
    destruct (dict_get String.eqb DNSPacketBuilder.RECORD_TYPES record_type);
      [reflexivity | discriminate].
  - exists packet, reply, hd. repeat split; assumption.
Qed.

End QueryFacts.


Lemma other_status_is_not_cached_witness :
  snd (query 10 (Some (init 100)) (always nxdomain_reply) 0x1234 1000 1001
         "nowhere.example" "A" "8.8.8.8" 53 5)
  = Some (count_miss (init 100)).
Proof.
  apply (other_status_is_not_cached 10 (always nxdomain_reply) 0x1234 1001
           "nowhere.example" "A" "8.8.8.8" 53 5
           (init 100) (count_miss (init 100)) 1000
           (mk_response 0x1234 "NXDOMAIN" 0x8183 [] [] [] []
              (Some "nowhere.example"%string) (Some "A"%string)
              (Some "8.8.8.8"%string))).
  - reflexivity.
  - reflexivity.
  - discriminate.
Defined.

Lemma network_response_carries_query_info_witness :
  id (example_response 60) = 0x1234
  /\ query_name (example_response 60) = Some "example.com"%string.
Proof.
  destruct (network_response_carries_query_info 10
              (always (reply_with_ttl x3c)) 0x1234 1001 "example.com" "A"
              "8.8.8.8" 53 5 None 1000 (example_response 60) None
              (or_introl eq_refl) eq_refl) as [H1 [H2 _]].
  split; [exact H1 | exact H2].
Defined.

(** ** Bulk queries *)


Section BulkFacts.

Variables (fuel : nat) (transport : bytes -> string -> Z -> Z -> run bytes).
Variables (draws : nat -> Z * Z * Z).
Variables (record_type server : string) (port timeout : Z).






End BulkFacts.


(** * Further properties of the parser *)

(** X16. [parse_response] raises in two cases only. A packet shorter
    than 12 bytes is refused as too short; a packet of 12 bytes or more
    whose id differs from the expected one is refused with the mismatch
    message, before any section is looked at (so even when decoding its
    sections would never end); in no other case does an exception come
    out. *)
Theorem parse_response_raises_exactly : forall fuel packet expected_id,
  (len packet < 12 ->
   parse_response fuel packet expected_id
   = Raise (Exception "DNS packet too short (minimum 12 bytes required)"))
  /\ (12 <= len packet ->
      id_accepted packet expected_id = false ->
      exists e hd,
        expected_id = Some e
        /\ _parse_header packet 0 = Ret (hd, 12)
        /\ h_id hd <> e
        /\ parse_response fuel packet expected_id
           = Raise (Exception
                      ("Transaction ID mismatch: expected " ++ str_of_int e
                       ++ ", got " ++ str_of_int (h_id hd))%string))
  /\ ((exists e, parse_response fuel packet expected_id = Raise e)
      <-> len packet < 12 \/ id_accepted packet expected_id = false).
Proof.
  intros fuel packet expected_id.
  assert (Hshort : len packet < 12 ->
            parse_response fuel packet expected_id
            = Raise (Exception "DNS packet too short (minimum 12 bytes required)")).
  { intros H. unfold parse_response.
    replace (len packet <? 12) with true by lia. reflexivity. }
  assert (Hmis : 12 <= len packet ->
            id_accepted packet expected_id = false ->
            exists e hd,
              expected_id = Some e
              /\ _parse_header packet 0 = Ret (hd, 12)
              /\ h_id hd <> e
              /\ parse_response fuel packet expected_id
                 = Raise (Exception
                            ("Transaction ID mismatch: expected "
                             ++ str_of_int e
                             ++ ", got " ++ str_of_int (h_id hd))%string)).
  { intros Hlen Hid. destruct (parse_header_total packet Hlen) as [hd Hh].
    unfold id_accepted in Hid. rewrite Hh in Hid.
    destruct expected_id as [e|]; [|discriminate].
    exists e, hd. split; [reflexivity|]. split; [exact Hh|].
    split; [now apply Z.eqb_neq|].
    unfold parse_response. replace (len packet <? 12) with false by lia.
    cbv zeta. rewrite Hh. cbn [Py.bind]. rewrite Hid. reflexivity. }
  split; [exact Hshort|]. split; [exact Hmis|]. split.
  - intros [e He]. destruct (Z_lt_ge_dec (len packet) 12) as [Hl|Hl];
      [now left|]. right.
    destruct (id_accepted packet expected_id) eqn:Hid; [|reflexivity].
    exfalso. eapply parse_response_never_raises; [| eassumption | eassumption].
    lia.
  - intros [H|H].
    + eexists. now apply Hshort.
    + destruct (Z_lt_ge_dec (len packet) 12) as [Hl|Hl].
      * eexists. now apply Hshort.
      * destruct (Hmis ltac:(lia) H) as [e [hd [_ [_ [_ Hr]]]]].
        eexists. exact Hr.
Qed.

Lemma parse_response_raises_exactly_witness :
  parse_response 0 [x12; x34; x81; x80] None
  = Raise (Exception "DNS packet too short (minimum 12 bytes required)")
  /\ parse_response 0 self_pointing (Some 7)
     = Raise (Exception "Transaction ID mismatch: expected 7, got 4660").
Proof.
  destruct (parse_response_raises_exactly 0 [x12; x34; x81; x80] None)
    as [Hshort _].
  destruct (parse_response_raises_exactly 0 self_pointing (Some 7))
    as [_ [Hmis _]].
  split.
  - apply Hshort. reflexivity.
  - destruct Hmis as [e [hd [He [Hh [_ Hr]]]]].
    + vm_compute. discriminate.
    + reflexivity.
    + injection He as <-. vm_compute in Hh. injection Hh as <-. exact Hr.
Defined.

Lemma parse_items_count : forall (A : Type) (parse_one : Z -> run (A * Z)) n
    offset acc,
  exists items,
    fst (parse_items parse_one n offset acc) = acc ++ items
    /\ (List.length items <= n)%nat
    /\ (forall o, snd (parse_items parse_one n offset acc) = Ret o ->
                  List.length items = n).
Proof.
  intros A parse_one. induction n as [|n IH]; intros offset acc.
  - exists []. cbn. split; [now rewrite app_nil_r|]. split; [lia|reflexivity].
  - cbn [parse_items]. destruct (parse_one offset) as [[x o]|e|].
    + destruct (IH o (acc ++ [x])) as [items [E [Hl Hr]]].
      exists (x :: items). rewrite E, <- app_assoc.
      split; [reflexivity|]. split; [cbn; lia|].
      intros o' Ho. cbn. now rewrite (Hr o' Ho).
    + exists []. cbn. split; [now rewrite app_nil_r|].
      split; [lia | discriminate].
    + exists []. cbn. split; [now rewrite app_nil_r|].
      split; [lia | discriminate].
Qed.

(** X17. The lists of a response never hold more items than the
    header announces, and the sections come in order: a section holds
    items only when every section before it was decoded in full. *)
Theorem sections_follow_header_counts : forall fuel packet expected_id r,
  parse_response fuel packet expected_id = Ret r ->
  exists hd,
    _parse_header packet 0 = Ret (hd, 12)
    /\ (List.length (questions r) <= Z.to_nat (h_qdcount hd))%nat
    /\ (List.length (answers r) <= Z.to_nat (h_ancount hd))%nat
    /\ (List.length (authority r) <= Z.to_nat (h_nscount hd))%nat
    /\ (List.length (additional r) <= Z.to_nat (h_arcount hd))%nat
    /\ (answers r <> [] ->
        List.length (questions r) = Z.to_nat (h_qdcount hd))
    /\ (authority r <> [] ->
        List.length (answers r) = Z.to_nat (h_ancount hd))
    /\ (additional r <> [] ->
        List.length (authority r) = Z.to_nat (h_nscount hd)).
Proof.
  intros fuel packet expected_id r H.
  destruct (parse_response_returns _ _ _ _ H)
    as [_ [_ [hd [Hh [_ [_ [_ Hr]]]]]]].
  exists hd. split; [exact Hh|]. subst r. clear H Hh.
  unfold parse_sections, initial_response.
  cbn [questions answers authority additional].
  destruct (parse_items_count _ (_parse_question fuel packet)
              (Z.to_nat (h_qdcount hd)) 12 []) as [qs [E1 [L1 R1]]].
  destruct (parse_items (_parse_question fuel packet)
              (Z.to_nat (h_qdcount hd)) 12 []) as [qs' o1].
  cbn [fst snd app] in *. subst qs'.
  destruct o1 as [offset1| |];
    [| response_fields; repeat split; (lia || cbn; lia || congruence)
     | response_fields; repeat split; (lia || cbn; lia || congruence)].
  specialize (R1 _ eq_refl). response_fields.
  destruct (parse_items_count _ (_parse_resource_record fuel packet)
              (Z.to_nat (h_ancount hd)) offset1 []) as [ans [E2 [L2 R2]]].
  destruct (parse_items (_parse_resource_record fuel packet)
              (Z.to_nat (h_ancount hd)) offset1 []) as [ans' o2].
  cbn [fst snd app] in *. subst ans'.
  destruct o2 as [offset2| |];
    [| response_fields; repeat split; (lia || cbn; lia || congruence)
     | response_fields; repeat split; (lia || cbn; lia || congruence)].
  specialize (R2 _ eq_refl). response_fields.
  destruct (parse_items_count _ (_parse_resource_record fuel packet)
              (Z.to_nat (h_nscount hd)) offset2 []) as [auth [E3 [L3 R3]]].
  destruct (parse_items (_parse_resource_record fuel packet)
              (Z.to_nat (h_nscount hd)) offset2 []) as [auth' o3].
  cbn [fst snd app] in *. subst auth'.
  destruct o3 as [offset3| |];
    [| response_fields; repeat split; (lia || cbn; lia || congruence)
     | response_fields; repeat split; (lia || cbn; lia || congruence)].
  specialize (R3 _ eq_refl). response_fields.
  destruct (parse_items_count _ (_parse_resource_record fuel packet)
              (Z.to_nat (h_arcount hd)) offset3 []) as [add [E4 [L4 R4]]].
  destruct (parse_items (_parse_resource_record fuel packet)
              (Z.to_nat (h_arcount hd)) offset3 []) as [add' o4].
  cbn [fst snd app] in *. subst add'. response_fields.
  repeat split; (lia || congruence).
Qed.

Lemma sections_follow_header_counts_witness :
  (List.length (answers (mk_response 0x1234 "NOERROR" 0x8180
                           [mk_question "example.com" "A" 1]
                           [mk_record "example.com" "A" 1 60
                              (Text "93.184.216.34")]
                           [] [] None None None)) <= 2)%nat.
Proof.
  destruct (sections_follow_header_counts 5 truncated_answer None
              (mk_response 0x1234 "NOERROR" 0x8180
                 [mk_question "example.com" "A" 1]
                 [mk_record "example.com" "A" 1 60 (Text "93.184.216.34")]
                 [] [] None None None) eq_refl) as [hd [Hh [_ [Ha _]]]].
  vm_compute in Hh. injection Hh as <-. exact Ha.
Defined.

(** ** Numeric fields *)

Lemma len_slice_inside : forall (A : Type) (l : list A) a b,
  0 <= a <= b -> b <= len l -> len (slice l a b) = b - a.
Proof.
  intros A l a b H Hb. unfold slice, clamp.
  replace (a <? 0) with false by lia. replace (b <? 0) with false by lia.
  rewrite !Z.min_l by lia.
  unfold len in *. rewrite length_firstn, length_skipn. lia.
Qed.

Lemma fold_be_bound : forall bs acc,
  0 <= acc ->
  0 <= fold_left (fun acc b => acc * 256 + byte_val b) bs acc
  /\ fold_left (fun acc b => acc * 256 + byte_val b) bs acc
     < (acc + 1) * 256 ^ len bs.
Proof.
  induction bs as [|b bs IH]; intros acc Hacc.
  - cbn. lia.
  - cbn [fold_left]. rewrite len_cons.
    pose proof (byte_val_nonneg b) as Hb0. pose proof (byte_val_bound b) as Hb1.
    pose proof (len_nonneg _ bs) as Hl.
    destruct (IH (acc * 256 + byte_val b) ltac:(lia)) as [H1 H2].
    split; [exact H1|].
    rewrite Z.pow_add_r by lia. change (256 ^ 1) with 256.
    assert (0 < 256 ^ len bs) by (apply Z.pow_pos_nonneg; lia).
    nia.
Qed.

Lemma be_uint_bound : forall bs, 0 <= be_uint bs < 256 ^ len bs.
Proof.
  intros bs. unfold be_uint.
  destruct (fold_be_bound bs 0 ltac:(lia)) as [H1 H2]. lia.
Qed.

Lemma be_uint_slice_bound : forall (bs : bytes) a b,
  0 <= a <= b -> b <= len bs ->
  0 <= be_uint (slice bs a b) < 256 ^ (b - a).
Proof.
  intros bs a b H Hb. rewrite <- (len_slice_inside _ bs a b H Hb).
  apply be_uint_bound.
Qed.

Lemma resource_record_in_range : forall fuel packet offset rec offset',
  _parse_resource_record fuel packet offset = Ret (rec, offset') ->
  record_in_range rec.
Proof.
  intros fuel packet offset rec offset' H. unfold _parse_resource_record in H.
  destruct (_parse_domain_name fuel packet offset) as [[name o]| |];
    cbn [Py.bind] in H; try discriminate.
  unfold unpack_HHIH in H.
  destruct (len (slice packet o (o + 10)) =? 10) eqn:El;
    cbn [Py.bind] in H; [|discriminate].
  apply Z.eqb_eq in El. cbv zeta in H.
  match type of H with
  | Py.bind ?d _ = _ => destruct d as [pd| |]; cbn [Py.bind] in H;
                        try discriminate
  end.
  injection H as <- _. unfold record_in_range. cbn [r_ttl r_class].
  split.
  - change (2 ^ 32) with (256 ^ (8 - 4)). apply be_uint_slice_bound; lia.
  - change (2 ^ 16) with (256 ^ (4 - 2)). apply be_uint_slice_bound; lia.
Qed.

Lemma parse_items_Forall : forall (A : Type) (P : A -> Prop)
    (parse_one : Z -> run (A * Z)) n offset acc,
  (forall o x o', parse_one o = Ret (x, o') -> P x) ->
  Forall P acc ->
  Forall P (fst (parse_items parse_one n offset acc)).
Proof.
  intros A P parse_one. induction n as [|n IH]; intros offset acc Hp Hacc;
    [exact Hacc|].
  cbn [parse_items]. destruct (parse_one offset) as [[x o]|e|] eqn:E;
    [|exact Hacc|exact Hacc].
  apply IH; [exact Hp|]. apply Forall_app. split; [exact Hacc|].
  constructor; [|constructor]. eapply Hp. exact E.
Qed.

Lemma parse_sections_records_in_range : forall fuel packet hd offset r0,
  Forall record_in_range (answers r0) ->
  Forall record_in_range (authority r0) ->
  Forall record_in_range (additional r0) ->
  Forall record_in_range (answers (fst (parse_sections fuel packet hd offset r0)))
  /\ Forall record_in_range
       (authority (fst (parse_sections fuel packet hd offset r0)))
  /\ Forall record_in_range
       (additional (fst (parse_sections fuel packet hd offset r0))).
Proof.
  intros fuel packet hd offset r0 Ha Hu Hd. unfold parse_sections.
  assert (Hrr : forall o x o',
             _parse_resource_record fuel packet o = Ret (x, o') ->
             record_in_range x)
    by (intros; eapply resource_record_in_range; eassumption).
  destruct (parse_items (_parse_question fuel packet) _ offset _) as [qs o1].
  destruct o1 as [offset1| |]; [|repeat split; assumption|repeat split; assumption].
  pose proof (parse_items_Forall _ record_in_range
                (_parse_resource_record fuel packet) (Z.to_nat (h_ancount hd))
                offset1 (answers (set_questions r0 qs)) Hrr Ha) as F2.
  destruct (parse_items (_parse_resource_record fuel packet) _ offset1 _)
    as [ans o2]. cbn [fst] in F2.
  destruct o2 as [offset2| |]; [|repeat split; assumption|repeat split; assumption].
  pose proof (parse_items_Forall _ record_in_range
                (_parse_resource_record fuel packet) (Z.to_nat (h_nscount hd))
                offset2
                (authority (set_answers (set_questions r0 qs) ans)) Hrr Hu)
    as F3.
  destruct (parse_items (_parse_resource_record fuel packet) _ offset2 _)
    as [auth o3]. cbn [fst] in F3.
  destruct o3 as [offset3| |]; [|repeat split; assumption|repeat split; assumption].
  pose proof (parse_items_Forall _ record_in_range
                (_parse_resource_record fuel packet) (Z.to_nat (h_arcount hd))
                offset3
                (additional
                   (set_authority (set_answers (set_questions r0 qs) ans) auth))
                Hrr Hd) as F4.
  destruct (parse_items (_parse_resource_record fuel packet) _ offset3 _)
    as [add o4]. cbn [fst] in F4.
  repeat split; assumption.
Qed.

(** X18. Every record of a decoded response has a TTL between 0 and
    2^32 - 1 and a class between 0 and 65535; the minimum TTL that the
    resolver computes from it is therefore never negative, so the only
    NOERROR responses it does not cache are those with a record of TTL
    0. *)
Theorem decoded_ttls_are_unsigned : forall fuel packet expected_id r,
  parse_response fuel packet expected_id = Ret r ->
  Forall record_in_range (answers r)
  /\ Forall record_in_range (authority r)
  /\ Forall record_in_range (additional r)
  /\ 0 <= DNSClient._get_minimum_ttl r < 2 ^ 32.
Proof.
  intros fuel packet expected_id r H.
  destruct (parse_response_returns _ _ _ _ H)
    as [_ [_ [hd [_ [_ [_ [_ Hr]]]]]]].
  destruct (parse_sections_records_in_range fuel packet hd 12
              (initial_response hd) (Forall_nil _) (Forall_nil _)
              (Forall_nil _)) as [Ha [Hu Hd]].
  rewrite <- Hr in Ha, Hu, Hd.
  split; [exact Ha|]. split; [exact Hu|]. split; [exact Hd|].
  pose proof (minimum_ttl_is_least r) as Hm. unfold is_minimum_ttl in Hm.
  cbv zeta in Hm.
  destruct (map r_ttl (answers r ++ authority r ++ additional r))
    as [|t ts] eqn:E.
  - rewrite Hm. cbn. lia.
  - destruct Hm as [Hin _]. rewrite <- E in Hin.
    apply in_map_iff in Hin as [rec [Et Hin]].
    assert (Hrec : record_in_range rec).
    { apply in_app_or in Hin as [Hin|Hin];
        [|apply in_app_or in Hin as [Hin|Hin]];
        eapply Forall_forall in Hin; eauto. }
    destruct Hrec as [Ht _]. rewrite <- Et. exact Ht.
Qed.

Lemma decoded_ttls_are_unsigned_witness :
  0 <= DNSClient._get_minimum_ttl
         (mk_response 0x1234 "NOERROR" 0x8180
            [mk_question "example.com" "A" 1]
            [mk_record "example.com" "A" 1 60 (Text "93.184.216.34")]
            [] [] None None None) < 2 ^ 32.
Proof.
  exact (proj2 (proj2 (proj2
    (decoded_ttls_are_unsigned 5 (reply_with_ttl x3c) (Some 0x1234) _ eq_refl)))).
Defined.

(** X19. The header fields fit their sizes whatever the packet holds:
    id, flags and the four counts are below 65536, the one-bit flags are 0
    or 1, opcode and rcode are below 16; and the fields cut the flags word
    without overlap: it is rebuilt from them and from the three reserved
    bits, which are the only ones the parser does not extract. *)
Theorem header_fields_partition_flags : forall packet offset hd offset',
  _parse_header packet offset = Ret (hd, offset') ->
  offset' = offset + 12
  /\ 0 <= h_id hd < 65536
  /\ 0 <= h_flags hd < 65536
  /\ 0 <= h_qdcount hd < 65536
  /\ 0 <= h_ancount hd < 65536
  /\ 0 <= h_nscount hd < 65536
  /\ 0 <= h_arcount hd < 65536
  /\ 0 <= h_qr hd <= 1
  /\ 0 <= h_opcode hd < 16
  /\ 0 <= h_rcode hd < 16
  /\ h_flags hd
     = h_qr hd * 32768 + h_opcode hd * 2048 + h_aa hd * 1024
       + h_tc hd * 512 + h_rd hd * 256 + h_ra hd * 128
       + (h_flags hd / 16 mod 8) * 16 + h_rcode hd.
Proof.
  intros packet offset hd offset' H. unfold _parse_header, unpack_HHHHHH in H.
  destruct (len (slice packet offset (offset + 12)) =? 12) eqn:El;
    cbn [Py.bind] in H; [|discriminate].
  apply Z.eqb_eq in El. cbv zeta in H. injection H as Hhd Ho. subst hd offset'.
  cbn [h_id h_flags h_qdcount h_ancount h_nscount h_arcount h_qr h_opcode
       h_aa h_tc h_rd h_ra h_rcode].
  set (bs := slice packet offset (offset + 12)) in *.
  assert (B : forall a b, 0 <= a -> b = a + 2 -> b <= 12 ->
                0 <= be_uint (slice bs a b) < 65536).
  { intros a b Ha -> Hb.
    pose proof (be_uint_slice_bound bs a (a + 2) ltac:(lia) ltac:(lia)) as Hu.
    replace (a + 2 - a) with 2 in Hu by lia. exact Hu. }
  pose proof (B 2 4 ltac:(lia) eq_refl ltac:(lia)) as Hf.
  set (f := be_uint (slice bs 2 4)) in *.
  rewrite !Z.shiftr_div_pow2 by lia.
  change (Z.land (f / 2 ^ 15) 1) with (Z.land (f / 2 ^ 15) (Z.ones 1)).
  change (Z.land (f / 2 ^ 10) 1) with (Z.land (f / 2 ^ 10) (Z.ones 1)).
  change (Z.land (f / 2 ^ 9) 1) with (Z.land (f / 2 ^ 9) (Z.ones 1)).
  change (Z.land (f / 2 ^ 8) 1) with (Z.land (f / 2 ^ 8) (Z.ones 1)).
  change (Z.land (f / 2 ^ 7) 1) with (Z.land (f / 2 ^ 7) (Z.ones 1)).
  change (Z.land (f / 2 ^ 11) 15) with (Z.land (f / 2 ^ 11) (Z.ones 4)).
  change (Z.land f 15) with (Z.land f (Z.ones 4)).
  rewrite !Z.land_ones by lia.
  change (2 ^ 15) with 32768. change (2 ^ 11) with 2048.
  change (2 ^ 10) with 1024. change (2 ^ 9) with 512.
  change (2 ^ 8) with 256. change (2 ^ 7) with 128.
  change (2 ^ 4) with 16. change (2 ^ 1) with 2.
  split; [reflexivity|].
  split; [apply B; lia|]. split; [exact Hf|].
  split; [apply B; lia|]. split; [apply B; lia|].
  split; [apply B; lia|]. split; [apply B; lia|].
  repeat split; Z.div_mod_to_equations; lia.
Qed.

Lemma header_fields_partition_flags_witness :
  0 <= h_rcode (mk_header 0x1234 0x8183 0 0 0 0 1 0 0 0 1 1 3) < 16.
Proof.
  exact (proj1 (proj2 (proj2 (proj2 (proj2 (proj2 (proj2 (proj2 (proj2 (proj2
    (header_fields_partition_flags nxdomain_reply 0 _ 12 eq_refl))))))))))).
Defined.

(** * Further properties of the builder *)

(** ** A query read back by the parser *)

Lemma record_type_codes : forall record_type qtype,
  dict_get String.eqb DNSPacketBuilder.RECORD_TYPES record_type = Some qtype ->
  dict_get Z.eqb DNSPacketParser.RECORD_TYPES qtype = Some record_type
  /\ pack_Hs [qtype; CLASS_IN] = Ret [x00; byte_of_Z qtype; x00; x01]
  /\ be_uint [x00; byte_of_Z qtype] = qtype.
Proof.
  intros rt q H. unfold DNSPacketBuilder.RECORD_TYPES in H.
  cbn [dict_get] in H.
  repeat match type of H with
         | (if String.eqb ?s rt then _ else _) = _ =>
             destruct (String.eqb s rt) eqn:E;
             [apply String.eqb_eq in E; subst rt; injection H as <-;
              repeat split; reflexivity|clear E]
         end.
  discriminate.
Qed.

Lemma id_field_range : forall transaction_id,
  0 <= Z.land transaction_id 0xFFFF < 65536.
Proof.
  intros tid. change 0xFFFF with (Z.ones 16). rewrite Z.land_ones by lia.
  apply Z.mod_pos_bound. reflexivity.
Qed.

Lemma build_header_bytes : forall transaction_id,
  _build_header transaction_id
  = Ret [byte_of_Z (Z.land transaction_id 0xFFFF / 256);
         byte_of_Z (Z.land transaction_id 0xFFFF mod 256);
         x01; x00; x00; x01; x00; x00; x00; x00; x00; x00].
Proof.
  intros tid. unfold _build_header. cbv zeta.
  pose proof (id_field_range tid) as Hr.
  cbn [pack_Hs]. unfold pack_H at 1.
  replace ((0 <=? Z.land tid 65535) && (Z.land tid 65535 <? 65536))
    with true by (change 65535 with 0xFFFF; lia).
  cbn [Py.bind]. reflexivity.
Qed.

Lemma slice_prefix : forall (A : Type) (pre post : list A) n,
  n = len pre -> slice (pre ++ post) 0 n = pre.
Proof.
  intros A pre post n ->. exact (slice_middle A [] pre post).
Qed.

Lemma parse_header_of_query : forall v rest,
  0 <= v < 65536 ->
  _parse_header
    ([byte_of_Z (v / 256); byte_of_Z (v mod 256);
      x01; x00; x00; x01; x00; x00; x00; x00; x00; x00] ++ rest) 0
  = Ret (mk_header v 0x0100 1 0 0 0 0 0 0 0 1 0 0, 12).
Proof.
  intros v rest Hv. unfold _parse_header.
  rewrite (slice_prefix _ _ rest (0 + 12)) by reflexivity.
  assert (H1 : byte_val (byte_of_Z (v / 256)) = v / 256)
    by (apply byte_val_of_Z; Z.div_mod_to_equations; lia).
  assert (H2 : byte_val (byte_of_Z (v mod 256)) = v mod 256)
    by (apply byte_val_of_Z; Z.div_mod_to_equations; lia).
  revert H1 H2.
  generalize (byte_of_Z (v / 256)) (byte_of_Z (v mod 256)). intros b1 b2 H1 H2.
  assert (Hid : byte_val b1 * 256 + byte_val b2 = v)
    by (rewrite H1, H2; Z.div_mod_to_equations; lia).
  rewrite <- Hid. reflexivity.
Qed.

Lemma encode_valid_domain : forall domain,
  valid_domain domain = true ->
  _encode_domain_name domain
  = Ret (labels_bytes (split "."%char domain) ++ [x00]).
Proof.
  intros domain Hv. pose proof (valid_domain_labels domain Hv) as Hlab.
  unfold _encode_domain_name. unfold valid_domain in Hv.
  apply andb_prop in Hv as [Hv _]. apply andb_prop in Hv as [Hv _].
  replace ((slen domain =? 0) || (slen domain >? 253)) with false by lia.
  rewrite (encode_labels_accepts _ [] Hlab). reflexivity.
Qed.

Lemma len_encoded_valid_domain : forall domain,
  len (labels_bytes (split "."%char domain) ++ [x00]) = slen domain + 2.
Proof.
  intros domain.
  rewrite len_app, len_labels_bytes, split_total_length.
  change (len [x00]) with 1. lia.
Qed.

Lemma decode_built_name : forall domain header tail fuel,
  valid_domain domain = true ->
  len header = 12 ->
  (List.length (split "."%char domain) < fuel)%nat ->
  _parse_domain_name fuel
    (header ++ (labels_bytes (split "."%char domain) ++ [x00]) ++ tail) 12
  = Ret (domain, 12 + (slen domain + 2)).
Proof.
  intros domain header tail fuel Hv Hlen Hf.
  pose proof (valid_domain_labels domain Hv) as Hlab.
  unfold _parse_domain_name. rewrite <- Hlen at 1.
  rewrite (decode_plain_labels (split "."%char domain)
             (header ++ (labels_bytes (split "."%char domain) ++ [x00]) ++ tail)
             header tail fuel [] 12 Hlab).
  - cbn [app]. unfold finish_name.
    pose proof (split_not_nil "."%char domain) as Hn.
    pose proof (join_split "."%char domain) as Hj.
    destruct (split "."%char domain) as [|l ls] eqn:E; [contradiction|].
    rewrite Hj. rewrite <- E, len_labels_bytes, split_total_length, Hlen.
    f_equal. f_equal. lia.
  - now rewrite <- app_assoc.
  - exact Hf.
Qed.

Lemma query_read_back :
  forall domain record_type transaction_id,
  valid_domain domain = true ->
  supported record_type = true ->
  exists packet,
    build_query domain record_type transaction_id = Ret packet
    /\ len packet = slen domain + 18
    /\ forall fuel,
         (List.length (split "."%char domain) < fuel)%nat ->
         parse_response fuel packet (Some (Z.land transaction_id 0xFFFF))
         = Ret (mk_response (Z.land transaction_id 0xFFFF) "NOERROR" 0x0100
                  [mk_question domain record_type 1] [] [] []
                  None None None).
Proof.
  intros domain rt tid Hv Hs. unfold supported in Hs.
  destruct (dict_get String.eqb DNSPacketBuilder.RECORD_TYPES rt)
    as [qtype|] eqn:E; [clear Hs|discriminate].
  destruct (record_type_codes rt qtype E) as [Hback [Htail Hcode]].
  pose proof (id_field_range tid) as Hid.
  set (v := Z.land tid 0xFFFF) in *.
  set (header := [byte_of_Z (v / 256); byte_of_Z (v mod 256);
                  x01; x00; x00; x01; x00; x00; x00; x00; x00; x00]).
  set (qname := labels_bytes (split "."%char domain) ++ [x00]).
  set (tail := [x00; byte_of_Z qtype; x00; x01]).
  assert (Hb : build_query domain rt tid = Ret (header ++ qname ++ tail)).
  { unfold build_query. rewrite E, build_header_bytes. cbn [Py.bind].
    unfold _build_question. rewrite (encode_valid_domain domain Hv).
    cbn [Py.bind]. rewrite E. cbv zeta. rewrite Htail. reflexivity. }
  assert (Hlq : len qname = slen domain + 2)
    by apply len_encoded_valid_domain.
  assert (Hlh : len header = 12) by reflexivity.
  assert (Hlt : len tail = 4) by reflexivity.
  exists (header ++ qname ++ tail). split; [exact Hb|].
  split; [rewrite !len_app; lia|].
  intros fuel Hf.
  assert (Hh : _parse_header (header ++ qname ++ tail) 0
               = Ret (mk_header v 0x0100 1 0 0 0 0 0 0 0 1 0 0, 12))
    by (apply parse_header_of_query; exact Hid).
  rewrite (parse_response_sections fuel _ (Some v)
             (mk_header v 0x0100 1 0 0 0 0 0 0 0 1 0 0) 12).
  - assert (Hq : _parse_question fuel (header ++ qname ++ tail) 12
                 = Ret (mk_question domain rt 1, 12 + (slen domain + 2) + 4)).
    { unfold _parse_question.
      pose proof (decode_built_name domain header tail fuel Hv Hlh Hf) as Hd.
      fold qname in Hd. rewrite Hd. cbn [Py.bind].
      assert (Hsl : slice (header ++ qname ++ tail) (12 + (slen domain + 2))
                      (12 + (slen domain + 2) + 4) = tail).
      { replace (header ++ qname ++ tail)
          with ((header ++ qname) ++ tail ++ [])
          by (now rewrite app_nil_r, <- app_assoc).
        replace (12 + (slen domain + 2)) with (len (header ++ qname))
          by (rewrite len_app; lia).
        rewrite <- Hlt. apply slice_middle. }
      rewrite Hsl. unfold unpack_HH. rewrite Hlt. cbn [Z.eqb Pos.eqb Py.bind].
      change (slice tail 0 2) with [x00; byte_of_Z qtype].
      change (slice tail 2 4) with [x00; x01].
      rewrite Hcode. cbv zeta. rewrite Hback. reflexivity. }
    unfold parse_sections, initial_response.
    cbn [h_qdcount h_ancount h_nscount h_arcount h_id h_flags h_rcode
         questions answers authority additional].
    change (Z.to_nat 1) with 1%nat. change (Z.to_nat 0) with 0%nat.
    cbn [parse_items]. rewrite Hq. cbn [app parse_items]. reflexivity.
  - rewrite !len_app. pose proof (len_nonneg _ qname). lia.
  - exact Hh.
  - unfold id_accepted. rewrite Hh. apply Z.eqb_refl.
Qed.

(** X20. The query that [build_query] makes for a valid domain and a
    supported record type has 18 bytes more than the domain has
    characters, and the tool's own parser, given the transaction id the
    query carries, reads it back as a NOERROR message with the
    recursion-desired flag only, one question (the domain, the record type
    under its name, class 1) and no records. *)
Theorem built_query_parses_as_its_question :
  forall domain record_type transaction_id,
  valid_domain domain = true ->
  supported record_type = true ->
  exists packet,
    build_query domain record_type transaction_id = Ret packet
    /\ len packet = slen domain + 18
    /\ forall fuel,
         (List.length (split "."%char domain) < fuel)%nat ->
         parse_response fuel packet (Some (Z.land transaction_id 0xFFFF))
         = Ret (mk_response (Z.land transaction_id 0xFFFF) "NOERROR" 0x0100
                  [mk_question domain record_type 1] [] [] []
                  None None None).
Proof. exact query_read_back. Qed.

Lemma built_query_parses_as_its_question_witness :
  exists packet,
    build_query "example.com" "MX" 0x1234 = Ret packet
    /\ len packet = 29
    /\ parse_response 3 packet (Some 0x1234)
       = Ret (mk_response 0x1234 "NOERROR" 0x0100
                [mk_question "example.com" "MX" 1] [] [] [] None None None).
Proof.
  destruct (built_query_parses_as_its_question "example.com" "MX" 0x1234)
    as [packet [Hb [Hl Hp]]]; [reflexivity | reflexivity |].
  exists packet. split; [exact Hb|]. split; [exact Hl|].
  apply (Hp 3%nat). cbn. lia.
Defined.

(** ** Which queries are built *)

Lemma encode_labels_skips_empty : forall ls encoded,
  encode_labels ls encoded
  = encode_labels (filter (fun l => negb (slen l =? 0)) ls) encoded.
Proof.
  induction ls as [|l ls IH]; intros encoded; [reflexivity|].
  cbn [filter encode_labels].
  destruct (slen l =? 0) eqn:E0; cbn [negb]; [apply IH|].
  cbn [encode_labels]. rewrite E0.
  destruct (slen l >? 63); [reflexivity|].
  destruct (pack_B (slen l)) as [n| |]; cbn [Py.bind]; try reflexivity.
  destruct (encode_ascii l) as [b| |]; cbn [Py.bind]; try reflexivity.
  apply IH.
Qed.

Lemma encode_labels_ok : forall ls encoded,
  forallb label_ok ls = true ->
  encode_labels ls encoded
  = Ret (encoded
         ++ labels_bytes (filter (fun l => negb (slen l =? 0)) ls)).
Proof.
  intros ls encoded H. rewrite encode_labels_skips_empty.
  apply encode_labels_accepts.
  induction ls as [|l ls IH]; [reflexivity|].
  cbn [forallb] in H. apply andb_prop in H as [Hl Hls].
  cbn [filter]. destruct (slen l =? 0) eqn:E0; cbn [negb]; [now apply IH|].
  cbn [forallb]. rewrite Hl, (IH Hls).
  assert (0 <= slen l) by (unfold slen; lia).
  replace (1 <=? slen l) with true by lia. reflexivity.
Qed.

Lemma encode_labels_fails : forall ls encoded,
  forallb label_ok ls = false ->
  exists e, encode_labels ls encoded = Raise e.
Proof.
  induction ls as [|l ls IH]; intros encoded H; [discriminate|].
  cbn [forallb] in H. cbn [encode_labels].
  assert (Hn : 0 <= slen l) by (unfold slen; lia).
  destruct (slen l =? 0) eqn:E0.
  - assert (Hl : label_ok l = true).
    { unfold label_ok. destruct l as [|c l]; [reflexivity|].
      exfalso. apply Z.eqb_eq in E0. unfold slen in E0.
      cbn [String.length] in E0. lia. }
    rewrite Hl in H. now apply IH.
  - destruct (slen l >? 63) eqn:E63; [eexists; reflexivity|].
    unfold pack_B. replace ((0 <=? slen l) && (slen l <? 256)) with true by lia.
    cbn [Py.bind]. unfold encode_ascii.
    destruct (forallb is_ascii (list_ascii_of_string l)) eqn:Ea;
      cbn [Py.bind]; [|eexists; reflexivity].
    assert (Hl : label_ok l = true).
    { unfold label_ok. rewrite Ea. replace (slen l <=? 63) with true by lia.
      reflexivity. }
    rewrite Hl in H. now apply IH.
Qed.

Lemma len_nonempty_labels : forall domain,
  len (labels_bytes (nonempty_labels domain)) = encoded_length domain.
Proof.
  intros domain. unfold nonempty_labels, encoded_length.
  induction (split "."%char domain) as [|l ls IH]; [reflexivity|].
  cbn [filter fold_right]. destruct (slen l =? 0); cbn [negb]; [exact IH|].
  unfold labels_bytes in *. cbn [flat_map].
  rewrite len_app, len_label_bytes, IH. reflexivity.
Qed.

Lemma encode_domain_name_outcome : forall domain,
  (1 <= slen domain <= 253
   /\ forallb label_ok (split "."%char domain) = true
   /\ _encode_domain_name domain
      = Ret (labels_bytes (nonempty_labels domain) ++ [x00]))
  \/ ((slen domain < 1 \/ 253 < slen domain
       \/ forallb label_ok (split "."%char domain) = false)
      /\ exists e, _encode_domain_name domain = Raise e).
Proof.
  intros domain. unfold _encode_domain_name.
  assert (Hn : 0 <= slen domain) by (unfold slen; lia).
  destruct ((slen domain =? 0) || (slen domain >? 253)) eqn:El.
  - right. split; [lia|eexists; reflexivity].
  - destruct (forallb label_ok (split "."%char domain)) eqn:Eok.
    + left. split; [lia|]. split; [reflexivity|].
      rewrite (encode_labels_ok _ [] Eok). reflexivity.
    + right. split; [now right; right|].
      destruct (encode_labels_fails _ [] Eok) as [e He].
      exists e. rewrite He. reflexivity.
Qed.

(** X21. [build_query] returns a packet exactly when the record type is
    one of the seven supported ones, the domain has 1 to 253 characters and
    each of its dot-separated parts is ASCII and at most 63 characters
    long; the packet then has 17 bytes more than the encoded labels. In
    every other case it raises, and an unsupported record type is reported
    before the domain is looked at. *)
Theorem build_query_accepts_exactly : forall domain record_type transaction_id,
  ((exists packet, build_query domain record_type transaction_id = Ret packet)
   <-> (supported record_type = true
        /\ 1 <= slen domain <= 253
        /\ forallb label_ok (split "."%char domain) = true))
  /\ (forall packet,
        build_query domain record_type transaction_id = Ret packet ->
        len packet = 17 + encoded_length domain)
  /\ ((exists packet,
         build_query domain record_type transaction_id = Ret packet)
      \/ exists e, build_query domain record_type transaction_id = Raise e)
  /\ (supported record_type = false ->
      build_query domain record_type transaction_id
      = Raise (ValueError ("Unsupported record type: " ++ record_type)%string)).
Proof.
  intros domain rt tid.
  assert (Hun : supported rt = false ->
                build_query domain rt tid
                = Raise (ValueError ("Unsupported record type: " ++ rt)%string)).
  { unfold supported, build_query.
    destruct (dict_get String.eqb DNSPacketBuilder.RECORD_TYPES rt);
      [discriminate|reflexivity]. }
  destruct (supported rt) eqn:Es.
  - destruct (encode_domain_name_outcome domain)
      as [[Hlen [Hok Henc]]|[Hbad [e He]]].
    + assert (Hq : exists q,
                 dict_get String.eqb DNSPacketBuilder.RECORD_TYPES rt = Some q).
      { unfold supported in Es.
        destruct (dict_get String.eqb DNSPacketBuilder.RECORD_TYPES rt)
          as [q|]; [now exists q|discriminate]. }
      destruct Hq as [q E].
      destruct (record_type_codes rt q E) as [_ [Ht _]].
      set (header := [byte_of_Z (Z.land tid 0xFFFF / 256);
                      byte_of_Z (Z.land tid 0xFFFF mod 256);
                      x01; x00; x00; x01; x00; x00; x00; x00; x00; x00]).
      set (tail := [x00; byte_of_Z q; x00; x01]).
      assert (Hb : build_query domain rt tid
                   = Ret (header
                          ++ (labels_bytes (nonempty_labels domain) ++ [x00])
                          ++ tail)).
      { unfold build_query. rewrite E, build_header_bytes. cbn [Py.bind].
        unfold _build_question. rewrite Henc. cbn [Py.bind]. rewrite E.
        cbv zeta. rewrite Ht. reflexivity. }
      assert (Hlh : len header = 12) by reflexivity.
      assert (Hlt : len tail = 4) by reflexivity.
      split; [|split; [|split]].
      * split; [intros _; auto|intros _; eexists; exact Hb].
      * intros packet Hp.
        assert (Hpk : packet
                      = header
                        ++ (labels_bytes (nonempty_labels domain) ++ [x00])
                        ++ tail) by congruence.
        rewrite Hpk, !len_app, len_nonempty_labels, Hlh, Hlt.
        change (len [x00]) with 1. lia.
      * left. eexists. exact Hb.
      * discriminate.
    + pose proof (build_query_encode_error domain rt tid e Es He) as Hb.
      split; [|split; [|split]].
      * split.
        -- intros [packet Hp]. rewrite Hb in Hp. discriminate.
        -- intros [_ [Hlen Hok]]. destruct Hbad as [H|[H|H]];
             [lia|lia|rewrite Hok in H; discriminate].
      * intros packet Hp. rewrite Hb in Hp. discriminate.
      * right. exists e. exact Hb.
      * discriminate.
  - specialize (Hun eq_refl).
    split; [|split; [|split]].
    + split.
      * intros [packet Hp]. rewrite Hun in Hp. discriminate.
      * intros [H _]. discriminate.
    + intros packet Hp. rewrite Hun in Hp. discriminate.
    + right. eexists. exact Hun.
    + intros _. exact Hun.
Qed.

(** X22. Empty parts of a domain are not encoded: two domains of 1 to
    253 characters with the same non-empty labels in the same order, such
    as a name with and without its trailing dot, give the same outcome,
    packet or error, for every record type and transaction id. *)
Theorem empty_labels_are_dropped :
  forall domain1 domain2 record_type transaction_id,
  1 <= slen domain1 <= 253 ->
  1 <= slen domain2 <= 253 ->
  nonempty_labels domain1 = nonempty_labels domain2 ->
  build_query domain1 record_type transaction_id
  = build_query domain2 record_type transaction_id.
Proof.
  intros d1 d2 rt tid H1 H2 Hl.
  assert (He : _encode_domain_name d1 = _encode_domain_name d2).
  { unfold _encode_domain_name.
    replace ((slen d1 =? 0) || (slen d1 >? 253)) with false by lia.
    replace ((slen d2 =? 0) || (slen d2 >? 253)) with false by lia.
    rewrite (encode_labels_skips_empty (split "."%char d1)).
    rewrite (encode_labels_skips_empty (split "."%char d2)).
    unfold nonempty_labels in Hl. rewrite Hl. reflexivity. }
  unfold build_query, _build_question. rewrite He. reflexivity.
Qed.

Lemma empty_labels_are_dropped_witness :
  build_query "example.com." "A" 7 = build_query "example..com" "A" 7.
Proof.
  apply empty_labels_are_dropped.
  - cbn. lia.
  - cbn. lia.
  - reflexivity.
Defined.

(** ** Reverse queries *)

Lemma split_app_sep : forall sep s1 s2,
  split sep (s1 ++ String sep s2) = split sep s1 ++ split sep s2.
Proof.
  intros sep s1 s2. induction s1 as [|c s1 IH].
  - cbn [append split]. rewrite Ascii.eqb_refl. reflexivity.
  - cbn [append split]. destruct (Ascii.eqb c sep).
    + rewrite IH. reflexivity.
    + rewrite IH. pose proof (split_not_nil sep s1) as Hn.
      destruct (split sep s1) as [|l ls]; [contradiction|]. reflexivity.
Qed.

Lemma split_part_has_no_sep : forall sep s l,
  In l (split sep s) -> split sep l = [l].
Proof.
  intros sep s. induction s as [|c s IH]; intros l Hin.
  - cbn in Hin. destruct Hin as [<-|[]]. reflexivity.
  - cbn [split] in Hin. destruct (Ascii.eqb c sep) eqn:Ec.
    + destruct Hin as [<-|Hin]; [reflexivity|now apply IH].
    + pose proof (split_not_nil sep s) as Hn.
      destruct (split sep s) as [|l0 ls]; [contradiction|].
      destruct Hin as [<-|Hin].
      * cbn [split]. rewrite Ec, (IH l0 (or_introl eq_refl)). reflexivity.
      * apply IH. now right.
Qed.

Lemma split_join : forall sep ls,
  ls <> [] ->
  (forall l, In l ls -> split sep l = [l]) ->
  split sep (join (String sep EmptyString) ls) = ls.
Proof.
  intros sep ls. induction ls as [|l ls IH]; intros Hn Hl; [contradiction|].
  destruct ls as [|l' ls].
  - cbn. apply Hl. now left.
  - change (join (String sep EmptyString) (l :: l' :: ls))
      with (l ++ String sep (join (String sep EmptyString) (l' :: ls)))%string.
    rewrite split_app_sep, (Hl l (or_introl eq_refl)), IH.
    + reflexivity.
    + discriminate.
    + intros x Hx. apply Hl. now right.
Qed.

Lemma join_app : forall sep ls1 ls2,
  ls1 <> [] -> ls2 <> [] ->
  join (String sep EmptyString) (ls1 ++ ls2)
  = (join (String sep EmptyString) ls1
     ++ String sep (join (String sep EmptyString) ls2))%string.
Proof.
  intros sep ls1 ls2 H1 H2. induction ls1 as [|l ls1 IH]; [contradiction|].
  destruct ls1 as [|l' ls1].
  - destruct ls2 as [|x ls2]; [contradiction|]. reflexivity.
  - change (join (String sep EmptyString) ((l :: l' :: ls1) ++ ls2))
      with (l ++ String sep
                   (join (String sep EmptyString) ((l' :: ls1) ++ ls2)))%string.
    rewrite IH by discriminate.
    change (join (String sep EmptyString) (l :: l' :: ls1))
      with (l ++ String sep (join (String sep EmptyString) (l' :: ls1)))%string.
    generalize (join (String sep EmptyString) (l' :: ls1)).
    generalize (String sep (join (String sep EmptyString) ls2)).
    intros t u. induction l as [|c l IHl]; [reflexivity|].
    cbn [append]. now rewrite IHl.
Qed.

Lemma chars_app : forall s1 s2,
  list_ascii_of_string (s1 ++ s2)
  = list_ascii_of_string s1 ++ list_ascii_of_string s2.
Proof.
  intros s1 s2. induction s1 as [|c s1 IH]; [reflexivity|].
  cbn [append list_ascii_of_string app]. now rewrite IH.
Qed.

Lemma join_ascii : forall sep ls,
  is_ascii sep = true ->
  forallb (fun l => forallb is_ascii (list_ascii_of_string l)) ls = true ->
  forallb is_ascii (list_ascii_of_string (join (String sep EmptyString) ls))
  = true.
Proof.
  intros sep ls Hs. induction ls as [|l ls IH]; intros H; [reflexivity|].
  cbn [forallb] in H. apply andb_prop in H as [Hl Hls].
  destruct ls as [|l' ls]; [exact Hl|].
  change (join (String sep EmptyString) (l :: l' :: ls))
    with (l ++ String sep (join (String sep EmptyString) (l' :: ls)))%string.
  rewrite chars_app, forallb_app, Hl. cbn [list_ascii_of_string forallb andb].
  rewrite Hs. cbn [andb]. exact (IH Hls).
Qed.

Lemma label_sizes_app : forall a b,
  fold_right (fun l acc => 1 + slen l + acc) 0 (a ++ b)
  = fold_right (fun l acc => 1 + slen l + acc) 0 a
    + fold_right (fun l acc => 1 + slen l + acc) 0 b.
Proof.
  induction a as [|x a IH]; intros b; [reflexivity|].
  cbn [app fold_right]. rewrite IH. lia.
Qed.

Lemma label_sizes_rev : forall ls,
  fold_right (fun l acc => 1 + slen l + acc) 0 (rev ls)
  = fold_right (fun l acc => 1 + slen l + acc) 0 ls.
Proof.
  induction ls as [|l ls IH]; [reflexivity|].
  cbn [rev]. rewrite label_sizes_app, IH. cbn [fold_right]. lia.
Qed.

Lemma reverse_domain_is_valid : forall ip,
  valid_domain ip = true ->
  slen ip <= 240 ->
  let name := join "." (rev (split "."%char ip) ++ ["in-addr"%string; "arpa"%string]) in
  valid_domain name = true
  /\ split "."%char name
     = rev (split "."%char ip) ++ ["in-addr"%string; "arpa"%string]
  /\ (join "." (rev (split "."%char ip)) ++ ".in-addr.arpa")%string = name.
Proof.
  intros ip Hv Hlen name.
  pose proof (split_not_nil "."%char ip) as Hn.
  assert (Hrn : rev (split "."%char ip) <> []).
  { intros E. apply (f_equal (@rev string)) in E. rewrite rev_involutive in E.
    contradiction. }
  assert (Hsplit : split "."%char name
                   = rev (split "."%char ip) ++ ["in-addr"%string; "arpa"%string]).
  { unfold name. apply split_join.
    - intros E. apply app_eq_nil in E as [_ E]. discriminate.
    - intros l Hin. apply in_app_or in Hin as [Hin|Hin].
      + apply in_rev in Hin. eapply split_part_has_no_sep. exact Hin.
      + destruct Hin as [<-|[<-|[]]]; reflexivity. }
  assert (Hname : (join "." (rev (split "."%char ip)) ++ ".in-addr.arpa")%string
                  = name).
  { unfold name. rewrite (join_app "."%char) by (assumption || discriminate).
    reflexivity. }
  split; [|split; [exact Hsplit|exact Hname]].
  unfold valid_domain in *.
  apply andb_prop in Hv as [Hv Hlab]. apply andb_prop in Hv as [Hr Hascii].
  pose proof (split_ascii "."%char ip Hascii) as Hla.
  assert (Hsz : slen name = slen ip + 13).
  { pose proof (split_total_length "."%char name) as Ht. rewrite Hsplit in Ht.
    pose proof (split_total_length "."%char ip) as Hi.
    rewrite <- label_sizes_rev in Hi.
    rewrite label_sizes_app in Ht. cbn [fold_right] in Ht.
    change (slen "in-addr") with 7 in Ht. change (slen "arpa") with 4 in Ht.
    lia. }
  rewrite Hsz, Hsplit.
  assert (Hpos : 0 <= slen ip) by (unfold slen; lia).
  replace ((1 <=? slen ip + 13) && (slen ip + 13 <=? 253)) with true by lia.
  cbn [andb].
  assert (Ha : forallb is_ascii (list_ascii_of_string name) = true).
  { unfold name. apply (join_ascii "."%char); [reflexivity|].
    rewrite forallb_app. apply andb_true_intro. split; [|reflexivity].
    rewrite forallb_forall in *. intros l Hin. apply in_rev in Hin.
    now apply Hla. }
  rewrite Ha. cbn [andb].
  rewrite forallb_app. apply andb_true_intro. split; [|reflexivity].
  rewrite forallb_forall in *. intros l Hin. apply in_rev in Hin.
  now apply Hlab.
Qed.

(** X23. [build_reverse_query] on a text with four dot-separated parts,
    each non-empty, ASCII and at most 63 characters long, builds a query
    that the parser reads back as one PTR question of class 1 for the
    parts in reverse order followed by in-addr.arpa; the parts are not
    checked to be numbers. A text that does not have exactly four parts is
    rejected with the invalid-IP-address error that quotes it. *)
Theorem reverse_query_asks_for_reversed_name : forall ip_address transaction_id,
  (valid_domain ip_address = true ->
   slen ip_address <= 240 ->
   len (split "."%char ip_address) = 4 ->
   exists packet,
     build_reverse_query ip_address transaction_id = Ret packet
     /\ forall fuel,
          (6 < fuel)%nat ->
          parse_response fuel packet (Some (Z.land transaction_id 0xFFFF))
          = Ret (mk_response (Z.land transaction_id 0xFFFF) "NOERROR" 0x0100
                   [mk_question
                      (join "." (rev (split "."%char ip_address)
                                 ++ ["in-addr"%string; "arpa"%string]))
                      "PTR" 1]
                   [] [] [] None None None))
  /\ (len (split "."%char ip_address) <> 4 ->
      build_reverse_query ip_address transaction_id
      = Raise (ValueError ("Invalid IP address: " ++ ip_address)%string)).
Proof.
  intros ip tid. split.
  - intros Hv Hlen H4.
    destruct (reverse_domain_is_valid ip Hv Hlen) as [Hvn [Hsplit Hname]].
    destruct (query_read_back _ "PTR" tid Hvn eq_refl) as [packet [Hb [_ Hp]]].
    exists packet. split.
    + unfold build_reverse_query. cbv zeta.
      replace (len (split "."%char ip) =? 4) with true by lia.
      cbn [negb]. rewrite Hname. exact Hb.
    + intros fuel Hf. apply Hp. rewrite Hsplit, length_app, length_rev.
      unfold len in H4. cbn [List.length]. lia.
  - intros H4. unfold build_reverse_query. cbv zeta.
    replace (len (split "."%char ip) =? 4) with false by lia. reflexivity.
Qed.

Lemma reverse_query_asks_for_reversed_name_witness :
  exists packet,
    build_reverse_query "192.0.2.1" 0x1234 = Ret packet
    /\ parse_response 7 packet (Some 0x1234)
       = Ret (mk_response 0x1234 "NOERROR" 0x0100
                [mk_question "1.2.0.192.in-addr.arpa" "PTR" 1]
                [] [] [] None None None).
Proof.
  destruct (proj1 (reverse_query_asks_for_reversed_name "192.0.2.1" 0x1234))
    as [packet [Hb Hp]]; [reflexivity | cbn; lia | reflexivity |].
  exists packet. split; [exact Hb|]. apply (Hp 7%nat). lia.
Defined.

(** * Further properties of name and record decoding *)

(** ** TXT data *)

Lemma txt_loop_segments : forall segs pre n acc,
  Forall (fun s : bytes => len s <= 255) segs ->
  (List.length segs <= n)%nat ->
  txt_loop n (pre ++ txt_bytes segs) (len pre) acc
  = acc ++ map decode_ascii_ignore segs.
Proof.
  induction segs as [|s segs IH]; intros pre n acc Hs Hn.
  - cbn [txt_bytes flat_map map]. rewrite !app_nil_r.
    destruct n as [|n]; [reflexivity|]. cbn [txt_loop].
    rewrite Z.ltb_irrefl. reflexivity.
  - destruct n as [|n]; [cbn in Hn; lia|].
    inversion Hs as [|s0 segs0 Hl Hsegs]; subst.
    pose proof (len_nonneg _ s) as Hs0.
    pose proof (len_nonneg _ pre) as Hp0.
    pose proof (len_nonneg _ (txt_bytes segs)) as Ht0.
    assert (Hrd : txt_bytes (s :: segs)
                  = byte_of_Z (len s) :: s ++ txt_bytes segs) by reflexivity.
    rewrite Hrd. cbn [txt_loop map].
    assert (Hlt : (len pre <? len (pre ++ byte_of_Z (len s) :: s ++ txt_bytes segs))
                  = true).
    { rewrite len_app, len_cons, len_app. lia. }
    rewrite Hlt, getitem_middle. cbv zeta.
    rewrite byte_val_of_Z by lia.
    assert (Hfit : (len pre + 1 + len s
                    <=? len (pre ++ byte_of_Z (len s) :: s ++ txt_bytes segs))
                   = true).
    { rewrite len_app, len_cons, len_app. lia. }
    rewrite Hfit.
    assert (Hslice : slice (pre ++ byte_of_Z (len s) :: s ++ txt_bytes segs)
                       (len pre + 1) (len pre + 1 + len s) = s).
    { replace (pre ++ byte_of_Z (len s) :: s ++ txt_bytes segs)
        with ((pre ++ [byte_of_Z (len s)]) ++ s ++ txt_bytes segs)
        by (now rewrite <- app_assoc).
      replace (len pre + 1) with (len (pre ++ [byte_of_Z (len s)]))
        by (rewrite len_app; reflexivity).
      apply slice_middle. }
    rewrite Hslice.
    replace (pre ++ byte_of_Z (len s) :: s ++ txt_bytes segs)
      with ((pre ++ byte_of_Z (len s) :: s) ++ txt_bytes segs)
      by (now rewrite <- app_assoc).
    replace (len pre + 1 + len s) with (len (pre ++ byte_of_Z (len s) :: s))
      by (rewrite len_app, len_cons; lia).
    rewrite IH; [|exact Hsegs|cbn in Hn; lia].
    rewrite <- app_assoc. reflexivity.
Qed.

Lemma txt_bytes_length : forall segs,
  (List.length segs <= List.length (txt_bytes segs))%nat.
Proof.
  induction segs as [|s segs IH]; [cbn; lia|].
  unfold txt_bytes in *. cbn [flat_map List.length app].
  rewrite length_app. lia.
Qed.

(** X24. The data of a TXT record that is a sequence of character
    strings, each of at most 255 bytes after its length byte, is decoded
    as their texts (bytes of 128 and more dropped) put together without a
    separator, inside one pair of double quotes; the packet around the
    record plays no part. *)
Theorem txt_data_is_concatenated : forall fuel segs packet,
  Forall (fun s : bytes => len s <= 255) segs ->
  _parse_record_data fuel "TXT" (txt_bytes segs) packet
  = Ret (Text (dquote
               ++ String.concat "" (map decode_ascii_ignore segs)
               ++ dquote)%string).
Proof.
  intros fuel segs packet Hs. unfold _parse_record_data. cbv zeta.
  change (String.eqb "TXT" "A") with false.
  change (String.eqb "TXT" "AAAA") with false.
  change (existsb (String.eqb "TXT") ["NS"; "CNAME"; "PTR"]%string) with false.
  change (String.eqb "TXT" "MX") with false.
  change (String.eqb "TXT" "TXT") with true.
  cbv iota.
  pose proof (txt_loop_segments segs [] (List.length (txt_bytes segs)) []
                Hs (txt_bytes_length segs)) as H.
  cbn [app] in H. change (len (@nil byte)) with 0 in H. rewrite H.
  reflexivity.
Qed.

Lemma txt_data_is_concatenated_witness :
  _parse_record_data 0 "TXT"
    (txt_bytes [[x76; x3d]; [x73; x70; x66; x31]]) []
  = Ret (Text (dquote ++ "v=spf1" ++ dquote)%string).
Proof.
  apply (txt_data_is_concatenated 0 [[x76; x3d]; [x73; x70; x66; x31]] []).
  repeat constructor; cbn; lia.
Defined.

(** ** Names cut short *)



